(** * The metadata and write-path coordinator of a time-series database node

    A shallow embedding of the [Server] of package [influxdb]: the apply
    handlers that the message processor dispatches to, the processor loop
    with its high-water mark and error map, [Sync], [broadcast], the write
    path [WriteSeries] and the query dispatcher [ExecuteQuery].

    Conventions of the embedding.
    - Go's unsigned integers ([uint64], [uint32], [uint8]) are [N], its
      signed ones ([int], [int64]) are [Z]; conversions between them are
      written out, and so is the one conversion of the modelled code that
      can wrap, [uint32(q.Replication)].
    - [time.Time] is the number of nanoseconds since Go's zero time,
      [time.Duration] a number of nanoseconds; [UTC()] only changes the
      location a time is printed in and is the identity here.
    - Go maps are [gmap]s; a pointer stored in a map is modelled by the value
      it points to, and an update through the pointer by re-inserting the
      updated value under the key it was read from.
    - A function that can panic or wait forever returns an [outcome].
    - The lock [s.mu] is not modelled: every function below runs to its end
      before the next one starts. *)

From stdpp Require Import base numbers list strings gmap sorting pretty.

Local Open Scope Z_scope.

(** ** Errors

    Modelled from the spec: the error values [ErrXxx] are declared outside the
    source files at hand; section 7 of the specification lists them.
    [Errorf] stands for the errors built by [fmt.Errorf] and [errors.New] and
    for whatever error a collaborator (metastore, bcrypt, shard store)
    returns. *)
Inductive error : Type :=
  | ErrServerOpen
  | ErrServerClosed
  | ErrPathRequired
  | ErrUnableToJoin
  | ErrDataNodeURLRequired
  | ErrDataNodeExists
  | ErrDataNodeNotFound
  | ErrDatabaseExists
  | ErrDatabaseNotFound
  | ErrRetentionPolicyNameRequired
  | ErrRetentionPolicyExists
  | ErrRetentionPolicyNotFound
  | ErrDefaultRetentionPolicyNotFound
  | ErrShardNotFound
  | ErrMeasurementNotFound
  | ErrSeriesNotFound
  | ErrUsernameRequired
  | ErrUserExists
  | ErrUserNotFound
  | ErrFieldOverflow
  | ErrNotExecuted
  | ErrInvalidCredentials
  | Errorf (msg : string).

#[global] Instance error_eq_dec : EqDecision error.
Proof. solve_decision. Defined.

(** ** Outcomes: return, panic, or wait forever *)

Inductive panic : Type :=
  | DivideByZero            (* integer divide by zero *)
  | IndexOutOfRange         (* index or slice bound out of range *)
  | NilDereference          (* nil pointer dereference *)
  | UnmarshalFailure        (* mustUnmarshalJSON on bytes that do not decode *)
  | MarshalFailure          (* mustMarshalJSON on a value that does not encode *)
  | UnableToOpenShard (e : error)
  | UnsupportedStatement.

#[global] Instance panic_eq_dec : EqDecision panic.
Proof. solve_decision. Defined.

Inductive outcome (A : Type) : Type :=
  | Returns (a : A)
  | Panics (p : panic)
  | Blocks.
Arguments Returns {A} a.
Arguments Panics {A} p.
Arguments Blocks {A}.

#[global] Instance outcome_ret : MRet outcome := λ A a, Returns a.
#[global] Instance outcome_bind : MBind outcome := λ A B f x,
  match x with
  | Returns a => f a
  | Panics p => Panics p
  | Blocks => Blocks
  end.

(** ** Types declared outside the source files

    The URL type of [net/url], the metastore transaction, measurements with
    their field catalogue and series index, the dynamically typed point
    values, the per-shard point store, and the [SELECT] statement of the
    query language are used by the server only through the operations of
    [Collaborators] below. *)
Class Foreign : Type := {
  URL : Type;
  metatx : Type;
  Measurement : Type;
  Value : Type;
  Store : Type;
  SelectStatement : Type;
}.

(** Broker protocol: message types and the broadcast topic. *)
Definition MessageType := N.

Definition createDataNodeMessageType : MessageType := 0x00%N.
Definition deleteDataNodeMessageType : MessageType := 0x01%N.
Definition createDatabaseMessageType : MessageType := 0x10%N.
Definition deleteDatabaseMessageType : MessageType := 0x11%N.
Definition createRetentionPolicyMessageType : MessageType := 0x20%N.
Definition updateRetentionPolicyMessageType : MessageType := 0x21%N.
Definition deleteRetentionPolicyMessageType : MessageType := 0x22%N.
Definition setDefaultRetentionPolicyMessageType : MessageType := 0x23%N.
Definition createUserMessageType : MessageType := 0x30%N.
Definition updateUserMessageType : MessageType := 0x31%N.
Definition deleteUserMessageType : MessageType := 0x32%N.
Definition createShardGroupIfNotExistsMessageType : MessageType := 0x40%N.
Definition createSeriesIfNotExistsMessageType : MessageType := 0x50%N.
Definition writeRawSeriesMessageType : MessageType := 0x80%N.
Definition writeSeriesMessageType : MessageType := 0x81%N.

(** Modelled from the spec: [messaging.BroadcastTopicID] is declared in the
    messaging package; section 6 gives "Topic 0 = broadcast". *)
Definition BroadcastTopicID : N := 0%N.

(** Modelled from the spec: [pointHeaderSize] is declared outside the source
    files; section 6 gives a fixed 12-byte header. *)
Definition pointHeaderSize : nat := 12.

Section Model.
Context `{F : Foreign}.

(** ** Topology *)

Record DataNode : Type := mkDataNode {
  dn_ID : N;
  dn_URL : URL;
}.

(** Modelled from the spec: [Shard], [ShardGroup], [RetentionPolicy] and
    [database] are declared outside the source files; their fields are the
    ones the server reads and writes, as section 3 lists them. *)
Record Shard : Type := mkShard {
  sh_ID : N;
  sh_DataNodeIDs : list N;
  sh_store : option Store;
}.

Record ShardGroup : Type := mkShardGroup {
  g_ID : N;
  g_StartTime : Z;
  g_EndTime : Z;
  g_Shards : list Shard;
}.

Record RetentionPolicy : Type := mkRetentionPolicy {
  rp_Name : string;
  rp_Duration : Z;
  rp_ReplicaN : N;
  rp_SplitN : N;
  rp_shardGroups : list ShardGroup;
}.

Record database : Type := mkDatabase {
  db_name : string;
  db_policies : gmap string RetentionPolicy;
  db_defaultRetentionPolicy : string;
  db_measurements : gmap string Measurement;
  db_names : list string;
}.

Record User : Type := mkUser {
  u_Name : string;
  u_Hash : string;
  u_Admin : bool;
}.

Record Series : Type := mkSeries {
  sr_ID : N;
  sr_Tags : gmap string string;
}.

Record Point : Type := mkPoint {
  pt_Name : string;
  pt_Tags : gmap string string;
  pt_Timestamp : Z;
  pt_Values : list (string * Value);
}.

(** ** Commands and messages *)

Record createDataNodeCommand : Type := { cdn_URL : string }.
Record deleteDataNodeCommand : Type := { ddn_ID : N }.
Record createDatabaseCommand : Type := { cdb_Name : string }.
Record deleteDatabaseCommand : Type := { ddb_Name : string }.
Record createShardGroupIfNotExistsCommand : Type := {
  csg_Database : string;
  csg_Policy : string;
  csg_Timestamp : Z;
}.
Record createUserCommand : Type := {
  cu_Username : string;
  cu_Password : string;
  cu_Admin : bool;
}.
Record updateUserCommand : Type := {
  uu_Username : string;
  uu_Password : string;
}.
Record deleteUserCommand : Type := { du_Username : string }.
Record createRetentionPolicyCommand : Type := {
  crp_Database : string;
  crp_Name : string;
  crp_Duration : Z;
  crp_ReplicaN : N;
  crp_SplitN : N;
}.
Record updateRetentionPolicyCommand : Type := {
  urp_Database : string;
  urp_Name : string;
  urp_NewName : string;
}.
Record deleteRetentionPolicyCommand : Type := {
  drp_Database : string;
  drp_Name : string;
}.
Record setDefaultRetentionPolicyCommand : Type := {
  sdrp_Database : string;
  sdrp_Name : string;
}.
Record createSeriesIfNotExistsCommand : Type := {
  csr_Database : string;
  csr_Name : string;
  csr_Tags : gmap string string;
}.
Record writeSeriesCommand : Type := {
  ws_Database : string;
  ws_Measurement : string;
  ws_SeriesID : N;
  ws_Timestamp : Z;
  ws_Values : list (string * Value);
}.

(** The payload of a message.  The source carries JSON (or, for raw writes,
    a binary point); the embedding carries the command the bytes decode to.
    A handler that is handed a payload of another shape is in the situation
    of [mustUnmarshalJSON] failing, which panics. *)
Inductive Payload : Type :=
  | DataCreateDataNode (c : createDataNodeCommand)
  | DataDeleteDataNode (c : deleteDataNodeCommand)
  | DataCreateDatabase (c : createDatabaseCommand)
  | DataDeleteDatabase (c : deleteDatabaseCommand)
  | DataCreateShardGroupIfNotExists (c : createShardGroupIfNotExistsCommand)
  | DataCreateUser (c : createUserCommand)
  | DataUpdateUser (c : updateUserCommand)
  | DataDeleteUser (c : deleteUserCommand)
  | DataCreateRetentionPolicy (c : createRetentionPolicyCommand)
  | DataUpdateRetentionPolicy (c : updateRetentionPolicyCommand)
  | DataDeleteRetentionPolicy (c : deleteRetentionPolicyCommand)
  | DataSetDefaultRetentionPolicy (c : setDefaultRetentionPolicyCommand)
  | DataCreateSeriesIfNotExists (c : createSeriesIfNotExistsCommand)
  | DataWriteSeries (c : writeSeriesCommand)
  | DataRaw (bytes : list N).

Record Message : Type := mkMessage {
  m_Type : MessageType;
  m_TopicID : N;
  m_Index : N;
  m_Data : Payload;
}.

(** ** The messaging client

    Modelled from the spec: [MessagingClient] is an interface whose
    implementations live outside the source files.  The model is the
    deterministic in-memory broker of section 4.2: [Publish] gives the
    message the next log index and puts it on the consumer channel;
    [c_published] keeps every message ever published, [c_chan] the messages
    the processor has not yet received. *)
Record MessagingClient : Type := mkClient {
  c_index : N;
  c_chan : list Message;
  c_published : list Message;
  c_subscriptions : list (N * N);
}.

(** ** The server *)

Record Server : Type := mkServer {
  s_id : N;
  s_path : string;
  s_client : option MessagingClient;
  s_index : N;
  s_errors : gmap N error;
  s_meta : metatx;
  s_dataNodes : gmap N DataNode;
  s_databases : gmap string database;
  s_shards : gmap N Shard;
  s_users : gmap string User;
}.

Definition set_client (c : option MessagingClient) (s : Server) : Server :=
  mkServer (s_id s) (s_path s) c (s_index s) (s_errors s) (s_meta s)
           (s_dataNodes s) (s_databases s) (s_shards s) (s_users s).
Definition set_index (i : N) (s : Server) : Server :=
  mkServer (s_id s) (s_path s) (s_client s) i (s_errors s) (s_meta s)
           (s_dataNodes s) (s_databases s) (s_shards s) (s_users s).
Definition set_errors (e : gmap N error) (s : Server) : Server :=
  mkServer (s_id s) (s_path s) (s_client s) (s_index s) e (s_meta s)
           (s_dataNodes s) (s_databases s) (s_shards s) (s_users s).
Definition set_meta (m : metatx) (s : Server) : Server :=
  mkServer (s_id s) (s_path s) (s_client s) (s_index s) (s_errors s) m
           (s_dataNodes s) (s_databases s) (s_shards s) (s_users s).
Definition set_dataNodes (d : gmap N DataNode) (s : Server) : Server :=
  mkServer (s_id s) (s_path s) (s_client s) (s_index s) (s_errors s) (s_meta s)
           d (s_databases s) (s_shards s) (s_users s).
Definition set_databases (d : gmap string database) (s : Server) : Server :=
  mkServer (s_id s) (s_path s) (s_client s) (s_index s) (s_errors s) (s_meta s)
           (s_dataNodes s) d (s_shards s) (s_users s).
Definition set_shards (d : gmap N Shard) (s : Server) : Server :=
  mkServer (s_id s) (s_path s) (s_client s) (s_index s) (s_errors s) (s_meta s)
           (s_dataNodes s) (s_databases s) d (s_users s).
Definition set_users (d : gmap string User) (s : Server) : Server :=
  mkServer (s_id s) (s_path s) (s_client s) (s_index s) (s_errors s) (s_meta s)
           (s_dataNodes s) (s_databases s) (s_shards s) d.

Definition set_policies (p : gmap string RetentionPolicy) (db : database) : database :=
  mkDatabase (db_name db) p (db_defaultRetentionPolicy db)
             (db_measurements db) (db_names db).
Definition set_defaultRetentionPolicy (n : string) (db : database) : database :=
  mkDatabase (db_name db) (db_policies db) n (db_measurements db) (db_names db).
Definition set_Name (n : string) (rp : RetentionPolicy) : RetentionPolicy :=
  mkRetentionPolicy n (rp_Duration rp) (rp_ReplicaN rp) (rp_SplitN rp)
                    (rp_shardGroups rp).
Definition set_shardGroups (g : list ShardGroup) (rp : RetentionPolicy) : RetentionPolicy :=
  mkRetentionPolicy (rp_Name rp) (rp_Duration rp) (rp_ReplicaN rp) (rp_SplitN rp) g.


Definition set_sh_ID (i : N) (sh : Shard) : Shard :=
  mkShard i (sh_DataNodeIDs sh) (sh_store sh).
Definition set_DataNodeIDs (l : list N) (sh : Shard) : Shard :=
  mkShard (sh_ID sh) l (sh_store sh).
Definition set_store (st : option Store) (sh : Shard) : Shard :=
  mkShard (sh_ID sh) (sh_DataNodeIDs sh) st.
Definition set_measurements (ms : gmap string Measurement) (db : database) : database :=
  mkDatabase (db_name db) (db_policies db) (db_defaultRetentionPolicy db)
             ms (db_names db).
Definition set_Hash (h : string) (u : User) : User :=
  mkUser (u_Name u) h (u_Admin u).

(** ** Query results *)

Inductive Cell : Type :=
  | CellString (v : string)
  | CellValue (v : Value).

Record Row : Type := mkRow {
  row_Columns : list string;
  row_Values : list (list Cell);
}.

Record Result : Type := mkResult {
  res_Rows : list Row;
  res_Err : option error;
}.

(** ** Operations of the collaborators

    Everything the server calls that is declared outside the source files:
    [net/url], [path/filepath], the metastore transaction [metatx], bcrypt,
    the measurement index of a database, the binary point encoding, the
    shard store, the query planner, the JSON encoder and the broker.  The
    handlers are defined, and the theorems proved, for every choice of
    these operations. *)
Class Collaborators : Type := {
  (* net/url.  A [URL] is what a [*url.URL] holds, the nil pointer
     included: [url_nil] tells it apart.  The source discards the error of
     [url.Parse], whose URL is nil then; [url_String] of a URL that is not
     nil is what [String] returns, and [String] of nil panics, see
     [URL_String] below. *)
  url_Parse : string → URL;
  url_nil : URL → bool;
  url_String : URL → string;
  (* path/filepath *)
  filepath_Join : list string → string;
  (* metatx: identifier counters and upserts *)
  nextDataNodeID : metatx → N * metatx;
  nextShardGroupID : metatx → N * metatx;
  nextShardID : metatx → N * metatx;
  saveDataNode : DataNode → metatx → option error * metatx;
  deleteDataNode : N → metatx → option error * metatx;
  saveDatabase : database → metatx → option error * metatx;
  deleteDatabase : string → metatx → option error * metatx;
  saveUser : User → metatx → option error * metatx;
  deleteUser : string → metatx → option error * metatx;
  createSeries : string → string → gmap string string → metatx →
                 (error + Series) * metatx;
  (* bcrypt.GenerateFromPassword at BcryptCost *)
  HashPassword : string → error + string;
  (* the measurement index of a database *)
  MeasurementAndSeries : database → string → gmap string string →
                         option Measurement * option Series;
  addSeriesToIndex : string → Series → database → database;
  (* [mm.createFieldIfNotExists(name, influxql.Number)]: the identifier of
     the field found or created, and the measurement after the call *)
  createFieldIfNotExists : string → Measurement → (error + N) * Measurement;
  mapValues : Measurement → list (string * Value) → option (gmap N Value);
  (* binary point encoding *)
  marshalValues : gmap N Value → list N;
  marshalPointHeader : N → Z → list N;
  unmarshalPointHeader : list N → N * Z;
  (* [json.Marshal]: the error when the value does not encode (a
     [time.Time] whose year is outside [0,9999], a point value JSON has no
     form for), and the bytes a JSON command is sent as when it does *)
  marshal_fault : Payload → option error;
  marshalJSON : Payload → list N;
  (* shard store *)
  shard_open : string → Shard → error + Store;
  shard_writeSeries : N → Z → list N → bool → Shard → option error * Shard;
  (* retention policy defaults, query planner and executor *)
  NewRetentionPolicy : string → RetentionPolicy;
  planAndExecute : SelectStatement → database → error + list Row;
  (* the broker may refuse a request *)
  publish_fault : Message → MessagingClient → option error;
  subscribe_fault : N → N → MessagingClient → option error;
}.

Context `{C : Collaborators}.

(** ** Helpers of the Go semantics *)

(** [a / b] and [a % b] on [int]: truncated division, panic on zero. *)
Definition go_div (a b : Z) : outcome Z :=
  if decide (b = 0) then Panics DivideByZero else Returns (Z.quot a b).
Definition go_rem (a b : Z) : outcome Z :=
  if decide (b = 0) then Panics DivideByZero else Returns (Z.rem a b).
(** [a % b] on [uint64]. *)
Definition go_urem (a b : N) : outcome N :=
  if decide (b = 0%N) then Panics DivideByZero else Returns (a `mod` b)%N.

(** [l[i]] with an [int] index. *)
Definition go_index {A : Type} (l : list A) (i : Z) : outcome A :=
  if decide (i < 0) then Panics IndexOutOfRange
  else match l !! Z.to_nat i with
       | Some x => Returns x
       | None => Panics IndexOutOfRange
       end.

Definition len {A : Type} (l : list A) : Z := Z.of_nat (length l).

(** [int64(n)]: the value wraps around. *)
Definition int64_of (n : Z) : Z := (n + 2 ^ 63) `mod` 2 ^ 64 - 2 ^ 63.

(** [t.UnixNano()]: the nanoseconds since January 1, 1970 UTC, which is
    62135596800 seconds after Go's zero time, as an [int64]. *)
Definition unixToInternal : Z := 62135596800.
Definition UnixNano (t : Z) : Z :=
  int64_of (t - unixToInternal * 1000000000).

(** [u.String()] of a [*url.URL]: a nil pointer is dereferenced. *)
Definition URL_String (u : URL) : outcome string :=
  if url_nil u then Panics NilDereference else mret (url_String u).

(** [t.Truncate(d)]: round [t] down to a multiple of [d] since the zero
    time; [t] itself when [d <= 0]. *)
Definition Truncate (t d : Z) : Z :=
  if decide (d ≤ 0) then t else t - t `mod` d.

(** ** Metastore transactions

    Modelled from the spec: [metastore.mustUpdate] is declared outside the
    source files.  Section 4.1: an exclusive write transaction whose failure
    aborts.  The closure [fn] runs on the store; what it assigned to the
    variables it captured is its first result.  When [fn] returns an error
    the store is left as it was. *)
Definition mustUpdate {A : Type}
    (fn : metatx → outcome (A * option error * metatx)) (store : metatx)
    : outcome (A * option error * metatx) :=
  r ← fn store;
  match r with
  | (a, Some e, _) => mret (a, Some e, store)
  | (a, None, store') => mret (a, None, store')
  end.

(** ** Constructors declared outside the source files *)

Definition newShard : Shard := mkShard 0%N [] None.
Definition newShardGroup : ShardGroup := mkShardGroup 0%N 0 0 [].
Definition newDatabase : database := mkDatabase "" ∅ "" ∅ [].

(** Modelled from the spec: [Shard.HasDataNodeID] is declared outside the
    source files; section 3: "A shard lives on exactly the nodes listed." *)
Definition HasDataNodeID (id : N) (sh : Shard) : bool :=
  bool_decide (id ∈ sh_DataNodeIDs sh).

(** Modelled from the spec: [RetentionPolicy.shardGroupByTimestamp] is
    declared outside the source files; section 4.6: an existing group of the
    policy contains the timestamp, the window of a group being
    [[startTime, endTime)]. *)
Definition groupContains (t : Z) (g : ShardGroup) : bool :=
  bool_decide (g_StartTime g ≤ t < g_EndTime g).
Definition rp_shardGroupByTimestamp (rp : RetentionPolicy) (t : Z)
    : option ShardGroup :=
  head (filter (λ g, groupContains t g = true) (rp_shardGroups rp)).

(** Modelled from the spec: [database.shardGroupByTimestamp] is declared
    outside the source files; section 4.7: resolve the retention policy, fail
    if it is missing, then locate the group by timestamp, nil if none. *)
Definition db_shardGroupByTimestamp (db : database) (policy : string) (t : Z)
    : option ShardGroup * option error :=
  match db_policies db !! policy with
  | None => (None, Some ErrRetentionPolicyNotFound)
  | Some rp => (rp_shardGroupByTimestamp rp t, None)
  end.

(** Modelled from the spec: [ShardGroup.ShardBySeriesID] is declared outside
    the source files; section 4.5:
    [shard = group.shards[seriesID mod |group.shards|]]. *)
Definition ShardBySeriesID (g : ShardGroup) (seriesID : N) : outcome Shard :=
  i ← go_rem (Z.of_N seriesID) (len (g_Shards g));
  go_index (g_Shards g) i.

(** ** Server accessors *)

Definition opened (s : Server) : bool := bool_decide (s_path s ≠ "").

Definition shardPath (s : Server) (id : N) : string :=
  if decide (s_path s = "") then ""
  else filepath_Join [s_path s; "shards"; pretty id].

(** The values of the data-node map, in the order the map is ranged over,
    and the list [sort.Sort(dataNodes(..))] leaves: ascending by [ID].  The
    order in which Go ranges over the map is immaterial once the list is
    sorted, the identifiers of the nodes of a map being distinct. *)
Definition dataNodeList (s : Server) : list DataNode :=
  (map_to_list (s_dataNodes s)).*2.
Definition dataNodes_Less (a b : DataNode) : Prop := (dn_ID a ≤ dn_ID b)%N.
#[global] Instance dataNodes_Less_dec a b : Decision (dataNodes_Less a b).
Proof. unfold dataNodes_Less. apply _. Defined.
Definition sortedDataNodes (s : Server) : list DataNode :=
  merge_sort dataNodes_Less (dataNodeList s).

Definition shardGroupByTimestamp (s : Server) (database policy : string) (t : Z)
    : option ShardGroup * option error :=
  match s_databases s !! database with
  | None => (None, Some ErrDatabaseNotFound)
  | Some db => db_shardGroupByTimestamp db policy t
  end.

Definition DefaultRetentionPolicy (s : Server) (database : string)
    : option RetentionPolicy * option error :=
  match s_databases s !! database with
  | None => (None, Some ErrDatabaseNotFound)
  | Some db => (db_policies db !! db_defaultRetentionPolicy db, None)
  end.

Definition measurement (s : Server) (database name : string)
    : option Measurement * option error :=
  match s_databases s !! database with
  | None => (None, Some ErrDatabaseNotFound)
  | Some db => (db_measurements db !! name, None)
  end.

(** ** Apply handlers

    Each handler takes the message and the server and returns the error it
    reports ([None] for nil) with the server it leaves. *)

Definition applied : Type := outcome (option error * Server).

(** The loop of [applyCreateDataNode] over the data nodes, in the order the
    map is ranged over: [n.URL.String() == u.String()] for one node after
    the other, until one has the URL. *)
Fixpoint hasURL (u : URL) (nodes : list DataNode) : outcome bool :=
  match nodes with
  | [] => mret false
  | n :: rest =>
    a ← URL_String (dn_URL n);
    b ← URL_String u;
    if decide (a = b) then mret true else hasURL u rest
  end.

Definition applyCreateDataNode (m : Message) (s : Server) : applied :=
  match m_Data m with
  | DataCreateDataNode c =>
    (* Validate parameters. *)
    if decide (cdn_URL c = "") then mret (Some ErrDataNodeURLRequired, s)
    else
      (* Check that another node with the same URL doesn't already exist. *)
      let u := url_Parse (cdn_URL c) in
      found ← hasURL u (dataNodeList s);
      if found : bool then mret (Some ErrDataNodeExists, s)
      else
        (* Persist to metastore. *)
        r ← mustUpdate (λ tx,
               let '(id, tx) := nextDataNodeID tx in
               let n := mkDataNode id u in
               let '(err, tx) := saveDataNode n tx in
               mret (n, err, tx)) (s_meta s);
        let '(n, err, store) := r in
        (* Add to node on server. *)
        mret (err, set_dataNodes (<[dn_ID n := n]> (s_dataNodes s))
                                 (set_meta store s))
  | _ => Panics UnmarshalFailure
  end.

Definition applyDeleteDataNode (m : Message) (s : Server) : applied :=
  match m_Data m with
  | DataDeleteDataNode c =>
    match s_dataNodes s !! ddn_ID c with
    | None => mret (Some ErrDataNodeNotFound, s)
    | Some n =>
      (* Remove from metastore. *)
      r ← mustUpdate (λ tx,
             let '(err, tx) := deleteDataNode (ddn_ID c) tx in
             mret (tt, err, tx)) (s_meta s);
      let '(_, err, store) := r in
      (* Delete the node. *)
      mret (err, set_dataNodes (delete (dn_ID n) (s_dataNodes s))
                               (set_meta store s))
    end
  | _ => Panics UnmarshalFailure
  end.

Definition applyCreateDatabase (m : Message) (s : Server) : applied :=
  match m_Data m with
  | DataCreateDatabase c =>
    match s_databases s !! cdb_Name c with
    | Some _ => mret (Some ErrDatabaseExists, s)
    | None =>
      (* Create database entry. *)
      let db := mkDatabase (cdb_Name c) (db_policies newDatabase)
                           (db_defaultRetentionPolicy newDatabase)
                           (db_measurements newDatabase) (db_names newDatabase) in
      (* Persist to metastore. *)
      r ← mustUpdate (λ tx,
             let '(err, tx) := saveDatabase db tx in
             mret (tt, err, tx)) (s_meta s);
      let '(_, err, store) := r in
      (* Add to databases on server. *)
      mret (err, set_databases (<[cdb_Name c := db]> (s_databases s))
                               (set_meta store s))
    end
  | _ => Panics UnmarshalFailure
  end.

Definition applyDeleteDatabase (m : Message) (s : Server) : applied :=
  match m_Data m with
  | DataDeleteDatabase c =>
    match s_databases s !! ddb_Name c with
    | None => mret (Some ErrDatabaseNotFound, s)
    | Some _ =>
      (* Remove from metastore. *)
      r ← mustUpdate (λ tx,
             let '(err, tx) := deleteDatabase (ddb_Name c) tx in
             mret (tt, err, tx)) (s_meta s);
      let '(_, err, store) := r in
      (* Delete the database entry. *)
      mret (err, set_databases (delete (ddb_Name c) (s_databases s))
                               (set_meta store s))
    end
  | _ => Panics UnmarshalFailure
  end.

(** *** Shard-group placement *)

(** [replicaN]: at least one replica but no more replicas than nodes. *)
Definition replicaN_of (rp : RetentionPolicy) (nodes : list DataNode) : Z :=
  let replicaN := Z.of_N (rp_ReplicaN rp) in
  if decide (replicaN = 0) then 1
  else if decide (replicaN > len nodes) then len nodes
  else replicaN.

(** [for _, sh := range g.Shards { sh.ID = tx.nextShardID() }] *)
Fixpoint assignShardIDs (shards : list Shard) (tx : metatx)
    : list Shard * metatx :=
  match shards with
  | [] => ([], tx)
  | sh :: rest =>
    let '(id, tx) := nextShardID tx in
    let '(rest', tx) := assignShardIDs rest tx in
    (set_sh_ID id sh :: rest', tx)
  end.

(** The inner loop [for i := 0; i < replicaN; i++]: [todo] iterations are
    left; every iteration appends the identifier of
    [nodes[nodeIndex%len(nodes)]] to the shard and increments [nodeIndex]. *)
Fixpoint assignReplicas (nodes : list DataNode) (todo : nat) (nodeIndex : Z)
    (sh : Shard) : outcome (Shard * Z) :=
  match todo with
  | O => mret (sh, nodeIndex)
  | S todo' =>
    i ← go_rem nodeIndex (len nodes);
    node ← go_index nodes i;
    assignReplicas nodes todo' (nodeIndex + 1)
      (set_DataNodeIDs (sh_DataNodeIDs sh ++ [dn_ID node]) sh)
  end.

(** The outer loop [for _, sh := range g.Shards]. *)
Fixpoint assignDataNodes (nodes : list DataNode) (replicaN : Z) (nodeIndex : Z)
    (shards : list Shard) : outcome (list Shard) :=
  match shards with
  | [] => mret []
  | sh :: rest =>
    r ← assignReplicas nodes (Z.to_nat replicaN) nodeIndex sh;
    let '(sh', nodeIndex') := r in
    rest' ← assignDataNodes nodes replicaN nodeIndex' rest;
    mret (sh' :: rest')
  end.

(** Open shards assigned to this server; panic if the store cannot be
    opened. *)
Fixpoint openShards (s : Server) (shards : list Shard) : outcome (list Shard) :=
  match shards with
  | [] => mret []
  | sh :: rest =>
    if negb (HasDataNodeID (s_id s) sh) then
      rest' ← openShards s rest; mret (sh :: rest')
    else
      match shard_open (shardPath s (sh_ID sh)) sh with
      | inl e => Panics (UnableToOpenShard e)
      | inr st =>
        rest' ← openShards s rest; mret (set_store (Some st) sh :: rest')
      end
  end.

(** [s.client.Subscribe(replicaID, topicID)]: an error is logged by the
    caller and changes nothing. *)
Definition Subscribe (replicaID topicID : N) (cl : MessagingClient)
    : option error * MessagingClient :=
  match subscribe_fault replicaID topicID cl with
  | Some e => (Some e, cl)
  | None => (None, mkClient (c_index cl) (c_chan cl) (c_published cl)
                            (c_subscriptions cl ++ [(replicaID, topicID)]))
  end.

(** Subscribe to every shard of the group that is assigned to this server. *)
Fixpoint subscribeShards (id : N) (shards : list Shard)
    (cl : option MessagingClient) : outcome (option MessagingClient) :=
  match shards with
  | [] => mret cl
  | sh :: rest =>
    if negb (HasDataNodeID id sh) then subscribeShards id rest cl
    else
      match cl with
      | None => Panics NilDereference
      | Some c => subscribeShards id rest (Some (Subscribe id (sh_ID sh) c).2)
      end
  end.

(** [for _, sh := range g.Shards { s.shards[sh.ID] = sh }] *)
Definition addShards (shards : list Shard) (m : gmap N Shard) : gmap N Shard :=
  foldl (λ acc sh, <[sh_ID sh := sh]> acc) m shards.

Definition applyCreateShardGroupIfNotExists (m : Message) (s : Server) : applied :=
  match m_Data m with
  | DataCreateShardGroupIfNotExists c =>
    (* Retrieve database. *)
    match s_databases s !! csg_Database c with
    | None => mret (Some ErrDatabaseNotFound, s)
    | Some db =>
      (* Validate retention policy. *)
      match db_policies db !! csg_Policy c with
      | None => mret (Some ErrRetentionPolicyNotFound, s)
      | Some rp =>
        (* If we can match to an existing shard group date range then just
           ignore request. *)
        match rp_shardGroupByTimestamp rp (csg_Timestamp c) with
        | Some _ => mret (None, s)
        | None =>
          (* If no shards match then create a new one. *)
          let StartTime := Truncate (csg_Timestamp c) (rp_Duration rp) in
          let EndTime := StartTime + rp_Duration rp in
          (* Sort nodes so they're consistently assigned to the shards. *)
          let nodes := sortedDataNodes s in
          (* Require at least one replica but no more replicas than nodes. *)
          let replicaN := replicaN_of rp nodes in
          (* Determine shard count by node count divided by replication
             factor. *)
          shardN ← go_div (len nodes) replicaN;
          (* Create a shard based on the node count and replication factor. *)
          let shards := replicate (Z.to_nat shardN) newShard in
          (* Persist to metastore if a shard was created. *)
          r ← mustUpdate (λ tx,
                 (* Generate an ID for the group. *)
                 let '(gid, tx) := nextShardGroupID tx in
                 (* Generate an ID for each shard. *)
                 let '(shards, tx) := assignShardIDs shards tx in
                 (* Assign data nodes to shards via round robin.  Start from
                    a repeatably "random" place in the node list. *)
                 nodeIndex ← go_urem (m_Index m) (N.of_nat (length nodes));
                 shards ← assignDataNodes nodes replicaN (Z.of_N nodeIndex) shards;
                 let '(err, tx) := saveDatabase db tx in
                 mret (gid, shards, err, tx)) (s_meta s);
          let '(gid, shards, err, store) := r in
          match err with
          | Some e =>
            (* g.close(): no shard of the group has been opened yet. *)
            mret (Some e, set_meta store s)
          | None =>
            (* Open shards assigned to this server. *)
            shards ← openShards s shards;
            let g := mkShardGroup gid StartTime EndTime shards in
            (* Add to lookups. *)
            let rp' := set_shardGroups (rp_shardGroups rp ++ [g]) rp in
            let db' := set_policies (<[csg_Policy c := rp']> (db_policies db)) db in
            (* Subscribe to shard if it matches the server's index. *)
            cl ← subscribeShards (s_id s) shards (s_client s);
            mret (None,
                  set_client cl
                    (set_databases (<[csg_Database c := db']> (s_databases s))
                      (set_shards (addShards shards (s_shards s))
                        (set_meta store s))))
          end
        end
      end
    end
  | _ => Panics UnmarshalFailure
  end.

(** *** Users *)

Definition applyCreateUser (m : Message) (s : Server) : applied :=
  match m_Data m with
  | DataCreateUser c =>
    (* Validate user. *)
    if decide (cu_Username c = "") then mret (Some ErrUsernameRequired, s)
    else if bool_decide (is_Some (s_users s !! cu_Username c))
    then mret (Some ErrUserExists, s)
    else
      (* Generate the hash of the password. *)
      match HashPassword (cu_Password c) with
      | inl e => mret (Some e, s)
      | inr hash =>
        (* Create the user. *)
        let u := mkUser (cu_Username c) hash (cu_Admin c) in
        (* Persist to metastore. *)
        r ← mustUpdate (λ tx,
               let '(err, tx) := saveUser u tx in
               mret (tt, err, tx)) (s_meta s);
        let '(_, err, store) := r in
        mret (err, set_users (<[u_Name u := u]> (s_users s)) (set_meta store s))
      end
  | _ => Panics UnmarshalFailure
  end.

Definition applyUpdateUser (m : Message) (s : Server) : applied :=
  match m_Data m with
  | DataUpdateUser c =>
    (* Validate command. *)
    match s_users s !! uu_Username c with
    | None => mret (Some ErrUserNotFound, s)
    | Some u =>
      (* Update the user's password, if set. *)
      let hashed :=
        if decide (uu_Password c = "") then inr u
        else match HashPassword (uu_Password c) with
             | inl e => inl e
             | inr hash => inr (set_Hash hash u)
             end in
      match hashed with
      | inl e => mret (Some e, s)
      | inr u' =>
        let s' := set_users (<[uu_Username c := u']> (s_users s)) s in
        (* Persist to metastore. *)
        r ← mustUpdate (λ tx,
               let '(err, tx) := saveUser u' tx in
               mret (tt, err, tx)) (s_meta s);
        let '(_, err, store) := r in
        mret (err, set_meta store s')
      end
    end
  | _ => Panics UnmarshalFailure
  end.

Definition applyDeleteUser (m : Message) (s : Server) : applied :=
  match m_Data m with
  | DataDeleteUser c =>
    (* Validate user. *)
    if decide (du_Username c = "") then mret (Some ErrUsernameRequired, s)
    else match s_users s !! du_Username c with
    | None => mret (Some ErrUserNotFound, s)
    | Some _ =>
      (* Remove from metastore; the result is dropped. *)
      r ← mustUpdate (λ tx,
             let '(err, tx) := deleteUser (du_Username c) tx in
             mret (tt, err, tx)) (s_meta s);
      let '(_, _, store) := r in
      (* Delete the user. *)
      mret (None, set_users (delete (du_Username c) (s_users s))
                            (set_meta store s))
    end
  | _ => Panics UnmarshalFailure
  end.

(** *** Retention policies *)

Definition applyCreateRetentionPolicy (m : Message) (s : Server) : applied :=
  match m_Data m with
  | DataCreateRetentionPolicy c =>
    (* Retrieve the database. *)
    match s_databases s !! crp_Database c with
    | None => mret (Some ErrDatabaseNotFound, s)
    | Some db =>
      if decide (crp_Name c = "") then mret (Some ErrRetentionPolicyNameRequired, s)
      else if bool_decide (is_Some (db_policies db !! crp_Name c))
      then mret (Some ErrRetentionPolicyExists, s)
      else
        (* Add policy to the database. *)
        let rp := mkRetentionPolicy (crp_Name c) (crp_Duration c)
                                    (crp_ReplicaN c) 0%N [] in
        let db' := set_policies (<[crp_Name c := rp]> (db_policies db)) db in
        (* Persist to metastore; the result is dropped. *)
        r ← mustUpdate (λ tx,
               let '(err, tx) := saveDatabase db' tx in
               mret (tt, err, tx)) (s_meta s);
        let '(_, _, store) := r in
        mret (None, set_databases (<[crp_Database c := db']> (s_databases s))
                                  (set_meta store s))
    end
  | _ => Panics UnmarshalFailure
  end.

(** The renaming step of [applyUpdateRetentionPolicy] on the policy map of
    the database: [delete(db.policies, p.Name); p.Name = c.NewName;
    db.policies[p.Name] = p]. *)
Definition renamePolicy (p : RetentionPolicy) (NewName : string)
    (policies : gmap string RetentionPolicy) : gmap string RetentionPolicy :=
  <[NewName := set_Name NewName p]> (delete (rp_Name p) policies).

Definition applyUpdateRetentionPolicy (m : Message) (s : Server) : applied :=
  match m_Data m with
  | DataUpdateRetentionPolicy c =>
    (* Validate command. *)
    match s_databases s !! urp_Database c with
    | None => mret (Some ErrDatabaseNotFound, s)
    | Some db =>
      if decide (urp_Name c = "") then mret (Some ErrRetentionPolicyNameRequired, s)
      else
        (* Retrieve the policy. *)
        match db_policies db !! urp_Name c with
        | None => mret (Some ErrRetentionPolicyNotFound, s)
        | Some p =>
          (* Update the policy name, if not blank. *)
          let db' :=
            if decide (urp_NewName c ≠ urp_Name c ∧ urp_NewName c ≠ "")
            then set_policies (renamePolicy p (urp_NewName c) (db_policies db)) db
            else db in
          (* Persist to metastore. *)
          r ← mustUpdate (λ tx,
                 let '(err, tx) := saveDatabase db' tx in
                 mret (tt, err, tx)) (s_meta s);
          let '(_, err, store) := r in
          mret (err, set_databases (<[urp_Database c := db']> (s_databases s))
                                   (set_meta store s))
        end
    end
  | _ => Panics UnmarshalFailure
  end.

Definition applyDeleteRetentionPolicy (m : Message) (s : Server) : applied :=
  match m_Data m with
  | DataDeleteRetentionPolicy c =>
    (* Retrieve the database. *)
    match s_databases s !! drp_Database c with
    | None => mret (Some ErrDatabaseNotFound, s)
    | Some db =>
      if decide (drp_Name c = "") then mret (Some ErrRetentionPolicyNameRequired, s)
      else match db_policies db !! drp_Name c with
      | None => mret (Some ErrRetentionPolicyNotFound, s)
      | Some _ =>
        (* Remove retention policy. *)
        let db' := set_policies (delete (drp_Name c) (db_policies db)) db in
        (* Persist to metastore. *)
        r ← mustUpdate (λ tx,
               let '(err, tx) := saveDatabase db' tx in
               mret (tt, err, tx)) (s_meta s);
        let '(_, err, store) := r in
        mret (err, set_databases (<[drp_Database c := db']> (s_databases s))
                                 (set_meta store s))
      end
    end
  | _ => Panics UnmarshalFailure
  end.

Definition applySetDefaultRetentionPolicy (m : Message) (s : Server) : applied :=
  match m_Data m with
  | DataSetDefaultRetentionPolicy c =>
    (* Validate command. *)
    match s_databases s !! sdrp_Database c with
    | None => mret (Some ErrDatabaseNotFound, s)
    | Some db =>
      match db_policies db !! sdrp_Name c with
      | None => mret (Some ErrRetentionPolicyNotFound, s)
      | Some _ =>
        (* Update default policy. *)
        let db' := set_defaultRetentionPolicy (sdrp_Name c) db in
        (* Persist to metastore. *)
        r ← mustUpdate (λ tx,
               let '(err, tx) := saveDatabase db' tx in
               mret (tt, err, tx)) (s_meta s);
        let '(_, err, store) := r in
        mret (err, set_databases (<[sdrp_Database c := db']> (s_databases s))
                                 (set_meta store s))
      end
    end
  | _ => Panics UnmarshalFailure
  end.

(** *** Series and points *)

Definition applyCreateSeriesIfNotExists (m : Message) (s : Server) : applied :=
  match m_Data m with
  | DataCreateSeriesIfNotExists c =>
    (* Validate command. *)
    match s_databases s !! csr_Database c with
    | None => mret (Some ErrDatabaseNotFound, s)
    | Some db =>
      match (MeasurementAndSeries db (csr_Name c) (csr_Tags c)).2 with
      | Some _ => mret (None, s)
      | None =>
        (* save to the metastore and add it to the in memory index *)
        r ← mustUpdate (λ tx,
               let '(r, tx) := createSeries (db_name db) (csr_Name c) (csr_Tags c) tx in
               mret (r, match r with inl e => Some e | inr _ => None end, tx))
             (s_meta s);
        match r with
        | (inl e, _, store) => mret (Some e, set_meta store s)
        | (inr series, _, store) =>
          let db' := addSeriesToIndex (csr_Name c) series db in
          mret (None, set_databases (<[csr_Database c := db']> (s_databases s))
                                    (set_meta store s))
        end
      end
    end
  | _ => Panics UnmarshalFailure
  end.

(** The loop of [applyWriteSeries] over [c.Values]: find or create the field
    of every key; a field overflow is logged and the value skipped, any
    other error stops the handler.  The list is in the order the Go map is
    ranged over. *)
Fixpoint createFields (values : list (string * Value)) (mm : Measurement)
    (rawValues : gmap N Value) : option error * Measurement * gmap N Value :=
  match values with
  | [] => (None, mm, rawValues)
  | (k, v) :: rest =>
    match createFieldIfNotExists k mm with
    | (inl e, mm') =>
      if decide (e = ErrFieldOverflow) then createFields rest mm' rawValues
      else (Some e, mm', rawValues)
    | (inr fieldID, mm') => createFields rest mm' (<[fieldID := v]> rawValues)
    end
  end.

Definition applyWriteSeries (m : Message) (s : Server) : applied :=
  match m_Data m with
  | DataWriteSeries c =>
    (* Retrieve the shard. *)
    match s_shards s !! m_TopicID m with
    | None => mret (Some ErrShardNotFound, s)
    | Some sh =>
      (* Retrieve the database. *)
      match s_databases s !! ws_Database c with
      | None => mret (Some ErrDatabaseNotFound, s)
      | Some db =>
        (* Retrieve the measurement. *)
        match db_measurements db !! ws_Measurement c with
        | None => mret (Some ErrMeasurementNotFound, s)
        | Some mm =>
          (* Encode value map and create fields as needed. *)
          let '(ferr, mm', rawValues) := createFields (ws_Values c) mm ∅ in
          let db' := set_measurements
                       (<[ws_Measurement c := mm']> (db_measurements db)) db in
          let s1 := set_databases (<[ws_Database c := db']> (s_databases s)) s in
          match ferr with
          | Some e => mret (Some e, s1)
          | None =>
            (* Update metastore. *)
            r ← mustUpdate (λ tx,
                   let '(err, tx) := saveDatabase db' tx in
                   mret (tt, err, tx)) (s_meta s);
            let '(_, err, store) := r in
            match err with
            | Some e => mret (Some e, set_meta store s1)
            | None =>
              (* Encode the values into a binary format. *)
              let data := marshalValues rawValues in
              let overwrite := true in
              (* Write to shard. *)
              let '(werr, sh') :=
                shard_writeSeries (ws_SeriesID c) (ws_Timestamp c) data overwrite sh in
              mret (werr, set_shards (<[m_TopicID m := sh']> (s_shards s))
                                     (set_meta store s1))
            end
          end
        end
      end
    end
  | _ => Panics UnmarshalFailure
  end.

(** The bytes of a message: a raw point as it is, a command as its JSON. *)
Definition Data_bytes (p : Payload) : list N :=
  match p with
  | DataRaw bytes => bytes
  | _ => marshalJSON p
  end.

Definition applyWriteRawSeries (m : Message) (s : Server) : applied :=
  (* Retrieve the shard. *)
  match s_shards s !! m_TopicID m with
  | None => mret (Some ErrShardNotFound, s)
  | Some sh =>
    let bytes := Data_bytes (m_Data m) in
    (* Extract the series id and timestamp from the header.  Everything
       after the header is the marshalled value. *)
    if decide (length bytes < pointHeaderSize)%nat then Panics IndexOutOfRange
    else
      let '(seriesID, timestamp) := unmarshalPointHeader (take pointHeaderSize bytes) in
      let data := drop pointHeaderSize bytes in
      let overwrite := true in
      (* Write to shard. *)
      let '(werr, sh') := shard_writeSeries seriesID timestamp data overwrite sh in
      mret (werr, set_shards (<[m_TopicID m := sh']> (s_shards s)) s)
  end.

(** ** The message processor *)

(** The [switch m.Type] of the processor; a type that no case names leaves
    the error nil. *)
Definition dispatch (m : Message) (s : Server) : applied :=
  let typ := m_Type m in
  if decide (typ = writeSeriesMessageType) then applyWriteSeries m s
  else if decide (typ = writeRawSeriesMessageType) then applyWriteRawSeries m s
  else if decide (typ = createDataNodeMessageType) then applyCreateDataNode m s
  else if decide (typ = deleteDataNodeMessageType) then applyDeleteDataNode m s
  else if decide (typ = createDatabaseMessageType) then applyCreateDatabase m s
  else if decide (typ = deleteDatabaseMessageType) then applyDeleteDatabase m s
  else if decide (typ = createUserMessageType) then applyCreateUser m s
  else if decide (typ = updateUserMessageType) then applyUpdateUser m s
  else if decide (typ = deleteUserMessageType) then applyDeleteUser m s
  else if decide (typ = createRetentionPolicyMessageType) then applyCreateRetentionPolicy m s
  else if decide (typ = updateRetentionPolicyMessageType) then applyUpdateRetentionPolicy m s
  else if decide (typ = deleteRetentionPolicyMessageType) then applyDeleteRetentionPolicy m s
  else if decide (typ = createShardGroupIfNotExistsMessageType) then applyCreateShardGroupIfNotExists m s
  else if decide (typ = setDefaultRetentionPolicyMessageType) then applySetDefaultRetentionPolicy m s
  else if decide (typ = createSeriesIfNotExistsMessageType) then applyCreateSeriesIfNotExists m s
  else mret (None, s).

(** [Sync high water mark and errors]: the last four statements of an
    iteration of the processor. *)
Definition record (m : Message) (err : option error) (s : Server) : Server :=
  let s := set_index (m_Index m) s in
  match err with
  | Some e => set_errors (<[m_Index m := e]> (s_errors s)) s
  | None => s
  end.

(** One iteration of the processor loop on a message received from the
    channel: a message that arrives while the server is closed is dropped. *)
Definition process (m : Message) (s : Server) : outcome Server :=
  if negb (opened s) then mret s
  else
    r ← dispatch m s;
    let '(err, s') := r in
    mret (record m err s').

(** The processor on the messages the channel delivers, in order, until the
    channel is closed. *)
Fixpoint processor (msgs : list Message) (s : Server) : outcome Server :=
  match msgs with
  | [] => mret s
  | m :: rest => s' ← process m s; processor rest s'
  end.

(** ** Publishing and waiting *)

(** Modelled from the spec: section 4.2, [publish(message) → logIndex],
    totally ordered; the message is delivered on the consumer channel when
    its topic is the broadcast topic or a topic the client has subscribed
    to. *)
Definition delivered (topicID : N) (cl : MessagingClient) : bool :=
  bool_decide (topicID = BroadcastTopicID ∨ topicID ∈ (c_subscriptions cl).*2).

Definition Publish (m : Message) (cl : MessagingClient)
    : (error + N) * MessagingClient :=
  match publish_fault m cl with
  | Some e => (inl e, cl)
  | None =>
    let index := (c_index cl + 1)%N in
    let m' := mkMessage (m_Type m) (m_TopicID m) index (m_Data m) in
    (inr index,
     mkClient index
              (if delivered (m_TopicID m) cl then c_chan cl ++ [m'] else c_chan cl)
              (c_published cl ++ [m'])
              (c_subscriptions cl))
  end.

(** The messages published so far, and those waiting on the channel. *)
Definition published (s : Server) : list Message :=
  match s_client s with
  | Some cl => c_published cl
  | None => []
  end.
Definition channel (s : Server) : list Message :=
  match s_client s with
  | Some cl => c_chan cl
  | None => []
  end.
Definition set_chan (ch : list Message) (s : Server) : Server :=
  match s_client s with
  | Some cl => set_client (Some (mkClient (c_index cl) ch (c_published cl)
                                          (c_subscriptions cl))) s
  | None => s
  end.

(** One pass through the body of the loop of [Sync]: [Some] when the index
    has been applied, with the error found under it, which is removed from
    the map; [None] when the caller has to sleep and look again. *)
Definition Sync_poll (index : N) (s : Server) : option (option error * Server) :=
  if decide (index ≤ s_index s)%N then
    match s_errors s !! index with
    | Some e => Some (Some e, set_errors (delete index (s_errors s)) s)
    | None => Some (None, s)
    end
  else None.

(** [Sync] next to the processor: while the index has not been applied the
    caller sleeps and the processor receives the next message [pending] on
    the channel.  When nothing is left to receive the caller waits for
    ever. *)
Fixpoint Sync_wait (pending : list Message) (index : N) (s : Server) : applied :=
  match Sync_poll index s with
  | Some r => mret r
  | None =>
    match pending with
    | [] => Blocks
    | m :: rest =>
      s' ← process m (set_chan rest s);
      Sync_wait rest index s'
    end
  end.

Definition Sync (index : N) (s : Server) : applied :=
  Sync_wait (channel s) index s.

(** [broadcast] encodes a command as JSON, sends it to the broadcast topic
    and waits until the server has processed it. *)
Definition broadcast (typ : MessageType) (c : Payload) (s : Server)
    : outcome (N * option error * Server) :=
  (* Encode the command. *)
  match marshal_fault c with
  | Some e => mret (0%N, Some e, s)
  | None =>
    match s_client s with
    | None => Panics NilDereference
    | Some cl =>
      (* Publish the message. *)
      let m := mkMessage typ BroadcastTopicID 0%N c in
      match Publish m cl with
      | (inl e, cl') => mret (0%N, Some e, set_client (Some cl') s)
      | (inr index, cl') =>
        (* Wait for the server to receive the message. *)
        r ← Sync index (set_client (Some cl') s);
        let '(err, s') := r in
        mret (index, err, s')
      end
    end
  end.

(** The public operations that broadcast a command and return its error. *)
Definition command (typ : MessageType) (c : Payload) (s : Server) : applied :=
  r ← broadcast typ c s;
  let '(_, err, s') := r in
  mret (err, s').

Definition CreateDataNode (u : URL) (s : Server) : applied :=
  url ← URL_String u;
  command createDataNodeMessageType
          (DataCreateDataNode {| cdn_URL := url |}) s.
Definition DeleteDataNode (id : N) : Server → applied :=
  command deleteDataNodeMessageType (DataDeleteDataNode {| ddn_ID := id |}).
Definition CreateDatabase (name : string) : Server → applied :=
  command createDatabaseMessageType (DataCreateDatabase {| cdb_Name := name |}).
Definition DeleteDatabase (name : string) : Server → applied :=
  command deleteDatabaseMessageType (DataDeleteDatabase {| ddb_Name := name |}).
Definition CreateShardGroupIfNotExists (database policy : string) (timestamp : Z)
    : Server → applied :=
  command createShardGroupIfNotExistsMessageType
          (DataCreateShardGroupIfNotExists
             {| csg_Database := database; csg_Policy := policy;
                csg_Timestamp := timestamp |}).
Definition CreateUser (username password : string) (admin : bool)
    : Server → applied :=
  command createUserMessageType
          (DataCreateUser {| cu_Username := username; cu_Password := password;
                             cu_Admin := admin |}).
Definition UpdateUser (username password : string) : Server → applied :=
  command updateUserMessageType
          (DataUpdateUser {| uu_Username := username; uu_Password := password |}).
Definition DeleteUser (username : string) : Server → applied :=
  command deleteUserMessageType (DataDeleteUser {| du_Username := username |}).
Definition CreateRetentionPolicy (database : string) (rp : RetentionPolicy)
    : Server → applied :=
  command createRetentionPolicyMessageType
          (DataCreateRetentionPolicy
             {| crp_Database := database; crp_Name := rp_Name rp;
                crp_Duration := rp_Duration rp; crp_ReplicaN := rp_ReplicaN rp;
                crp_SplitN := 0%N |}).
Definition UpdateRetentionPolicy (database name : string) (rp : RetentionPolicy)
    : Server → applied :=
  command updateRetentionPolicyMessageType
          (DataUpdateRetentionPolicy
             {| urp_Database := database; urp_Name := name;
                urp_NewName := rp_Name rp |}).
Definition DeleteRetentionPolicy (database name : string) : Server → applied :=
  command deleteRetentionPolicyMessageType
          (DataDeleteRetentionPolicy {| drp_Database := database; drp_Name := name |}).
Definition SetDefaultRetentionPolicy (database name : string) : Server → applied :=
  command setDefaultRetentionPolicyMessageType
          (DataSetDefaultRetentionPolicy
             {| sdrp_Database := database; sdrp_Name := name |}).

(** [Databases]: the sorted list of all database names. *)
Definition strings_Less (a b : string) : Prop := String.leb a b = true.
#[global] Instance strings_Less_dec a b : Decision (strings_Less a b).
Proof. unfold strings_Less. apply _. Defined.
Definition Databases (s : Server) : list string :=
  merge_sort strings_Less (db_name <$> (map_to_list (s_databases s)).*2).

(** [RetentionPolicies]: the policies of a database, in the order the map is
    ranged over. *)
Definition RetentionPolicies (s : Server) (database : string)
    : list RetentionPolicy * option error :=
  match s_databases s !! database with
  | None => ([], Some ErrDatabaseNotFound)
  | Some db => ((map_to_list (db_policies db)).*2, None)
  end.

(** ** The write path *)

(** [createSeriesIfNotExists] returns the identifier of the series of a
    measurement and tag set, creating the series by a broadcast when the
    local index does not have it.  The second lookup goes through the
    database entry read before the broadcast; the embedding reads the entry
    found under the same name after it. *)
Definition createSeriesIfNotExists (database name : string)
    (tags : gmap string string) (s : Server)
    : outcome (N * option error * Server) :=
  (* Try to find series locally first. *)
  match s_databases s !! database with
  | None => mret (0%N, Some (Errorf "database not found %q"), s)
  | Some idx =>
    match (MeasurementAndSeries idx name tags).2 with
    | Some series => mret (sr_ID series, None, s)
    | None =>
      (* If it doesn't exist then create a message and broadcast. *)
      r ← broadcast createSeriesIfNotExistsMessageType
            (DataCreateSeriesIfNotExists
               {| csr_Database := database; csr_Name := name; csr_Tags := tags |}) s;
      let '(_, err, s') := r in
      match err with
      | Some e => mret (0%N, Some e, s')
      | None =>
        (* Lookup series again. *)
        match s_databases s' !! database with
        | None => mret (0%N, Some ErrSeriesNotFound, s')
        | Some idx' =>
          match (MeasurementAndSeries idx' name tags).2 with
          | None => mret (0%N, Some ErrSeriesNotFound, s')
          | Some series => mret (sr_ID series, None, s')
          end
        end
      end
    end
  end.

(** [createShardGroupIfNotExists] returns the shard group for a database,
    policy and timestamp, creating it when it does not exist. *)
Definition createShardGroupIfNotExists (database policy : string) (timestamp : Z)
    (s : Server) : outcome (option ShardGroup * option error * Server) :=
  (* Check if shard group exists first. *)
  match shardGroupByTimestamp s database policy timestamp with
  | (_, Some e) => mret (None, Some e, s)
  | (Some g, None) => mret (Some g, None, s)
  | (None, None) =>
    (* If the shard doesn't exist then create it. *)
    r ← CreateShardGroupIfNotExists database policy timestamp s;
    let '(err, s') := r in
    match err with
    | Some e => mret (None, Some e, s')
    | None =>
      (* Lookup the shard again. *)
      let '(g, err) := shardGroupByTimestamp s' database policy timestamp in
      mret (g, err, s')
    end
  end.

(** [s.client.Publish(m)] from a method of the server. *)
Definition publishOn (m : Message) (s : Server)
    : outcome (N * option error * Server) :=
  match s_client s with
  | None => Panics NilDereference
  | Some cl =>
    match Publish m cl with
    | (inl e, cl') => mret (0%N, Some e, set_client (Some cl') s)
    | (inr index, cl') => mret (index, None, set_client (Some cl') s)
    end
  end.

(** [WriteSeries] writes series data to the database and returns the
    messaging index the data was written to.  [mustMarshalJSON] is declared
    outside the source files; it is taken to panic when [json.Marshal]
    returns an error, as [mustUnmarshalJSON] does on bytes that do not
    decode. *)
Definition WriteSeries (database retentionPolicy : string) (points : list Point)
    (s : Server) : outcome (N * option error * Server) :=
  match points with
  | [pt] =>
    let name := pt_Name pt in
    let tags := pt_Tags pt in
    let timestamp := pt_Timestamp pt in
    let values := pt_Values pt in
    (* Find the id for the series and tagset *)
    r ← createSeriesIfNotExists database name tags s;
    let '(seriesID, err, s) := r in
    match err with
    | Some e => mret (0%N, Some e, s)
    | None =>
      (* If the retention policy is not set, use the default for this
         database. *)
      let policy :=
        if decide (retentionPolicy = "") then
          match DefaultRetentionPolicy s database with
          | (_, Some e) =>
            inl (Errorf "failed to determine default retention policy: %s")
          | (None, None) => inl ErrDefaultRetentionPolicyNotFound
          | (Some rp, None) => inr (rp_Name rp)
          end
        else inr retentionPolicy in
      match policy with
      | inl e => mret (0%N, Some e, s)
      | inr retentionPolicy =>
        (* Retrieve measurement. *)
        match measurement s database name with
        | (_, Some e) => mret (0%N, Some e, s)
        | (None, None) => mret (0%N, Some ErrMeasurementNotFound, s)
        | (Some mm, None) =>
          (* Retrieve shard group. *)
          r ← createShardGroupIfNotExists database retentionPolicy timestamp s;
          let '(g, err, s) := r in
          match err with
          | Some e => mret (0%N, Some (Errorf "create shard(%s/%s): %s"), s)
          | None =>
            match g with
            | None => Panics NilDereference
            | Some g =>
              (* Find appropriate shard within the shard group. *)
              sh ← ShardBySeriesID g seriesID;
              (* Ignore requests that have no values. *)
              if decide (len values = 0) then mret (0%N, None, s)
              else
                (* Convert string-key/values to fieldID-key/values.  If not
                   all fields can be converted then send as a non-raw write
                   series. *)
                match mapValues mm values with
                | None =>
                  (* Encode the command. *)
                  let c :=
                    DataWriteSeries
                      {| ws_Database := database; ws_Measurement := name;
                         ws_SeriesID := seriesID;
                         ws_Timestamp := UnixNano timestamp;
                         ws_Values := values |} in
                  match marshal_fault c with
                  | Some _ => Panics MarshalFailure
                  | None =>
                    (* Publish "write series" message on shard's topic to
                       broker. *)
                    publishOn
                      (mkMessage writeSeriesMessageType (sh_ID sh) 0%N c) s
                  end
                | Some rawValues =>
                  (* Encode point header. *)
                  let data := marshalPointHeader seriesID (UnixNano timestamp)
                              ++ marshalValues rawValues in
                  (* Publish "raw write series" message on shard's topic to
                     broker. *)
                  publishOn
                    (mkMessage writeRawSeriesMessageType (sh_ID sh) 0%N
                       (DataRaw data)) s
                end
            end
          end
        end
      end
    end
  | _ => mret (0%N, Some (Errorf "batching WriteSeries has not been implemented yet"), s)
  end.

(** ** The query dispatcher *)

(** The privilege of [CREATE USER .. WITH ..] and the statements of the query
    language, as the parser of package [influxql] produces them.
    [OtherStatement] stands for every statement type that the [switch] of
    [ExecuteQuery] does not name. *)
Inductive Privilege : Type :=
  | NoPrivileges | ReadPrivilege | WritePrivilege | AllPrivileges.

#[global] Instance Privilege_eq_dec : EqDecision Privilege.
Proof. solve_decision. Defined.

Inductive Statement : Type :=
  | SelectStmt (stmt : SelectStatement)
  | CreateDatabaseStatement (Name : string)
  | DropDatabaseStatement (Name : string)
  | ListDatabasesStatement
  | CreateUserStatement (Name Password : string) (Priv : option Privilege)
  | DropUserStatement (Name : string)
  | DropSeriesStatement
  | ListSeriesStatement
  | ListMeasurementsStatement
  | ListTagKeysStatement
  | ListTagValuesStatement
  | ListFieldKeysStatement
  | ListFieldValuesStatement
  | GrantStatement
  | RevokeStatement
  | CreateRetentionPolicyStatement (Name Database : string) (Duration : Z)
                                   (Replication : Z)
  | AlterRetentionPolicyStatement (Name Database : string) (Duration : option Z)
                                  (Replication : option Z)
  | DropRetentionPolicyStatement (Name Database : string)
  | ListRetentionPoliciesStatement (Database : string)
  | CreateContinuousQueryStatement
  | DropContinuousQueryStatement
  | ListContinuousQueriesStatement
  | OtherStatement.

(** [uint32(n)] of an [int]. *)
Definition uint32_of_int (n : Z) : N := Z.to_N (n `mod` 2 ^ 32).

Definition set_Duration (d : Z) (rp : RetentionPolicy) : RetentionPolicy :=
  mkRetentionPolicy (rp_Name rp) d (rp_ReplicaN rp) (rp_SplitN rp)
                    (rp_shardGroups rp).
Definition set_ReplicaN (n : N) (rp : RetentionPolicy) : RetentionPolicy :=
  mkRetentionPolicy (rp_Name rp) (rp_Duration rp) n (rp_SplitN rp)
                    (rp_shardGroups rp).

(** A result that carries only an error, [&Result{Err: err}]. *)
Definition errResult (err : option error) : Result := mkResult [] err.

Definition executed : Type := outcome (Result * Server).

(** [&Result{Err: op(..)}] for an operation of the command surface. *)
Definition resultOf (op : Server → applied) (s : Server) : executed :=
  r ← op s;
  let '(err, s') := r in
  mret (errResult err, s').

(** [executeSelectStatement] plans and executes a select statement against a
    database and reads all rows from the channel of the executor. *)
Definition executeSelectStatement (stmt : SelectStatement) (database : string)
    (s : Server) : executed :=
  match s_databases s !! database with
  | None => mret (errResult (Some ErrDatabaseNotFound), s)
  | Some db =>
    match planAndExecute stmt db with
    | inl e => mret (errResult (Some e), s)
    | inr rows => mret (mkResult rows None, s)
    end
  end.

Definition executeCreateDatabaseStatement (Name : string) : Server → executed :=
  resultOf (CreateDatabase Name).

Definition executeDropDatabaseStatement (Name : string) : Server → executed :=
  resultOf (DeleteDatabase Name).

Definition executeListDatabasesStatement (s : Server) : executed :=
  let row := mkRow ["Name"] ((λ name, [CellString name]) <$> Databases s) in
  mret (mkResult [row] None, s).

Definition executeCreateUserStatement (Name Password : string)
    (Priv : option Privilege) : Server → executed :=
  let isAdmin :=
    match Priv with
    | Some p => bool_decide (p = AllPrivileges)
    | None => false
    end in
  resultOf (CreateUser Name Password isAdmin).

Definition executeDropUserStatement (Name : string) : Server → executed :=
  resultOf (DeleteUser Name).

Definition executeCreateRetentionPolicyStatement (Name Database : string)
    (Duration Replication : Z) : Server → executed :=
  let rp := NewRetentionPolicy Name in
  let rp := set_Duration Duration rp in
  let rp := set_ReplicaN (uint32_of_int Replication) rp in
  resultOf (CreateRetentionPolicy Database rp).

Definition executeAlterRetentionPolicyStatement (Name Database : string)
    (Duration Replication : option Z) : Server → executed :=
  let rp := NewRetentionPolicy Name in
  let rp := match Duration with Some d => set_Duration d rp | None => rp end in
  let rp := match Replication with
            | Some n => set_ReplicaN (uint32_of_int n) rp
            | None => rp
            end in
  resultOf (UpdateRetentionPolicy Database Name rp).

Definition executeDropRetentionPolicyStatement (Name Database : string)
    : Server → executed :=
  resultOf (DeleteRetentionPolicy Database Name).

Definition executeListRetentionPoliciesStatement (Database : string) (s : Server)
    : executed :=
  match RetentionPolicies s Database with
  | (_, Some e) => mret (errResult (Some e), s)
  | (a, None) =>
    let row := mkRow ["Name"] ((λ rp, [CellString (rp_Name rp)]) <$> a) in
    mret (mkResult [row] None, s)
  end.

(** The [switch] in the loop of [ExecuteQuery]: [Some] with the result of
    the statement, [None] for the statement types whose case is [continue],
    a panic for an unsupported statement type. *)
Definition executeStatement (stmt : Statement) (database : string)
    (user : option User) (s : Server) : outcome (option Result * Server) :=
  let run (e : Server → executed) : outcome (option Result * Server) :=
    r ← e s; let '(res, s') := r in mret (Some res, s') in
  match stmt with
  | SelectStmt stmt => run (executeSelectStatement stmt database)
  | CreateDatabaseStatement n => run (executeCreateDatabaseStatement n)
  | DropDatabaseStatement n => run (executeDropDatabaseStatement n)
  | ListDatabasesStatement => run executeListDatabasesStatement
  | CreateUserStatement n p priv => run (executeCreateUserStatement n p priv)
  | DropUserStatement n => run (executeDropUserStatement n)
  | DropSeriesStatement => mret (None, s)
  | ListSeriesStatement => mret (None, s)
  | ListMeasurementsStatement => mret (None, s)
  | ListTagKeysStatement => mret (None, s)
  | ListTagValuesStatement => mret (None, s)
  | ListFieldKeysStatement => mret (None, s)
  | ListFieldValuesStatement => mret (None, s)
  | GrantStatement => mret (None, s)
  | RevokeStatement => mret (None, s)
  | CreateRetentionPolicyStatement n db d r =>
    run (executeCreateRetentionPolicyStatement n db d r)
  | AlterRetentionPolicyStatement n db d r =>
    run (executeAlterRetentionPolicyStatement n db d r)
  | DropRetentionPolicyStatement n db => run (executeDropRetentionPolicyStatement n db)
  | ListRetentionPoliciesStatement db => run (executeListRetentionPoliciesStatement db)
  | CreateContinuousQueryStatement => mret (None, s)
  | DropContinuousQueryStatement => mret (None, s)
  | ListContinuousQueriesStatement => mret (None, s)
  | OtherStatement => Panics UnsupportedStatement
  end.

(** The first loop of [ExecuteQuery] over the statements that are left.  The
    slots of [results] are nil ([None]) to begin with; a statement whose case
    is [continue] leaves its slot nil; once a result carries an error the
    loop is left and the slots of the remaining statements stay nil. *)
Fixpoint executeStatements (stmts : list Statement) (database : string)
    (user : option User) (s : Server) : outcome (list (option Result) * Server) :=
  match stmts with
  | [] => mret ([], s)
  | stmt :: rest =>
    r ← executeStatement stmt database user s;
    match r with
    | (None, s') =>
      r' ← executeStatements rest database user s';
      let '(results, s'') := r' in
      mret (None :: results, s'')
    | (Some res, s') =>
      (* If an error occurs then stop processing remaining statements. *)
      if bool_decide (is_Some (res_Err res))
      then mret (Some res :: replicate (length rest) None, s')
      else
        r' ← executeStatements rest database user s';
        let '(results, s'') := r' in
        mret (Some res :: results, s'')
    end
  end.

(** The second loop: fill any empty results after error. *)
Definition fillEmpty (results : list (option Result)) : list Result :=
  (λ res, match res with
          | Some r => r
          | None => errResult (Some ErrNotExecuted)
          end) <$> results.

(** [ExecuteQuery] executes a query against the server and returns a
    resultset for each statement in the query. *)
Definition ExecuteQuery (q : list Statement) (database : string)
    (user : option User) (s : Server) : outcome (list Result * Server) :=
  r ← executeStatements q database user s;
  let '(results, s') := r in
  mret (fillEmpty results, s').
End Model.

(** ** Notions of the specification

    The words of the specification that the theorems are stated with. *)

Section Specification.
Context {F : Foreign}.

(** The identifiers that a round robin over [nodes] hands out, as the
    specification words it: [count] consecutive nodes of the sorted list,
    starting at position [start] and wrapping around at its end. *)
Definition roundRobin (nodes : list DataNode) (start : Z) (count : nat) : list N :=
  (λ i : nat, from_option dn_ID 0%N
                (nodes !! Z.to_nat ((start + Z.of_nat i) `mod` len nodes)))
    <$> seq 0 count.

(** The groups of a policy whose window contains a timestamp. *)
Definition groupsContaining (t : Z) (rp : RetentionPolicy) : list ShardGroup :=
  filter (λ g, groupContains t g = true) (rp_shardGroups rp).

(** The position in the sorted node list at which the placement for a
    message starts. *)
Definition placementOffset (m : Message) (nodes : list DataNode) : Z :=
  Z.of_N (m_Index m `mod` N.of_nat (length nodes)).

(** The shards of a new group before they are opened: one for every
    identifier that [assignShardIDs] has drawn, with the nodes that the
    round robin gives to the shard at its position. *)
Definition placedShards (m : Message) (nodes : list DataNode) (replicaN : Z)
    (ids : list Shard) : list Shard :=
  imap (λ (k : nat) sh,
          set_DataNodeIDs
            (sh_DataNodeIDs sh
             ++ roundRobin nodes (placementOffset m nodes + Z.of_nat k * replicaN)
                           (Z.to_nat replicaN)) sh) ids.

(** [s'] has published what [s] had published and, after it, messages on
    the broadcast topic only. *)
Definition broadcasts_only (s s' : Server) : Prop :=
  ∃ sent, published s' = published s ++ sent
          ∧ Forall (λ m, m_TopicID m = BroadcastTopicID) sent.

(** The sentinel that fills the slot of a statement that was not executed. *)
Definition notExecuted : Result := errResult (Some ErrNotExecuted).
End Specification.

(** ** More of the server: lifecycle, accessors, authentication, names

    Two more packages are used through their operations only: bcrypt, which
    compares a password with a hash, and the query language, which splits a
    dotted identifier into segments and quotes segments into one. *)
Class Libraries : Type := {
  (* [bcrypt.CompareHashAndPassword(hash, password)] *)
  CompareHashAndPassword : string → string → option error;
  (* [influxql.SplitIdent] and [influxql.QuoteIdent] *)
  SplitIdent : string → error + list string;
  QuoteIdent : list string → string;
}.

Section Surface.
Context {F : Foreign} {C : Collaborators} {L : Libraries}.

Definition set_path (p : string) (s : Server) : Server :=
  mkServer (s_id s) p (s_client s) (s_index s) (s_errors s) (s_meta s)
           (s_dataNodes s) (s_databases s) (s_shards s) (s_users s).

(** [setClient] sets the messaging client of an open server.  The goroutine
    it starts for the client is the processor that [Sync_wait] runs the
    channel through; the [done] channel that stops the goroutine of the
    previous client is not modelled. *)
Definition setClient (client : option MessagingClient) (s : Server)
    : option error * Server :=
  (* Ensure the server is open. *)
  if negb (opened s) then (Some ErrServerClosed, s)
  else
    (* Set the messaging client. *)
    (None, set_client client s).

(** [Close] shuts down the server.  The result of [setClient] and the
    result of closing the metastore are dropped by the source. *)
Definition Close (s : Server) : option error * Server :=
  if negb (opened s) then (Some ErrServerClosed, s)
  else
    (* Remove path. *)
    let s := set_path "" s in
    (* Close message processing. *)
    let s := (setClient None s).2 in
    (None, s).

(** [DataNodes] returns a list of data nodes, sorted by [ID]. *)
Definition DataNodes (s : Server) : list DataNode :=
  merge_sort dataNodes_Less (dataNodeList s).

(** [Results.Error] returns the first error from any statement, nil if no
    errors occurred on any statements. *)
Fixpoint Results_Error (a : list Result) : option error :=
  match a with
  | [] => None
  | r :: rest =>
    match res_Err r with
    | Some e => Some e
    | None => Results_Error rest
    end
  end.

(** [User.Authenticate] returns nil if the password matches the user's
    password. *)
Definition User_Authenticate (u : User) (password : string) : option error :=
  CompareHashAndPassword (u_Hash u) password.

(** [Authenticate] returns an authenticated user by username. *)
Definition Authenticate (s : Server) (username password : string)
    : option User * option error :=
  match s_users s !! username with
  | None => (None, Some (Errorf "user not found"))
  | Some u =>
    match User_Authenticate u password with
    | Some _ => (None, Some (Errorf "invalid credentials"))
    | None => (Some u, None)
    end
  end.

(** [normalizeMeasurement] inserts the default database or policy into a
    measurement name. *)
Definition normalizeMeasurement (s : Server) (name defaultDatabase : string)
    : string * option error :=
  (* Split name into segments. *)
  match SplitIdent name with
  | inl _ => ("", Some (Errorf "invalid measurement: %s"))
  | inr segments =>
    (* Normalize to 3 segments. *)
    let normalized :=
      match segments with
      | [n] => Some ("", "", n)
      | [p; n] => Some ("", p, n)
      | [d; p; n] => Some (d, p, n)
      | _ => None
      end in
    match normalized with
    | None => ("", Some (Errorf "invalid measurement: %s"))
    | Some (d, p, n) =>
      (* Set database if unset. *)
      let d := if decide (d = "") then defaultDatabase else d in
      (* Find database. *)
      match s_databases s !! d with
      | None => ("", Some (Errorf "database not found: %s"))
      | Some db =>
        (* Set retention policy if unset. *)
        let policy :=
          if decide (p = "") then
            if decide (db_defaultRetentionPolicy db = "") then None
            else Some (db_defaultRetentionPolicy db)
          else Some p in
        match policy with
        | None => ("", Some (Errorf "default retention policy not set for: %s"))
        | Some p =>
          (* Check if retention policy exists. *)
          match db_policies db !! p with
          | None => ("", Some (Errorf "retention policy does not exist: %s.%s"))
          | Some _ => (QuoteIdent [d; p; n], None)
          end
        end
      end
    end
  end.

(** The statement types whose case in [ExecuteQuery] is [continue]. *)
Definition skipped (stmt : Statement) : bool :=
  match stmt with
  | DropSeriesStatement | ListSeriesStatement | ListMeasurementsStatement
  | ListTagKeysStatement | ListTagValuesStatement | ListFieldKeysStatement
  | ListFieldValuesStatement | GrantStatement | RevokeStatement
  | CreateContinuousQueryStatement | DropContinuousQueryStatement
  | ListContinuousQueriesStatement => true
  | _ => false
  end.

(** ** Invariants of the topology *)

(** The data nodes are stored under their identifiers and no two of them
    have the same URL. *)
Definition dataNodes_keyed (s : Server) : Prop :=
  map_Forall (λ k n, dn_ID n = k) (s_dataNodes s).

Definition dataNodes_unique (s : Server) : Prop :=
  map_Forall (λ i ni,
    map_Forall (λ j nj,
      url_String (dn_URL ni) = url_String (dn_URL nj) → i = j)
      (s_dataNodes s)) (s_dataNodes s).

(** The retention policies of every database are stored under their
    names. *)
Definition policies_keyed (s : Server) : Prop :=
  map_Forall (λ _ db, map_Forall (λ k p, rp_Name p = k) (db_policies db))
             (s_databases s).
End Surface.

(** ** A concrete choice of collaborators

    Used to run the server on concrete inputs.  The metastore is a counter
    of the identifiers handed out so far and a flag that makes every upsert
    fail; a measurement is the list of its series; the broker never
    refuses; a URL is its text, and a text that begins with a colon does
    not parse; JSON refuses a time whose year is outside [0,9999]. *)

Definition exForeign : Foreign := {|
  URL := string;
  metatx := N * bool;
  Measurement := list (N * gmap string string);
  Value := Z;
  Store := string;
  SelectStatement := unit;
|}.

(** The first nanosecond of year 0 and of year 10000, counted from the
    zero time: year 0 has 366 days, the years 1 to 9999 have 3652059. *)
Definition exYearZero : Z := - 366 * 86400 * 1000000000.
Definition exYearTenThousand : Z := 3652059 * 86400 * 1000000000.

Definition exNext (tx : N * bool) : N * (N * bool) :=
  ((tx.1 + 1)%N, ((tx.1 + 1)%N, tx.2)).
Definition exSave (tx : N * bool) : option error * (N * bool) :=
  (if tx.2 then Some (Errorf "metastore: write failed") else None, tx).

Definition exSeriesByTags (mm : list (N * gmap string string))
    (tags : gmap string string) : option (@Series) :=
  (λ p, mkSeries p.1 p.2) <$> head (filter (λ p, p.2 = tags) mm).

Definition exCollaborators : @Collaborators exForeign := {|
  url_Parse := λ u, u : @URL exForeign;
  url_nil := λ u, String.prefix ":" u;
  url_String := λ u, u;
  filepath_Join := λ l, String.concat "/" l;
  nextDataNodeID := exNext;
  nextShardGroupID := exNext;
  nextShardID := exNext;
  saveDataNode := λ _, exSave;
  deleteDataNode := λ _, exSave;
  saveDatabase := λ _, exSave;
  deleteDatabase := λ _, exSave;
  saveUser := λ _, exSave;
  deleteUser := λ _, exSave;
  createSeries := λ _ _ tags tx,
    if tx.2 then (inl (Errorf "metastore: write failed"), tx)
    else (inr (mkSeries (tx.1 + 1)%N tags), ((tx.1 + 1)%N, tx.2));
  HashPassword := λ p, inr p;
  MeasurementAndSeries := λ db name tags,
    match db_measurements (F:=exForeign) db !! name with
    | None => (None, None)
    | Some mm => (Some mm, exSeriesByTags mm tags)
    end;
  addSeriesToIndex := λ name series db,
    set_measurements (F:=exForeign)
      (<[name := default [] (db_measurements db !! name)
                 ++ [(sr_ID series, sr_Tags series)]]> (db_measurements db)) db;
  createFieldIfNotExists := λ _ mm, (inr 1%N, mm);
  mapValues := λ _ _, None;
  marshalValues := λ _, [];
  marshalPointHeader := λ _ _, [];
  unmarshalPointHeader := λ _, (0%N, 0);
  marshal_fault := λ p,
    match p with
    | DataCreateShardGroupIfNotExists c =>
      if decide (exYearZero ≤ csg_Timestamp c < exYearTenThousand) then None
      else Some (Errorf "Time.MarshalJSON: year outside of range [0,9999]")
    | _ => None
    end;
  marshalJSON := λ _, [];
  shard_open := λ path _, inr path;
  shard_writeSeries := λ _ _ _ _ sh, (None, sh);
  NewRetentionPolicy := λ name, mkRetentionPolicy (F:=exForeign) name 0 1%N 1%N [];
  planAndExecute := λ _ _, inr [];
  publish_fault := λ _ _, None;
  subscribe_fault := λ _ _ _, None;
|}.

(** Identifiers are split at their dots and joined with dots; a password
    is its own hash, as [HashPassword] of the collaborators above has it. *)
Fixpoint exSplit (s : string) : list string :=
  match s with
  | EmptyString => [""]
  | String a rest =>
    if String.eqb (String a "") "." then "" :: exSplit rest
    else match exSplit rest with
         | seg :: segs => String a seg :: segs
         | [] => [String a ""]
         end
  end.

Definition exLibraries : Libraries := {|
  CompareHashAndPassword := λ hash password,
    if decide (hash = password) then None
    else Some (Errorf "hashedPassword is not the hash of the given password");
  SplitIdent := λ s, inr (exSplit s);
  QuoteIdent := String.concat ".";
|}.

(** ** Concrete servers and messages *)

Section Examples.
#[local] Existing Instance exForeign.
#[local] Existing Instance exCollaborators.

Definition exClient : MessagingClient := mkClient 0%N [] [] [].

Definition exNode (id : N) : DataNode :=
  mkDataNode id ("http://node" +:+ pretty id).

Definition exPolicy (name : string) (duration : Z) (replicaN : N)
    : RetentionPolicy :=
  mkRetentionPolicy name duration replicaN 0%N [].

Definition exDatabase (policies : list RetentionPolicy) (default : string)
    : database :=
  mkDatabase "db" (list_to_map ((λ rp, (rp_Name rp, rp)) <$> policies))
             default ∅ [].

(** An open server with the data nodes [ids] and one database, ["db"], with
    the given policies; [failing] makes every write to the metastore fail. *)
Definition exServer (ids : list N) (policies : list RetentionPolicy)
    (default : string) (failing : bool) : Server :=
  mkServer 1%N "/var/influxdb" (Some exClient) 0%N ∅ (10%N, failing)
           (list_to_map ((λ id, (id, exNode id)) <$> ids))
           {[ "db" := exDatabase policies default ]} ∅ ∅.

(** A server without data nodes and databases. *)
Definition exEmpty (failing : bool) : Server :=
  mkServer 1%N "/var/influxdb" (Some exClient) 0%N ∅ (0%N, failing) ∅ ∅ ∅ ∅.

Definition exMessage (typ : MessageType) (topic index : N) (data : Payload)
    : Message :=
  mkMessage typ topic index data.

Definition exCreateShardGroup (policy : string) (t : Z)
    : createShardGroupIfNotExistsCommand :=
  {| csg_Database := "db"; csg_Policy := policy; csg_Timestamp := t |}.

Definition exRename (name newName : string) : Payload :=
  DataUpdateRetentionPolicy
    {| urp_Database := "db"; urp_Name := name; urp_NewName := newName |}.

(** The groups of policy [policy] of database ["db"]. *)
Definition exGroups (policy : string) (s : Server) : list ShardGroup :=
  match s_databases s !! "db" with
  | Some db =>
    match db_policies db !! policy with
    | Some rp => rp_shardGroups rp
    | None => []
    end
  | None => []
  end.

(** A write of a point without values: the server, the point, and the
    servers that the lookup of the series and the lookup of the shard group
    leave. *)
Definition exWriteServer : Server :=
  exServer [1]%N [exPolicy "rp" 1000 1] "rp" false.

Definition exPoint : Point := mkPoint "cpu" {[ "host" := "a" ]} 100 [].

Definition exAfterSeries : Server :=
  Eval vm_compute in
    match createSeriesIfNotExists "db" (pt_Name exPoint) (pt_Tags exPoint)
                                  exWriteServer with
    | Returns (_, _, s1) => s1
    | _ => exWriteServer
    end.

Definition exAfterGroup : Server :=
  Eval vm_compute in
    match createShardGroupIfNotExists "db" "rp" (pt_Timestamp exPoint)
                                      exAfterSeries with
    | Returns (_, _, s2) => s2
    | _ => exAfterSeries
    end.

(** The server that an apply of [msg] leaves, [s] itself when the handler
    does not return. *)
Definition exApplied (handler : Message → Server → applied) (msg : Message)
    (s : Server) : Server :=
  match handler msg s with
  | Returns (_, s') => s'
  | _ => s
  end.

(** Two applies of [createShardGroupIfNotExists] for timestamp 100 on a
    policy of duration [d]. *)
Definition exGroupMessage (index : N) : Message :=
  exMessage createShardGroupIfNotExistsMessageType 0 index
            (DataCreateShardGroupIfNotExists (exCreateShardGroup "rp" 100)).

Definition exGroupServer (d : Z) : Server :=
  exServer [1]%N [exPolicy "rp" d 1] "rp" false.

Definition exOnce (d : Z) : Server :=
  exApplied applyCreateShardGroupIfNotExists (exGroupMessage 1) (exGroupServer d).

Definition exTwice (d : Z) : Server :=
  exApplied applyCreateShardGroupIfNotExists (exGroupMessage 2) (exOnce d).

Definition exOnce0 : Server := Eval vm_compute in exOnce 0.
Definition exTwice0 : Server := Eval vm_compute in exTwice 0.
Definition exOnce1000 : Server := Eval vm_compute in exOnce 1000.

(** A query of four statements on a server that has the database ["db"]. *)
Definition exQueryServer : Server := exServer [1]%N [] "" false.

Definition exAfterCreate : Server :=
  Eval vm_compute in
    match executeStatement (CreateDatabaseStatement "db") "db" None
                           exQueryServer with
    | Returns (_, s') => s'
    | _ => exQueryServer
    end.

(** A database with the policies ["raw"] and ["week"]. *)
Definition exRenameServer : Server :=
  exServer [1]%N [exPolicy "raw" 1000 1; exPolicy "week" 7000 1] "raw" false.

Definition exRenameDatabase : database :=
  exDatabase [exPolicy "raw" 1000 1; exPolicy "week" 7000 1] "raw".

(** Messages that create the database ["metrics"], with a given index. *)
Definition exCreateMetrics (index : N) : Message :=
  exMessage createDatabaseMessageType BroadcastTopicID index
            (DataCreateDatabase {| cdb_Name := "metrics" |}).

Definition exAfter3and5 : Server :=
  Eval vm_compute in
    match processor [exCreateMetrics 3; exCreateMetrics 5] (exEmpty false) with
    | Returns s' => s'
    | _ => exEmpty false
    end.

Definition exAfter5 : Server :=
  Eval vm_compute in
    match processor [exCreateMetrics 5] (exEmpty false) with
    | Returns s' => s'
    | _ => exEmpty false
    end.
End Examples.

Section MoreExamples.
#[local] Existing Instance exForeign.
#[local] Existing Instance exCollaborators.
#[local] Existing Instance exLibraries.

(** A closed server: [exEmpty] without its path. *)
Definition exClosed : Server := set_path "" (exEmpty false).

(** The command that creates the database ["metrics"]. *)
Definition exMetrics : Payload :=
  DataCreateDatabase {| cdb_Name := "metrics" |}.

(** A message that creates a data node for a URL. *)
Definition exCreateNode (url : string) (index : N) : Message :=
  exMessage createDataNodeMessageType BroadcastTopicID index
            (DataCreateDataNode {| cdn_URL := url |}).

(** A server with three data nodes and a policy that asks for two
    replicas, the message of log index 3 that creates a shard group on it,
    and the server that the handler leaves: the nodes sorted are 1, 2, 3,
    the placement starts at position [3 mod 3 = 0], and the one shard of
    the group is on nodes 1 and 2, the first of which is this server. *)
Definition exPlacementServer : Server :=
  exServer [3; 1; 2]%N [exPolicy "rp" 1000 2] "rp" false.

Definition exPlacementMessage : Message :=
  exMessage createShardGroupIfNotExistsMessageType BroadcastTopicID 3
            (DataCreateShardGroupIfNotExists (exCreateShardGroup "rp" 100)).

Definition exAfterPlacement : Server :=
  Eval vm_compute in
    exApplied applyCreateShardGroupIfNotExists exPlacementMessage
              exPlacementServer.

(** A point with one value, and the client of the server that the lookups
    of a write leave. *)
Definition exPointWithValue : Point :=
  mkPoint "cpu" {[ "host" := "a" ]} 100 [("value", 7)].

Definition exAfterGroupClient : MessagingClient :=
  Eval vm_compute in default exClient (s_client exAfterGroup).

(** A raw write of an empty value for the shard of [exOnce1000]. *)
Definition exRawWrite : Message :=
  exMessage writeRawSeriesMessageType 12 9 (DataRaw (replicate 12 0%N)).

(** The server of [exOnce1000], which holds shard 12 and has subscribed to
    its topic, after it has processed a broadcast with index 5; and a raw
    write on the topic of the shard with index 3. *)
Definition exAfterBroadcast5 : Server :=
  Eval vm_compute in
    match processor [exCreateMetrics 5] exOnce1000 with
    | Returns s' => s'
    | _ => exOnce1000
    end.

Definition exRawWrite3 : Message :=
  exMessage writeRawSeriesMessageType 12 3 (DataRaw (replicate 12 0%N)).

(** A server with the user ["ann"], on a metastore that works or fails. *)
Definition exUserServer (failing : bool) : Server :=
  set_users {[ "ann" := mkUser "ann" "secret" true ]} (exEmpty failing).

(** A server that has applied index 7 and holds an error under index 5. *)
Definition exSyncServer : Server :=
  set_errors {[ 5%N := ErrDatabaseExists ]} (set_index 7 (exEmpty false)).
End MoreExamples.

(** * Properties *)

Section Proofs.
Context {F : Foreign} {C : Collaborators}.

(** ** Outcomes *)

Lemma bind_Returns {A B : Type} (x : outcome A) (f : A → outcome B) (b : B) :
  x ≫= f = Returns b → ∃ a, x = Returns a ∧ f a = Returns b.
Proof. destruct x as [a| |]; simpl; [eauto | done | done]. Qed.

Lemma mustUpdate_Returns {A : Type} (fn : metatx → outcome (A * option error * metatx))
    (store : metatx) a err store' :
  mustUpdate fn store = Returns (a, err, store') →
  ∃ store'', fn store = Returns (a, err, store'').
Proof.
  unfold mustUpdate. intros (r & Hfn & Hr)%bind_Returns.
  destruct r as [[a' [e|]] st]; simpl in Hr; inversion Hr; subst; eauto.
Qed.

(** Unfolds the monadic plumbing of a handler and splits on everything it
    branches on. *)
Ltac run_handler :=
  unfold mustUpdate, mbind, outcome_bind, mret, outcome_ret in *;
  repeat first
    [ progress simplify_eq/=
    | case_match
    | case_decide
    | case_bool_decide ].

(** ** What the handlers leave alone

    No handler touches the high-water mark, the error map or the path of
    the server, and the only thing a handler does to the messaging client is
    to subscribe. *)

Definition client_log (cl : option MessagingClient)
    : option (N * list Message * list Message) :=
  (λ c, (c_index c, c_chan c, c_published c)) <$> cl.

Record same_log (s s' : Server) : Prop := {
  same_index : s_index s' = s_index s;
  same_errors : s_errors s' = s_errors s;
  same_path : s_path s' = s_path s;
  same_client : client_log (s_client s') = client_log (s_client s);
}.

Lemma same_log_refl s : same_log s s.
Proof. by split. Qed.

Lemma subscribeShards_log id shards cl cl' :
  subscribeShards id shards cl = Returns cl' → client_log cl' = client_log cl.
Proof.
  revert cl. induction shards as [|sh rest IH]; intros cl Hrun; simpl in Hrun.
  - by inversion Hrun.
  - destruct (HasDataNodeID id sh); simpl in Hrun; [|by apply IH].
    destruct cl as [c|]; [|done].
    apply IH in Hrun. rewrite Hrun. unfold Subscribe.
    by destruct (subscribe_fault id (sh_ID sh) c).
Qed.

Lemma applyCreateShardGroupIfNotExists_log m s err s' :
  applyCreateShardGroupIfNotExists m s = Returns (err, s') → same_log s s'.
Proof.
  unfold applyCreateShardGroupIfNotExists. intros Hrun.
  repeat case_match; try done; try (inversion Hrun; subst; by split).
  apply bind_Returns in Hrun as (shardN & _ & Hrun).
  apply bind_Returns in Hrun as ([[[gid shards] e] store] & _ & Hrun).
  destruct e as [e|]; [inversion Hrun; subst; by split|].
  apply bind_Returns in Hrun as (opened_shards & _ & Hrun).
  apply bind_Returns in Hrun as (cl & Hsub & Hrun).
  inversion Hrun; subst. split; try done.
  simpl. by apply subscribeShards_log in Hsub.
Qed.

Lemma dispatch_log m s err s' :
  dispatch m s = Returns (err, s') → same_log s s'.
Proof.
  unfold dispatch. intros Hrun.
  destruct (decide (m_Type m = createShardGroupIfNotExistsMessageType)) as [Heq|Hne].
  { rewrite Heq in Hrun. simpl in Hrun.
    by apply applyCreateShardGroupIfNotExists_log in Hrun. }
  repeat case_decide; try done;
    unfold applyWriteSeries, applyWriteRawSeries, applyCreateDataNode,
      applyDeleteDataNode, applyCreateDatabase, applyDeleteDatabase,
      applyCreateUser, applyUpdateUser, applyDeleteUser,
      applyCreateRetentionPolicy, applyUpdateRetentionPolicy,
      applyDeleteRetentionPolicy, applySetDefaultRetentionPolicy,
      applyCreateSeriesIfNotExists in Hrun;
    run_handler; by split.
Qed.

(** ** The processor and [Sync] *)

Lemma opened_same_log s s' : same_log s s' → opened s' = opened s.
Proof. intros [_ _ Hpath _]. unfold opened. by rewrite Hpath. Qed.

Lemma set_errors_id s : set_errors (s_errors s) s = s.
Proof. by destruct s. Qed.

Lemma record_index m err s : s_index (record m err s) = m_Index m.
Proof. unfold record. by destruct err. Qed.

Lemma record_errors m e s : s_errors (record m (Some e) s) !! m_Index m = Some e.
Proof. unfold record. simpl. apply lookup_insert_eq. Qed.

Lemma record_path m err s : s_path (record m err s) = s_path s.
Proof. unfold record. by destruct err. Qed.

(** An iteration of the processor either drops the message, the server
    being closed, or leaves the index of the message as the high-water
    mark. *)
Lemma process_index m s s' :
  process m s = Returns s' →
  (opened s = false ∧ s' = s) ∨ (opened s = true ∧ s_index s' = m_Index m).
Proof.
  unfold process. destruct (opened s); simpl; intros Hrun.
  - right. split; [done|].
    apply bind_Returns in Hrun as ([err s1] & _ & Hrun).
    inversion Hrun. apply record_index.
  - left. by inversion Hrun.
Qed.

Lemma process_opened m s s' : process m s = Returns s' → opened s' = opened s.
Proof.
  unfold process. destruct (opened s) eqn:Hopen; simpl; intros Hrun.
  - apply bind_Returns in Hrun as ([err s1] & Hd & Hrun).
    inversion Hrun; subst. apply dispatch_log, opened_same_log in Hd.
    unfold opened in *. by rewrite record_path, Hd.
  - by inversion Hrun; subst.
Qed.

(** The error of a handler is found under the index of its message once the
    processor has gone through the message. *)
Lemma process_records_error m s e s1 :
  opened s = true →
  dispatch m s = Returns (Some e, s1) →
  ∃ s', process m s = Returns s' ∧ s_index s' = m_Index m
        ∧ s_errors s' !! m_Index m = Some e.
Proof.
  intros Hopen Hd. exists (record m (Some e) s1).
  unfold process. rewrite Hopen, Hd.
  split; [done|]. split; [apply record_index | apply record_errors].
Qed.

(** After the processor has gone through a list of messages the high-water
    mark is the one it started from or the index of one of the messages. *)
Lemma processor_index_elem msgs s s' :
  processor msgs s = Returns s' →
  s_index s' ∈ s_index s :: (m_Index <$> msgs).
Proof.
  revert s. induction msgs as [|m rest IH]; intros s Hrun; simpl in Hrun.
  - inversion Hrun. apply elem_of_cons. by left.
  - apply bind_Returns in Hrun as (s1 & Hm & Hrest).
    apply IH, elem_of_cons in Hrest.
    rewrite fmap_cons, !elem_of_cons.
    destruct (process_index _ _ _ Hm) as [[_ ->]|[_ Hidx]].
    + destruct Hrest; auto.
    + rewrite Hidx in Hrest. destruct Hrest; auto.
Qed.

Lemma Sync_applied index s :
  (index ≤ s_index s)%N →
  Sync index s
  = Returns (s_errors s !! index, set_errors (delete index (s_errors s)) s).
Proof.
  intros Hle. unfold Sync.
  assert (Sync_poll index s
          = Some (s_errors s !! index, set_errors (delete index (s_errors s)) s))
    as Hpoll.
  { unfold Sync_poll. rewrite decide_True by done.
    destruct (s_errors s !! index) as [e|] eqn:Herr; [done|].
    by rewrite delete_id, set_errors_id. }
  destruct (channel s); simpl; by rewrite Hpoll.
Qed.

(** C3. Once the high-water mark [s.index] has reached [index], [Sync index]
    returns what the error map holds under [index] (nil when it holds
    nothing) and leaves the server with that entry removed; a second
    [Sync index] then returns nil and changes nothing. *)
Theorem Sync_returns_recorded_error (index : N) (s : Server)
    (Happlied : (index ≤ s_index s)%N) :
  let s' := set_errors (delete index (s_errors s)) s in
  Sync index s = Returns (s_errors s !! index, s')
  ∧ s_errors s' !! index = None
  ∧ Sync index s' = Returns (None, s').
Proof.
  intros s'. split; [by apply Sync_applied|].
  assert (s_errors s' !! index = None) as Hgone by apply lookup_delete_eq.
  split; [done|].
  rewrite Sync_applied by done. rewrite Hgone.
  by rewrite delete_id, set_errors_id.
Qed.

(** C7. The processor keeps no high-water mark.  On an open server it
    stores the index of the message it has processed, whatever the index it
    held: a message whose index is below [s.index], as one on the topic of a
    shard can be after a broadcast, lowers [s.index] to its own. *)
Theorem processor_index_lowered (m : Message) (s s' : Server)
    (Hopen : s_path s ≠ "")
    (Hlow : (m_Index m < s_index s)%N)
    (Hrun : process m s = Returns s') :
  s_index s' = m_Index m ∧ (s_index s' < s_index s)%N.
Proof.
  destruct (process_index _ _ _ Hrun) as [[Hclosed _]|[_ Hindex]].
  - unfold opened in Hclosed. by rewrite bool_decide_eq_true_2 in Hclosed.
  - by rewrite Hindex.
Qed.

(** What does hold of the index: when the messages reach the processor in
    the order of their indices (non-decreasing, and none below the index
    the processor starts from), every assignment of [s.index] is greater
    than or equal to the value it replaces. *)
Theorem processor_index_monotone (msgs pre post : list Message) (m : Message)
    (s s1 s2 : Server)
    (Hordered : Sorted N.le (s_index s :: (m_Index <$> msgs)))
    (Hsplit : msgs = pre ++ m :: post)
    (Hpre : processor pre s = Returns s1)
    (Hstep : process m s1 = Returns s2) :
  (s_index s1 ≤ s_index s2)%N.
Proof.
  destruct (process_index _ _ _ Hstep) as [[_ ->]|[_ ->]]; [done|].
  apply processor_index_elem in Hpre.
  apply (Sorted_StronglySorted _) in Hordered.
  subst msgs. rewrite fmap_app, fmap_cons, app_comm_cons in Hordered.
  apply (StronglySorted_app_1_elem_of N.le _ _ (s_index s1) (m_Index m)) in Hordered.
  - done.
  - done.
  - apply elem_of_cons. by left.
Qed.

(** ** Retention policies *)

Lemma set_Name_id (p : RetentionPolicy) : set_Name (rp_Name p) p = p.
Proof. by destruct p. Qed.

Lemma set_Name_set_Name n1 n2 (p : RetentionPolicy) :
  set_Name n1 (set_Name n2 p) = set_Name n1 p.
Proof. done. Qed.

Lemma set_policies_id (db : database) : set_policies (db_policies db) db = db.
Proof. by destruct db. Qed.

Lemma set_policies_set_policies p1 p2 (db : database) :
  set_policies p1 (set_policies p2 db) = set_policies p1 db.
Proof. done. Qed.

(** Moving a policy to a free key and back leaves the map as it was. *)
Lemma renamePolicy_round_trip (policies : gmap string RetentionPolicy)
    (p : RetentionPolicy) (A B : string) :
  policies !! A = Some p → rp_Name p = A → policies !! B = None →
  renamePolicy (set_Name B p) A (renamePolicy p B policies) = policies.
Proof.
  intros HA Hnamed HB. unfold renamePolicy. simpl. rewrite Hnamed.
  rewrite delete_insert_eq, (delete_id (delete A policies)).
  - rewrite insert_delete_eq. apply insert_id.
    rewrite HA. f_equal.
    by rewrite set_Name_set_Name, <-Hnamed, set_Name_id.
  - destruct (decide (A = B)) as [->|]; [apply lookup_delete_eq|].
    by rewrite lookup_delete_ne.
Qed.

(** What [applyUpdateRetentionPolicy] does when the command asks for a new
    name: the policy moves to the key of the new name whatever that key held
    before, the database is handed to the metastore, and the error of the
    handler is the error of the metastore. *)
Lemma applyUpdateRetentionPolicy_renames (m : Message) (s : Server)
    (db : database) (p : RetentionPolicy) (database Name NewName : string) :
  m_Data m = DataUpdateRetentionPolicy
               {| urp_Database := database; urp_Name := Name;
                  urp_NewName := NewName |} →
  s_databases s !! database = Some db →
  db_policies db !! Name = Some p →
  Name ≠ "" → NewName ≠ "" → NewName ≠ Name →
  let db' := set_policies (renamePolicy p NewName (db_policies db)) db in
  ∃ store,
    applyUpdateRetentionPolicy m s
    = Returns ((saveDatabase db' (s_meta s)).1,
               set_databases (<[database := db']> (s_databases s))
                             (set_meta store s)).
Proof.
  intros Hm Hdb Hp HName HNew Hne db'.
  unfold applyUpdateRetentionPolicy, mustUpdate. rewrite Hm. simpl.
  rewrite Hdb, decide_False by done. rewrite Hp.
  rewrite decide_True by done. fold db'.
  destruct (saveDatabase db' (s_meta s)) as [[e|] store]; simpl; eauto.
Qed.

(** C6. In a database that has a policy named [A] and none named [B], with
    [A] and [B] non-empty and distinct, renaming [A] to [B] and then [B] to
    [A] gives back the policy map the database started with; both handlers
    return, and in between the policy is found under [B] and not under
    [A]. *)
Theorem updateRetentionPolicy_rename_round_trip
    (s : Server) (db : database) (p : RetentionPolicy)
    (database A B : string) (m1 m2 : Message)
    (Hm1 : m_Data m1 = DataUpdateRetentionPolicy
                         {| urp_Database := database; urp_Name := A;
                            urp_NewName := B |})
    (Hm2 : m_Data m2 = DataUpdateRetentionPolicy
                         {| urp_Database := database; urp_Name := B;
                            urp_NewName := A |})
    (Hdb : s_databases s !! database = Some db)
    (HA : db_policies db !! A = Some p)
    (Hnamed : rp_Name p = A)
    (HB : db_policies db !! B = None)
    (HAne : A ≠ "") (HBne : B ≠ "") (HAB : A ≠ B) :
  ∃ err1 s1 db1 err2 s2 db2,
    applyUpdateRetentionPolicy m1 s = Returns (err1, s1)
    ∧ s_databases s1 !! database = Some db1
    ∧ db_policies db1 !! B = Some (set_Name B p)
    ∧ db_policies db1 !! A = None
    ∧ applyUpdateRetentionPolicy m2 s1 = Returns (err2, s2)
    ∧ s_databases s2 !! database = Some db2
    ∧ db_policies db2 = db_policies db
    ∧ s_databases s2 = s_databases s.
Proof.
  destruct (applyUpdateRetentionPolicy_renames m1 s db p database A B)
    as [store1 Hrun1]; try done.
  set (db1 := set_policies (renamePolicy p B (db_policies db)) db) in *.
  set (s1 := set_databases (<[database:=db1]> (s_databases s)) (set_meta store1 s)) in *.
  assert (db_policies db1 !! B = Some (set_Name B p)) as HB1.
  { simpl. unfold renamePolicy. apply lookup_insert_eq. }
  assert (db_policies db1 !! A = None) as HA1.
  { simpl. unfold renamePolicy. rewrite lookup_insert_ne by done.
    rewrite Hnamed. apply lookup_delete_eq. }
  assert (s_databases s1 !! database = Some db1) as Hdb1.
  { simpl. apply lookup_insert_eq. }
  destruct (applyUpdateRetentionPolicy_renames m2 s1 db1 (set_Name B p) database B A)
    as [store2 Hrun2]; try done.
  set (db2 := set_policies (renamePolicy (set_Name B p) A (db_policies db1)) db1) in *.
  assert (db2 = db) as Hdb2.
  { unfold db2, db1. rewrite set_policies_set_policies. simpl.
    rewrite renamePolicy_round_trip by done. apply set_policies_id. }
  eexists _, s1, db1, _, _, db2. split_and!; try done.
  - simpl. apply lookup_insert_eq.
  - by rewrite Hdb2.
  - simpl. rewrite insert_insert_eq, Hdb2. by apply insert_id.
Qed.



(** ** Shard-group placement *)

#[local] Instance dataNodes_Less_total : Total dataNodes_Less.
Proof. intros a b. unfold dataNodes_Less. lia. Qed.

Lemma sortedDataNodes_Sorted s : Sorted dataNodes_Less (sortedDataNodes s).
Proof. apply (Sorted_merge_sort dataNodes_Less). Qed.

Lemma sortedDataNodes_Permutation s : sortedDataNodes s ≡ₚ dataNodeList s.
Proof. apply merge_sort_Permutation. Qed.

Lemma length_sortedDataNodes s :
  length (sortedDataNodes s) = size (s_dataNodes s).
Proof.
  rewrite (Permutation_length (sortedDataNodes_Permutation s)).
  unfold dataNodeList. by rewrite length_fmap, length_map_to_list.
Qed.

Lemma replicaN_of_bounds rp nodes :
  1 ≤ len nodes → 1 ≤ replicaN_of rp nodes ≤ len nodes.
Proof. unfold replicaN_of. intros. repeat case_decide; lia. Qed.

Lemma go_index_lookup {A : Type} (l : list A) (i : Z) :
  0 ≤ i < len l → ∃ x, l !! Z.to_nat i = Some x ∧ go_index l i = Returns x.
Proof.
  unfold go_index, len. intros Hi.
  destruct (lookup_lt_is_Some_2 l (Z.to_nat i)) as [x Hx]; [lia|].
  exists x. rewrite decide_False by lia. by rewrite Hx.
Qed.

Lemma roundRobin_S nodes start count :
  roundRobin nodes start (S count)
  = from_option dn_ID 0%N (nodes !! Z.to_nat (start `mod` len nodes))
    :: roundRobin nodes (start + 1) count.
Proof.
  unfold roundRobin. simpl. rewrite Z.add_0_r. f_equal.
  rewrite <-fmap_S_seq, <-list_fmap_compose.
  apply list_fmap_ext. intros _ i _. simpl. do 4 f_equal. lia.
Qed.

Lemma length_roundRobin nodes start count :
  length (roundRobin nodes start count) = count.
Proof. unfold roundRobin. by rewrite length_fmap, length_seq. Qed.

(** Every identifier of a round robin is the identifier of the node at the
    position the round robin has reached. *)
Lemma roundRobin_lookup nodes start count (i : nat) :
  0 < len nodes → (i < count)%nat →
  ∃ node, nodes !! Z.to_nat ((start + Z.of_nat i) `mod` len nodes) = Some node
          ∧ roundRobin nodes start count !! i = Some (dn_ID node).
Proof.
  intros Hlen Hi.
  destruct (go_index_lookup nodes ((start + Z.of_nat i) `mod` len nodes))
    as (node & Hnode & _); [by apply Z.mod_pos_bound|].
  exists node. split; [done|].
  unfold roundRobin. rewrite list_lookup_fmap, lookup_seq_lt by done.
  simpl. by rewrite Hnode.
Qed.

(** The inner loop appends a round robin of [todo] nodes to the shard. *)
Lemma assignReplicas_spec nodes todo nodeIndex sh :
  0 < len nodes → 0 ≤ nodeIndex →
  assignReplicas nodes todo nodeIndex sh
  = Returns (set_DataNodeIDs
               (sh_DataNodeIDs sh ++ roundRobin nodes nodeIndex todo) sh,
             nodeIndex + Z.of_nat todo).
Proof.
  intros Hlen. revert nodeIndex sh.
  induction todo as [|todo IH]; intros nodeIndex sh Hidx.
  - simpl. unfold roundRobin. simpl. rewrite app_nil_r, Z.add_0_r.
    by destruct sh.
  - cbn [assignReplicas]. unfold go_rem. rewrite decide_False by lia.
    rewrite Z.rem_mod_nonneg by lia. simpl.
    destruct (go_index_lookup nodes (nodeIndex `mod` len nodes))
      as (node & Hnode & ->); [by apply Z.mod_pos_bound|].
    simpl. rewrite IH by lia. simpl.
    rewrite roundRobin_S, Hnode. simpl.
    rewrite <-app_assoc. simpl. do 2 f_equal. lia.
Qed.

(** The outer loop gives shard number [k] the [replicaN] nodes that follow
    the [k * replicaN] nodes given to the shards before it. *)
Lemma assignDataNodes_spec nodes replicaN nodeIndex shards :
  0 < len nodes → 0 ≤ replicaN → 0 ≤ nodeIndex →
  assignDataNodes nodes replicaN nodeIndex shards
  = Returns (imap (λ (k : nat) sh,
               set_DataNodeIDs
                 (sh_DataNodeIDs sh
                  ++ roundRobin nodes (nodeIndex + Z.of_nat k * replicaN)
                                (Z.to_nat replicaN)) sh) shards).
Proof.
  intros Hlen Hr. revert nodeIndex.
  induction shards as [|sh rest IH]; intros nodeIndex Hidx; [done|].
  cbn [assignDataNodes]. rewrite assignReplicas_spec by done. simpl.
  rewrite IH by lia. simpl. f_equal. f_equal.
  - do 3 f_equal. lia.
  - apply imap_ext. intros k sh' _. simpl. do 3 f_equal. lia.
Qed.

Lemma assignShardIDs_DataNodeIDs shards tx shards' tx' :
  assignShardIDs shards tx = (shards', tx') →
  sh_DataNodeIDs <$> shards' = sh_DataNodeIDs <$> shards.
Proof.
  revert tx shards' tx'. induction shards as [|sh rest IH];
    intros tx shards' tx' Hrun; simpl in Hrun.
  - by inversion Hrun.
  - destruct (nextShardID tx) as [id tx1].
    destruct (assignShardIDs rest tx1) as [rest' tx2] eqn:Hrest.
    inversion Hrun; subst. simpl. f_equal. by eapply IH.
Qed.

Lemma openShards_DataNodeIDs s shards shards' :
  openShards s shards = Returns shards' →
  sh_DataNodeIDs <$> shards' = sh_DataNodeIDs <$> shards.
Proof.
  revert shards'. induction shards as [|sh rest IH]; intros shards' Hrun;
    simpl in Hrun.
  - by inversion Hrun.
  - destruct (HasDataNodeID (s_id s) sh); simpl in Hrun.
    + destruct (shard_open _ sh) as [e|st]; [done|].
      apply bind_Returns in Hrun as (rest' & Hrest & Hrun).
      inversion Hrun; subst. simpl. f_equal. by apply IH.
    + apply bind_Returns in Hrun as (rest' & Hrest & Hrun).
      inversion Hrun; subst. simpl. f_equal. by apply IH.
Qed.

Lemma openShards_Panics s shards p :
  openShards s shards = Panics p → ∃ e, p = UnableToOpenShard e.
Proof.
  induction shards as [|sh rest IH]; simpl; [done|].
  destruct (HasDataNodeID (s_id s) sh); simpl.
  - destruct (shard_open _ sh) as [e|st].
    + intros [= <-]. eauto.
    + destruct (openShards s rest); simpl; [done | auto | done].
  - destruct (openShards s rest); simpl; [done | auto | done].
Qed.

Lemma openShards_not_Blocks s shards : openShards s shards ≠ Blocks.
Proof.
  induction shards as [|sh rest IH]; simpl; [done|].
  destruct (HasDataNodeID (s_id s) sh); simpl.
  - destruct (shard_open _ sh) as [e|st]; [done|].
    by destruct (openShards s rest).
  - by destruct (openShards s rest).
Qed.

Lemma subscribeShards_outcome id shards cl :
  subscribeShards id shards cl = Panics NilDereference
  ∨ ∃ cl', subscribeShards id shards cl = Returns cl'.
Proof.
  revert cl. induction shards as [|sh rest IH]; intros cl; simpl; [eauto|].
  destruct (HasDataNodeID id sh); simpl; [|apply IH].
  destruct cl as [c|]; [apply IH | by left].
Qed.

Lemma fmap_lookup_eq {A B : Type} (f : A → B) (l1 l2 : list A) (k : nat) x :
  f <$> l1 = f <$> l2 → l1 !! k = Some x → ∃ y, l2 !! k = Some y ∧ f y = f x.
Proof.
  intros Heq Hx.
  assert ((f <$> l2) !! k = Some (f x)) as Hy
    by (by rewrite <-Heq, list_lookup_fmap, Hx).
  rewrite list_lookup_fmap in Hy.
  destruct (l2 !! k) as [y|]; [|done]. inversion Hy. eauto.
Qed.

Lemma placementOffset_mod m nodes :
  0 < len nodes →
  placementOffset m nodes = Z.of_N (m_Index m) `mod` len nodes.
Proof.
  intros Hlen. unfold placementOffset, len in *.
  rewrite N2Z.inj_mod. by rewrite nat_N_Z.
Qed.

(** With at least one data node, no group for the timestamp and the policy
    at hand, the handler builds a group of [len nodes / replicaN] shards,
    places them by round robin, and hands the database to the metastore;
    what it does afterwards depends on the metastore, on the shard stores
    and on the broker only. *)
Lemma applyCreateShardGroupIfNotExists_creates (m : Message)
    (c : createShardGroupIfNotExistsCommand) (s : Server) (db : database)
    (rp : RetentionPolicy) :
  m_Data m = DataCreateShardGroupIfNotExists c →
  s_databases s !! csg_Database c = Some db →
  db_policies db !! csg_Policy c = Some rp →
  rp_shardGroupByTimestamp rp (csg_Timestamp c) = None →
  1 ≤ len (sortedDataNodes s) →
  let nodes := sortedDataNodes s in
  let replicaN := replicaN_of rp nodes in
  let StartTime := Truncate (csg_Timestamp c) (rp_Duration rp) in
  ∃ gid placed tx,
    length placed = Z.to_nat (len nodes `div` replicaN)
    ∧ (∀ (k : nat) sh, placed !! k = Some sh →
         sh_DataNodeIDs sh
         = roundRobin nodes (placementOffset m nodes + Z.of_nat k * replicaN)
                      (Z.to_nat replicaN))
    ∧ applyCreateShardGroupIfNotExists m s
      = match saveDatabase db tx with
        | (Some e, _) => Returns (Some e, set_meta (s_meta s) s)
        | (None, store) =>
          shards ← openShards s placed;
          cl ← subscribeShards (s_id s) shards (s_client s);
          Returns
            (None,
             set_client cl
               (set_databases
                  (<[csg_Database c :=
                       set_policies
                         (<[csg_Policy c :=
                              set_shardGroups
                                (rp_shardGroups rp
                                 ++ [mkShardGroup gid StartTime
                                       (StartTime + rp_Duration rp) shards]) rp]>
                            (db_policies db)) db]> (s_databases s))
                  (set_shards (addShards shards (s_shards s))
                     (set_meta store s))))
        end.
Proof.
  intros Hm Hdb Hrp Hnone Hlen nodes replicaN StartTime.
  pose proof (replicaN_of_bounds rp nodes Hlen) as Hr. fold replicaN in Hr.
  fold nodes in Hlen.
  assert (N.of_nat (length nodes) ≠ 0%N) as Hlen' by (unfold len in Hlen; lia).
  unfold applyCreateShardGroupIfNotExists. rewrite Hm. simpl.
  rewrite Hdb, Hrp, Hnone. fold nodes replicaN StartTime.
  unfold go_div. rewrite decide_False by lia. simpl.
  rewrite Z.quot_div_nonneg by lia.
  unfold mustUpdate. simpl.
  destruct (nextShardGroupID (s_meta s)) as [gid tx1].
  destruct (assignShardIDs (replicate (Z.to_nat (len nodes `div` replicaN)) newShard) tx1)
    as [ids tx2] eqn:Hids.
  unfold go_urem. rewrite decide_False by done. simpl.
  fold (placementOffset m nodes).
  rewrite assignDataNodes_spec; [|lia|lia|apply N2Z.is_nonneg]. simpl.
  set (placed := imap _ ids).
  exists gid, placed, tx2.
  apply assignShardIDs_DataNodeIDs in Hids as Hnil.
  split_and!.
  - unfold placed. rewrite length_imap.
    apply (f_equal length) in Hnil. rewrite !length_fmap in Hnil.
    by rewrite Hnil, length_replicate.
  - intros k sh Hk. unfold placed in Hk. rewrite list_lookup_imap in Hk.
    destruct (ids !! k) as [sh0|] eqn:Hsh0; [|done].
    destruct (fmap_lookup_eq _ _ _ _ _ Hnil Hsh0) as (sh1 & Hsh1 & Hempty).
    apply lookup_replicate in Hsh1 as [-> _].
    simpl in Hk. inversion Hk. simpl. by rewrite <-Hempty.
  - by destruct (saveDatabase db tx2) as [[e|] store].
Qed.

(** Without a data node the handler divides by zero: in the shard count
    when the policy asks for replicas, in the placement offset otherwise. *)
Lemma applyCreateShardGroupIfNotExists_no_nodes (m : Message)
    (c : createShardGroupIfNotExistsCommand) (s : Server) (db : database)
    (rp : RetentionPolicy) :
  m_Data m = DataCreateShardGroupIfNotExists c →
  s_databases s !! csg_Database c = Some db →
  db_policies db !! csg_Policy c = Some rp →
  rp_shardGroupByTimestamp rp (csg_Timestamp c) = None →
  len (sortedDataNodes s) = 0 →
  applyCreateShardGroupIfNotExists m s = Panics DivideByZero.
Proof.
  intros Hm Hdb Hrp Hnone Hlen.
  unfold applyCreateShardGroupIfNotExists. rewrite Hm. simpl.
  rewrite Hdb, Hrp, Hnone.
  unfold replicaN_of, go_div. rewrite Hlen.
  destruct (decide (Z.of_N (rp_ReplicaN rp) = 0)) as [Hzero|Hpos].
  - rewrite decide_False by done. simpl.
    unfold mustUpdate. simpl.
    destruct (nextShardGroupID (s_meta s)) as [gid tx1]. simpl.
    unfold go_urem. rewrite decide_True; [done|].
    unfold len in Hlen. lia.
  - rewrite decide_True by lia. by rewrite decide_True.
Qed.

(** With at least one data node, no group for the timestamp and the policy
    at hand, the handler is this: it draws the identifier of the group and
    the identifiers of [len nodes / replicaN] shards, places the shards by
    round robin, and hands the database to the metastore; when the
    metastore refuses it returns the error and leaves the server as it was;
    otherwise it opens the shards of this server, subscribes to them and
    returns nil with the group appended to the policy. *)
Lemma applyCreateShardGroupIfNotExists_equation (m : Message)
    (c : createShardGroupIfNotExistsCommand) (s : Server) (db : database)
    (rp : RetentionPolicy) :
  m_Data m = DataCreateShardGroupIfNotExists c →
  s_databases s !! csg_Database c = Some db →
  db_policies db !! csg_Policy c = Some rp →
  rp_shardGroupByTimestamp rp (csg_Timestamp c) = None →
  1 ≤ len (sortedDataNodes s) →
  let nodes := sortedDataNodes s in
  let replicaN := replicaN_of rp nodes in
  let StartTime := Truncate (csg_Timestamp c) (rp_Duration rp) in
  let drawn := nextShardGroupID (s_meta s) in
  let ids := assignShardIDs
               (replicate (Z.to_nat (len nodes `div` replicaN)) newShard)
               drawn.2 in
  let placed := placedShards m nodes replicaN ids.1 in
  applyCreateShardGroupIfNotExists m s
  = match saveDatabase db ids.2 with
    | (Some e, _) => Returns (Some e, s)
    | (None, store) =>
      shards ← openShards s placed;
      cl ← subscribeShards (s_id s) shards (s_client s);
      Returns
        (None,
         set_client cl
           (set_databases
              (<[csg_Database c :=
                   set_policies
                     (<[csg_Policy c :=
                          set_shardGroups
                            (rp_shardGroups rp
                             ++ [mkShardGroup drawn.1 StartTime
                                   (StartTime + rp_Duration rp) shards]) rp]>
                        (db_policies db)) db]> (s_databases s))
              (set_shards (addShards shards (s_shards s))
                 (set_meta store s))))
    end.
Proof.
  intros Hm Hdb Hrp Hnone Hlen nodes replicaN StartTime drawn ids placed.
  pose proof (replicaN_of_bounds rp nodes Hlen) as Hr. fold replicaN in Hr.
  fold nodes in Hlen.
  assert (N.of_nat (length nodes) ≠ 0%N) as Hlen' by (unfold len in Hlen; lia).
  unfold applyCreateShardGroupIfNotExists. rewrite Hm. simpl.
  rewrite Hdb, Hrp, Hnone. fold nodes replicaN StartTime.
  unfold go_div. rewrite decide_False by lia. simpl.
  rewrite Z.quot_div_nonneg by lia.
  unfold mustUpdate. simpl.
  subst placed ids drawn.
  destruct (nextShardGroupID (s_meta s)) as [gid tx1]. simpl.
  destruct (assignShardIDs (replicate (Z.to_nat (len nodes `div` replicaN)) newShard) tx1)
    as [ids tx2] eqn:Hids. simpl.
  unfold go_urem. rewrite decide_False by done. simpl.
  fold (placementOffset m nodes).
  rewrite assignDataNodes_spec; [|lia|lia|apply N2Z.is_nonneg]. simpl.
  fold (placedShards m nodes replicaN ids).
  destruct (saveDatabase db tx2) as [[e|] store]; simpl; [|done].
  by destruct s.
Qed.

Lemma placedShards_lookup (m : Message) (nodes : list DataNode) (replicaN : Z)
    (tx : metatx) (count k : nat) (sh : Shard) :
  placedShards m nodes replicaN (assignShardIDs (replicate count newShard) tx).1
    !! k = Some sh →
  sh_DataNodeIDs sh
  = roundRobin nodes (placementOffset m nodes + Z.of_nat k * replicaN)
               (Z.to_nat replicaN)
  ∧ sh_store sh = None.
Proof.
  destruct (assignShardIDs (replicate count newShard) tx) as [ids tx'] eqn:Hids.
  apply assignShardIDs_DataNodeIDs in Hids as Hnil. simpl.
  unfold placedShards. rewrite list_lookup_imap.
  destruct (ids !! k) as [sh0|] eqn:Hsh0; [|done].
  destruct (fmap_lookup_eq _ _ _ _ _ Hnil Hsh0) as (sh1 & Hsh1 & Hempty).
  apply lookup_replicate in Hsh1 as [-> _].
  simpl. intros [= <-]. simpl. rewrite <-Hempty. split; [done|].
  clear Hnil Hempty. revert tx ids tx' k Hids Hsh0.
  induction count as [|count IH]; intros tx ids tx' k Hids Hsh0; simpl in Hids.
  - inversion Hids; subst. done.
  - destruct (nextShardID tx) as [id tx1].
    destruct (assignShardIDs (replicate count newShard) tx1) as [rest tx2] eqn:Hrest.
    inversion Hids; subst. destruct k as [|k]; simpl in Hsh0.
    + by inversion Hsh0.
    + by eapply IH.
Qed.

Lemma length_placedShards (m : Message) (nodes : list DataNode) (replicaN : Z)
    (tx : metatx) (count : nat) :
  length (placedShards m nodes replicaN
            (assignShardIDs (replicate count newShard) tx).1) = count.
Proof.
  destruct (assignShardIDs (replicate count newShard) tx) as [ids tx'] eqn:Hids.
  apply assignShardIDs_DataNodeIDs in Hids. simpl.
  unfold placedShards. rewrite length_imap.
  apply (f_equal length) in Hids. rewrite !length_fmap in Hids.
  by rewrite Hids, length_replicate.
Qed.

(** C9. With at least one data node neither divisor of the handler is zero:
    not the replica count that divides the node count, not the node count
    that the placement offset is taken modulo; the handler does not panic on
    a division.  With no data node the node count is zero, the replica count
    is zero for a policy that asks for replicas, and the handler, once it
    has to create a group, panics on a division by zero. *)
Theorem createShardGroup_divisors (m : Message) (s : Server) :
  let nodes := sortedDataNodes s in
  ((1 ≤ size (s_dataNodes s))%nat →
     (∀ rp, replicaN_of rp nodes ≠ 0)
     ∧ N.of_nat (length nodes) ≠ 0%N
     ∧ len nodes ≠ 0
     ∧ applyCreateShardGroupIfNotExists m s ≠ Panics DivideByZero)
  ∧ (size (s_dataNodes s) = 0%nat →
     N.of_nat (length nodes) = 0%N
     ∧ (∀ rp, (0 < rp_ReplicaN rp)%N → replicaN_of rp nodes = 0)
     ∧ ∀ c db rp,
         m_Data m = DataCreateShardGroupIfNotExists c →
         s_databases s !! csg_Database c = Some db →
         db_policies db !! csg_Policy c = Some rp →
         rp_shardGroupByTimestamp rp (csg_Timestamp c) = None →
         applyCreateShardGroupIfNotExists m s = Panics DivideByZero).
Proof.
  intros nodes.
  assert (len nodes = Z.of_nat (size (s_dataNodes s))) as Hlen
    by (unfold len, nodes; by rewrite length_sortedDataNodes).
  split; intros Hsize.
  - split_and!.
    + intros rp. pose proof (replicaN_of_bounds rp nodes). lia.
    + unfold len in Hlen. lia.
    + lia.
    + destruct (m_Data m) as [| | | |c| | | | | | | | | |] eqn:Hm;
        try (unfold applyCreateShardGroupIfNotExists; by rewrite Hm).
      destruct (s_databases s !! csg_Database c) as [db|] eqn:Hdb;
        [|unfold applyCreateShardGroupIfNotExists; by rewrite Hm, Hdb].
      destruct (db_policies db !! csg_Policy c) as [rp|] eqn:Hrp;
        [|unfold applyCreateShardGroupIfNotExists; by rewrite Hm, Hdb, Hrp].
      destruct (rp_shardGroupByTimestamp rp (csg_Timestamp c)) as [g|] eqn:Hg;
        [unfold applyCreateShardGroupIfNotExists; by rewrite Hm, Hdb, Hrp, Hg|].
      destruct (applyCreateShardGroupIfNotExists_creates m c s db rp)
        as (gid & placed & tx & _ & _ & ->); try done; [fold nodes; lia|].
      destruct (saveDatabase db tx) as [[e|] store]; [done|].
      destruct (openShards s placed) as [shards|p|] eqn:Hopen; simpl.
      * by destruct (subscribeShards_outcome (s_id s) shards (s_client s))
          as [->|[cl ->]].
      * apply openShards_Panics in Hopen as [e ->]. done.
      * done.
  - split_and!.
    + unfold len in Hlen. lia.
    + intros rp Hrp. unfold replicaN_of.
      rewrite decide_False by lia. rewrite decide_True by lia. lia.
    + intros c db rp Hm Hdb Hrp Hnone.
      eapply applyCreateShardGroupIfNotExists_no_nodes; try done.
      fold nodes. lia.
Qed.

(** C2. When the state has [n >= 1] data nodes and no group of the policy
    contains the timestamp, the replica count the handler works with is the
    [ReplicaN] of the policy, 1 when that is zero and [n] when it exceeds
    [n]; the nodes are taken in ascending order of their identifiers; the
    handler builds [n / replicaN] shards and gives shard [k] exactly
    [replicaN] node identifiers, the [i]-th being that of the sorted node at
    position [(index mod n + k * replicaN + i) mod n].  What the handler
    does is fixed by an equation: it hands the database to the metastore,
    returns its error if there is one, and otherwise opens the shards of
    this server, subscribes to them and returns nil with a group of these
    shards appended to the policy.  So it returns unless a shard store
    cannot be opened or there is no client to subscribe with, it creates
    the group whenever the metastore accepts and the stores and the client
    are there, and the group it has appended when it returns nil has the
    shards and nodes described. *)
Theorem createShardGroup_placement (m : Message)
    (c : createShardGroupIfNotExistsCommand) (s : Server) (db : database)
    (rp : RetentionPolicy)
    (Hm : m_Data m = DataCreateShardGroupIfNotExists c)
    (Hdb : s_databases s !! csg_Database c = Some db)
    (Hrp : db_policies db !! csg_Policy c = Some rp)
    (Hnone : rp_shardGroupByTimestamp rp (csg_Timestamp c) = None)
    (Hnodes : (1 ≤ size (s_dataNodes s))%nat) :
  let n := Z.of_nat (size (s_dataNodes s)) in
  let nodes := sortedDataNodes s in
  let replicaN := replicaN_of rp nodes in
  let StartTime := Truncate (csg_Timestamp c) (rp_Duration rp) in
  let drawn := nextShardGroupID (s_meta s) in
  let ids := assignShardIDs
               (replicate (Z.to_nat (n `div` replicaN)) newShard) drawn.2 in
  let placed := placedShards m nodes replicaN ids.1 in
  let created (store : metatx) (shards : list Shard)
              (cl : option MessagingClient) : Server :=
    set_client cl
      (set_databases
         (<[csg_Database c :=
              set_policies
                (<[csg_Policy c :=
                     set_shardGroups
                       (rp_shardGroups rp
                        ++ [mkShardGroup drawn.1 StartTime
                              (StartTime + rp_Duration rp) shards]) rp]>
                   (db_policies db)) db]> (s_databases s))
         (set_shards (addShards shards (s_shards s)) (set_meta store s))) in
  (rp_ReplicaN rp = 0%N → replicaN = 1)
  ∧ (n < Z.of_N (rp_ReplicaN rp) → replicaN = n)
  ∧ (0 < Z.of_N (rp_ReplicaN rp) ≤ n → replicaN = Z.of_N (rp_ReplicaN rp))
  ∧ Sorted dataNodes_Less nodes
  ∧ nodes ≡ₚ dataNodeList s
  ∧ len nodes = n
  ∧ length placed = Z.to_nat (n `div` replicaN)
  ∧ (∀ (k : nat) sh, placed !! k = Some sh →
       length (sh_DataNodeIDs sh) = Z.to_nat replicaN
       ∧ ∀ i : nat, (i < Z.to_nat replicaN)%nat →
           ∃ node,
             nodes !! Z.to_nat ((Z.of_N (m_Index m) `mod` n
                                 + Z.of_nat k * replicaN + Z.of_nat i) `mod` n)
             = Some node
             ∧ sh_DataNodeIDs sh !! i = Some (dn_ID node))
  ∧ applyCreateShardGroupIfNotExists m s
    = match saveDatabase db ids.2 with
      | (Some e, _) => Returns (Some e, s)
      | (None, store) =>
        shards ← openShards s placed;
        cl ← subscribeShards (s_id s) shards (s_client s);
        Returns (None, created store shards cl)
      end
  ∧ (∀ store shards cl,
       saveDatabase db ids.2 = (None, store) →
       openShards s placed = Returns shards →
       subscribeShards (s_id s) shards (s_client s) = Returns cl →
       applyCreateShardGroupIfNotExists m s
       = Returns (None, created store shards cl)
       ∧ sh_DataNodeIDs <$> shards = sh_DataNodeIDs <$> placed)
  ∧ ((∃ err s', applyCreateShardGroupIfNotExists m s = Returns (err, s'))
     ∨ (∃ e, applyCreateShardGroupIfNotExists m s = Panics (UnableToOpenShard e))
     ∨ applyCreateShardGroupIfNotExists m s = Panics NilDereference)
  ∧ ∀ s', applyCreateShardGroupIfNotExists m s = Returns (None, s') →
      ∃ db' rp' g,
        s_databases s' !! csg_Database c = Some db'
        ∧ db_policies db' !! csg_Policy c = Some rp'
        ∧ rp_shardGroups rp' = rp_shardGroups rp ++ [g]
        ∧ length (g_Shards g) = Z.to_nat (n `div` replicaN)
        ∧ ∀ (k : nat) sh, g_Shards g !! k = Some sh →
            length (sh_DataNodeIDs sh) = Z.to_nat replicaN
            ∧ ∀ i : nat, (i < Z.to_nat replicaN)%nat →
                ∃ node,
                  nodes !! Z.to_nat ((Z.of_N (m_Index m) `mod` n
                                      + Z.of_nat k * replicaN + Z.of_nat i) `mod` n)
                  = Some node
                  ∧ sh_DataNodeIDs sh !! i = Some (dn_ID node).
Proof.
  intros n nodes replicaN StartTime drawn ids placed created.
  assert (len nodes = n) as Hlen
    by (unfold len, nodes, n; by rewrite length_sortedDataNodes).
  assert (1 ≤ len nodes) as Hpos by lia.
  pose proof (applyCreateShardGroupIfNotExists_equation m c s db rp
                Hm Hdb Hrp Hnone Hpos) as Heq.
  cbv zeta in Heq. fold nodes replicaN StartTime in Heq.
  rewrite Hlen in Heq. fold drawn ids placed in Heq.
  assert (length placed = Z.to_nat (n `div` replicaN)) as Hcount
    by apply length_placedShards.
  assert (∀ (k : nat) sh, placed !! k = Some sh →
            length (sh_DataNodeIDs sh) = Z.to_nat replicaN
            ∧ ∀ i : nat, (i < Z.to_nat replicaN)%nat →
                ∃ node,
                  nodes !! Z.to_nat ((Z.of_N (m_Index m) `mod` n
                                      + Z.of_nat k * replicaN + Z.of_nat i) `mod` n)
                  = Some node
                  ∧ sh_DataNodeIDs sh !! i = Some (dn_ID node)) as Hplaced.
  { intros k sh Hk. apply placedShards_lookup in Hk as [Hk _]. rewrite Hk.
    split; [apply length_roundRobin|].
    intros i Hi.
    destruct (roundRobin_lookup nodes
                (placementOffset m nodes + Z.of_nat k * replicaN)
                (Z.to_nat replicaN) i) as (node & Hnode & Hid); [lia|done|].
    exists node. split; [|done].
    rewrite <-Hnode, placementOffset_mod, Hlen by lia. do 2 f_equal; lia. }
  split_and!.
  - intros Hzero. unfold replicaN, replicaN_of. rewrite decide_True; [done|lia].
  - intros Hmany. unfold replicaN, replicaN_of.
    rewrite decide_False by lia. rewrite decide_True by lia. done.
  - intros Hfew. unfold replicaN, replicaN_of.
    rewrite decide_False by lia. by rewrite decide_False by lia.
  - apply sortedDataNodes_Sorted.
  - apply sortedDataNodes_Permutation.
  - done.
  - done.
  - done.
  - done.
  - intros store shards cl Hsave Hopen Hsub. rewrite Heq, Hsave, Hopen.
    simpl. rewrite Hsub. split; [done|]. by apply openShards_DataNodeIDs in Hopen.
  - rewrite Heq.
    destruct (saveDatabase db ids.2) as [[e|] store]; [by left; eauto|].
    destruct (openShards s placed) as [shards|p|] eqn:Hopen; simpl.
    + destruct (subscribeShards_outcome (s_id s) shards (s_client s))
        as [->|[cl ->]]; simpl; [by right; right | by left; eauto].
    + apply openShards_Panics in Hopen as [e ->]. right; left. by exists e.
    + by apply openShards_not_Blocks in Hopen.
  - intros s'. rewrite Heq.
    destruct (saveDatabase db ids.2) as [[e|] store]; [done|].
    intros (shards & Hopen & Hrun)%bind_Returns.
    apply bind_Returns in Hrun as (cl & _ & Hrun).
    inversion Hrun; subst s'; clear Hrun.
    apply openShards_DataNodeIDs in Hopen.
    eexists _, _, _. split_and!.
    + simpl. apply lookup_insert_eq.
    + simpl. apply lookup_insert_eq.
    + done.
    + simpl. apply (f_equal length) in Hopen.
      rewrite !length_fmap in Hopen. by rewrite Hopen.
    + simpl. intros k sh Hk.
      destruct (fmap_lookup_eq _ _ _ _ _ Hopen Hk) as (sh1 & Hsh1 & Hsame).
      rewrite <-Hsame. by apply Hplaced.
Qed.

(** ** Idempotence of shard-group creation *)

(** The window of a group created for a timestamp contains the timestamp
    when the duration of the policy is positive. *)
Lemma groupContains_created (t d : Z) (gid : N) (shards : list Shard) :
  0 < d →
  groupContains t (mkShardGroup gid (Truncate t d) (Truncate t d + d) shards)
  = true.
Proof.
  intros Hd. unfold groupContains, Truncate. simpl.
  rewrite decide_False by lia. apply bool_decide_eq_true.
  pose proof (Z.mod_pos_bound t d Hd). lia.
Qed.

Lemma rp_shardGroupByTimestamp_eq rp t :
  rp_shardGroupByTimestamp rp t = head (groupsContaining t rp).
Proof. done. Qed.

Lemma groupsContaining_app t rp g :
  groupsContaining t (set_shardGroups (rp_shardGroups rp ++ [g]) rp)
  = groupsContaining t rp ++ (if groupContains t g then [g] else []).
Proof.
  unfold groupsContaining. simpl. rewrite filter_app. f_equal.
  destruct (groupContains t g) eqn:Hg.
  - by rewrite filter_cons_True.
  - rewrite filter_cons_False; [done|]. by rewrite Hg.
Qed.

(** C4, as amended. For a policy with a positive duration and at most one
    group whose window contains the timestamp: when the first apply of
    [createShardGroupIfNotExists] returns nil, exactly one group of the
    policy contains the timestamp afterwards, and a second apply with the
    same database, policy and timestamp returns nil and leaves the server as
    the first one left it. *)
Theorem createShardGroupIfNotExists_idempotent (m1 m2 : Message)
    (c : createShardGroupIfNotExistsCommand) (s s1 : Server) (db : database)
    (rp : RetentionPolicy)
    (Hm1 : m_Data m1 = DataCreateShardGroupIfNotExists c)
    (Hm2 : m_Data m2 = DataCreateShardGroupIfNotExists c)
    (Hdb : s_databases s !! csg_Database c = Some db)
    (Hrp : db_policies db !! csg_Policy c = Some rp)
    (Hduration : 0 < rp_Duration rp)
    (Hdisjoint : (length (groupsContaining (csg_Timestamp c) rp) ≤ 1)%nat)
    (Hfirst : applyCreateShardGroupIfNotExists m1 s = Returns (None, s1)) :
  ∃ db1 rp1,
    s_databases s1 !! csg_Database c = Some db1
    ∧ db_policies db1 !! csg_Policy c = Some rp1
    ∧ length (groupsContaining (csg_Timestamp c) rp1) = 1%nat
    ∧ applyCreateShardGroupIfNotExists m2 s1 = Returns (None, s1).
Proof.
  destruct (rp_shardGroupByTimestamp rp (csg_Timestamp c)) as [g|] eqn:Hg.
  - (* the group exists already *)
    assert (s1 = s) as ->.
    { unfold applyCreateShardGroupIfNotExists in Hfirst.
      rewrite Hm1 in Hfirst. simpl in Hfirst.
      rewrite Hdb, Hrp, Hg in Hfirst. by inversion Hfirst. }
    exists db, rp. split_and!; try done.
    + rewrite rp_shardGroupByTimestamp_eq in Hg.
      destruct (groupsContaining (csg_Timestamp c) rp) as [|g' [|g'' rest]];
        simpl in *; [done | done | lia].
    + unfold applyCreateShardGroupIfNotExists. rewrite Hm2. simpl.
      by rewrite Hdb, Hrp, Hg.
  - (* the first apply creates the group *)
    destruct (decide (len (sortedDataNodes s) = 0)) as [Hzero|Hnodes].
    { by rewrite (applyCreateShardGroupIfNotExists_no_nodes m1 c s db rp)
        in Hfirst. }
    destruct (applyCreateShardGroupIfNotExists_creates m1 c s db rp)
      as (gid & placed & tx & _ & _ & Hrun); try done.
    { unfold len in *. lia. }
    rewrite Hrun in Hfirst. clear Hrun.
    destruct (saveDatabase db tx) as [[e|] store]; [done|].
    apply bind_Returns in Hfirst as (shards & _ & Hfirst).
    apply bind_Returns in Hfirst as (cl & _ & Hfirst).
    inversion Hfirst; subst s1; clear Hfirst.
    set (g := mkShardGroup gid _ _ shards).
    set (rp1 := set_shardGroups (rp_shardGroups rp ++ [g]) rp).
    assert (groupsContaining (csg_Timestamp c) rp1 = [g]) as Hone.
    { unfold rp1. rewrite groupsContaining_app.
      rewrite rp_shardGroupByTimestamp_eq in Hg.
      destruct (groupsContaining (csg_Timestamp c) rp); [|done].
      unfold g. by rewrite groupContains_created. }
    eexists _, rp1. split_and!.
    + simpl. apply lookup_insert_eq.
    + simpl. apply lookup_insert_eq.
    + by rewrite Hone.
    + unfold applyCreateShardGroupIfNotExists. rewrite Hm2. simpl.
      rewrite lookup_insert_eq. simpl. rewrite lookup_insert_eq.
      by rewrite rp_shardGroupByTimestamp_eq, Hone.
Qed.

(** ** Handlers that keep their change when the metastore fails *)

(** What the loop over the data nodes returns when it returns: whether a
    node has the URL.  It returns [false] only after it has printed the URL
    of every node, none of which is nil then; and with no nil URL at hand
    it returns. *)
Lemma hasURL_Returns (u : URL) (nodes : list DataNode) (b : bool) :
  hasURL u nodes = Returns b →
  b = bool_decide (Exists (λ n, url_String (dn_URL n) = url_String u) nodes).
Proof.
  induction nodes as [|n rest IH]; cbn [hasURL].
  - intros [= <-]. symmetry. apply bool_decide_eq_false_2.
    by intros ?%Exists_nil.
  - unfold URL_String. destruct (url_nil (dn_URL n)); [done|].
    destruct (url_nil u); [done|]. simpl.
    destruct (decide (url_String (dn_URL n) = url_String u)) as [Heq|Hne].
    + intros [= <-]. symmetry. apply bool_decide_eq_true_2. by left.
    + intros Hrest. rewrite (IH Hrest). apply bool_decide_ext.
      rewrite Exists_cons. split; [by right | by intros [?|?]].
Qed.

Lemma hasURL_false (u : URL) (nodes : list DataNode) :
  hasURL u nodes = Returns false →
  Forall (λ n, url_nil (dn_URL n) = false) nodes
  ∧ (nodes ≠ [] → url_nil u = false).
Proof.
  induction nodes as [|n rest IH]; cbn [hasURL]; [done|].
  unfold URL_String. destruct (url_nil (dn_URL n)) eqn:Hn; [done|].
  destruct (url_nil u) eqn:Hu; [done|]. simpl.
  destruct (decide (url_String (dn_URL n) = url_String u)); [done|].
  intros [Hrest _]%IH. split; [by constructor | done].
Qed.

Lemma hasURL_total (u : URL) (nodes : list DataNode) :
  url_nil u = false →
  Forall (λ n, url_nil (dn_URL n) = false) nodes →
  hasURL u nodes
  = Returns (bool_decide
               (Exists (λ n, url_String (dn_URL n) = url_String u) nodes)).
Proof.
  intros Hu Hnodes. induction Hnodes as [|n rest Hn _ IH]; cbn [hasURL].
  - f_equal; try (symmetry; apply bool_decide_eq_false_2;
                  by intros ?%Exists_nil).
  - unfold URL_String. rewrite Hn, Hu. simpl.
    destruct (decide (url_String (dn_URL n) = url_String u)) as [Heq|Hne].
    + f_equal. symmetry. apply bool_decide_eq_true_2. by left.
    + rewrite IH. f_equal. apply bool_decide_ext.
      rewrite Exists_cons. split; [by right | by intros [?|?]].
Qed.

(** [applyCreateDataNode] adds the node to the data-node map whatever the
    metastore answers, and returns the answer of the metastore. *)
Lemma applyCreateDataNode_inserts (m : Message) (c : createDataNodeCommand)
    (s : Server) :
  m_Data m = DataCreateDataNode c →
  cdn_URL c ≠ "" →
  hasURL (url_Parse (cdn_URL c)) (dataNodeList s) = Returns false →
  let n := mkDataNode (nextDataNodeID (s_meta s)).1 (url_Parse (cdn_URL c)) in
  ∃ store,
    applyCreateDataNode m s
    = Returns ((saveDataNode n (nextDataNodeID (s_meta s)).2).1,
               set_dataNodes (<[dn_ID n := n]> (s_dataNodes s))
                             (set_meta store s)).
Proof.
  intros Hm Hurl Hfresh n. unfold applyCreateDataNode, mustUpdate.
  rewrite Hm. rewrite decide_False by done.
  rewrite Hfresh. simpl.
  subst n. destruct (nextDataNodeID (s_meta s)) as [id tx]. simpl.
  destruct (saveDataNode (mkDataNode id (url_Parse (cdn_URL c))) tx)
    as [[e|] store]; simpl; eauto.
Qed.

(** [applyCreateDatabase] adds the database to the database map whatever
    the metastore answers, and returns the answer of the metastore. *)
Lemma applyCreateDatabase_inserts (m : Message) (c : createDatabaseCommand)
    (s : Server) :
  m_Data m = DataCreateDatabase c →
  s_databases s !! cdb_Name c = None →
  let db := mkDatabase (cdb_Name c) ∅ "" ∅ [] in
  ∃ store,
    applyCreateDatabase m s
    = Returns ((saveDatabase db (s_meta s)).1,
               set_databases (<[cdb_Name c := db]> (s_databases s))
                             (set_meta store s)).
Proof.
  intros Hm Hfresh db. unfold applyCreateDatabase, mustUpdate.
  rewrite Hm, Hfresh. simpl. fold db.
  destruct (saveDatabase db (s_meta s)) as [[e|] store]; simpl; eauto.
Qed.


(** ** What a call publishes *)

Lemma broadcasts_only_refl s : broadcasts_only s s.
Proof. exists []. by rewrite app_nil_r. Qed.

Lemma broadcasts_only_trans s1 s2 s3 :
  broadcasts_only s1 s2 → broadcasts_only s2 s3 → broadcasts_only s1 s3.
Proof.
  intros (sent1 & H1 & Hall1) (sent2 & H2 & Hall2).
  exists (sent1 ++ sent2). rewrite H2, H1, app_assoc. split; [done|].
  by apply Forall_app.
Qed.

Lemma published_client_log s s' :
  client_log (s_client s') = client_log (s_client s) →
  published s' = published s.
Proof.
  unfold published, client_log.
  destruct (s_client s') as [c'|], (s_client s) as [c|]; simpl;
    intros [=]; done.
Qed.

Lemma published_set_chan ch s : published (set_chan ch s) = published s.
Proof.
  unfold published, set_chan.
  destruct (s_client s) eqn:Hcl; simpl; [done | by rewrite Hcl].
Qed.

(** The processor publishes nothing. *)
Lemma process_published m s s' :
  process m s = Returns s' → published s' = published s.
Proof.
  unfold process. destruct (opened s); simpl; intros Hrun.
  - apply bind_Returns in Hrun as ([err s1] & Hd & Hrun).
    inversion Hrun; subst s'. apply dispatch_log in Hd as [_ _ _ Hcl].
    apply published_client_log in Hcl. rewrite <-Hcl.
    unfold record. by destruct err.
  - by inversion Hrun.
Qed.

Lemma Sync_poll_published index s r :
  Sync_poll index s = Some r → published r.2 = published s.
Proof.
  unfold Sync_poll. case_decide; [|done].
  destruct (s_errors s !! index); intros [= <-]; done.
Qed.

(** Waiting for an index publishes nothing. *)
Lemma Sync_published index s err s' :
  Sync index s = Returns (err, s') → published s' = published s.
Proof.
  unfold Sync. generalize (channel s) as pending. intros pending.
  revert s. induction pending as [|m rest IH]; intros s; simpl.
  - destruct (Sync_poll index s) as [r|] eqn:Hpoll; [|done].
    intros [= ->]. by apply Sync_poll_published in Hpoll.
  - destruct (Sync_poll index s) as [r|] eqn:Hpoll.
    + intros [= ->]. by apply Sync_poll_published in Hpoll.
    + intros (s1 & Hm & Hrest)%bind_Returns.
      apply IH in Hrest. apply process_published in Hm.
      by rewrite Hrest, Hm, published_set_chan.
Qed.

(** A broadcast publishes at most one message, on the broadcast topic. *)
Lemma broadcast_published typ c s index err s' :
  broadcast typ c s = Returns (index, err, s') → broadcasts_only s s'.
Proof.
  unfold broadcast.
  destruct (marshal_fault c) as [e|];
    [intros [= _ _ <-]; apply broadcasts_only_refl|].
  destruct (s_client s) as [cl|] eqn:Hcl; [|done].
  unfold Publish. simpl.
  destruct (publish_fault _ cl) as [e|].
  - intros [= _ _ <-]. exists []. unfold published. simpl.
    by rewrite Hcl, app_nil_r.
  - intros ([err' s1] & Hsync & Hrun)%bind_Returns.
    inversion Hrun; subst. apply Sync_published in Hsync.
    eexists [_]. rewrite Hsync. unfold published at 1 2. simpl.
    rewrite Hcl. split; [done|]. by apply Forall_singleton.
Qed.

Lemma command_published typ c s err s' :
  command typ c s = Returns (err, s') → broadcasts_only s s'.
Proof.
  unfold command. intros ([[index err'] s1] & Hb & Hrun)%bind_Returns.
  inversion Hrun; subst. by eapply broadcast_published.
Qed.

Lemma createSeriesIfNotExists_published database name tags s id err s' :
  createSeriesIfNotExists database name tags s = Returns (id, err, s') →
  broadcasts_only s s'.
Proof.
  unfold createSeriesIfNotExists.
  destruct (s_databases s !! database) as [idx|];
    [|intros [= _ _ <-]; apply broadcasts_only_refl].
  destruct (MeasurementAndSeries idx name tags).2 as [series|];
    [intros [= _ _ <-]; apply broadcasts_only_refl|].
  intros ([[index err'] s1] & Hb & Hrun)%bind_Returns.
  apply broadcast_published in Hb.
  destruct err' as [e|]; [by inversion Hrun; subst|].
  destruct (s_databases s1 !! database) as [idx'|]; [|by inversion Hrun; subst].
  destruct (MeasurementAndSeries idx' name tags).2; by inversion Hrun; subst.
Qed.

Lemma createShardGroupIfNotExists_published database policy t s g err s' :
  createShardGroupIfNotExists database policy t s = Returns (g, err, s') →
  broadcasts_only s s'.
Proof.
  unfold createShardGroupIfNotExists.
  destruct (shardGroupByTimestamp s database policy t) as [[g0|] [e|]];
    try (intros [= _ _ <-]; apply broadcasts_only_refl).
  intros ([err' s1] & Hb & Hrun)%bind_Returns.
  apply command_published in Hb.
  destruct err' as [e|]; [by inversion Hrun; subst|].
  destruct (shardGroupByTimestamp s1 database policy t).
  by inversion Hrun; subst.
Qed.

(** ** The write path *)

(** C5. A [WriteSeries] of a single point without values, for which the
    series, the retention policy (the default one when none is named), the
    measurement, the shard group and the shard are found, returns index 0
    and nil.  It leaves the server as the lookups left it: what has been
    published during the call are the broadcasts of those lookups, all on
    the broadcast topic, and nothing on the topic of the shard. *)
Theorem WriteSeries_without_values (database retentionPolicy policy : string)
    (pt : Point) (s s1 s2 : Server) (seriesID : N) (mm : Measurement)
    (g : ShardGroup) (sh : Shard)
    (Hvalues : pt_Values pt = [])
    (Hseries : createSeriesIfNotExists database (pt_Name pt) (pt_Tags pt) s
               = Returns (seriesID, None, s1))
    (Hpolicy : if decide (retentionPolicy = "")
               then ∃ rp, DefaultRetentionPolicy s1 database = (Some rp, None)
                          ∧ rp_Name rp = policy
               else policy = retentionPolicy)
    (Hmeasurement : measurement s1 database (pt_Name pt) = (Some mm, None))
    (Hgroup : createShardGroupIfNotExists database policy (pt_Timestamp pt) s1
              = Returns (Some g, None, s2))
    (Hshard : ShardBySeriesID g seriesID = Returns sh) :
  WriteSeries database retentionPolicy [pt] s = Returns (0%N, None, s2)
  ∧ broadcasts_only s s2
  ∧ (sh_ID sh ≠ BroadcastTopicID →
     filter (λ m, m_TopicID m = sh_ID sh) (published s2)
     = filter (λ m, m_TopicID m = sh_ID sh) (published s)).
Proof.
  assert (broadcasts_only s s2) as Hsent.
  { eapply broadcasts_only_trans.
    - by eapply createSeriesIfNotExists_published.
    - by eapply createShardGroupIfNotExists_published. }
  split_and!; [|done|].
  - unfold WriteSeries. rewrite Hseries. simpl.
    destruct (decide (retentionPolicy = "")) as [Hdefault|Hnamed].
    + destruct Hpolicy as (rp & -> & <-). rewrite Hmeasurement.
      rewrite Hgroup. simpl. rewrite Hshard. simpl.
      by rewrite Hvalues.
    + subst policy. rewrite Hmeasurement.
      rewrite Hgroup. simpl. rewrite Hshard. simpl.
      by rewrite Hvalues.
  - intros Hne. destruct Hsent as (sent & -> & Hall).
    rewrite filter_app.
    assert (filter (λ m, m_TopicID m = sh_ID sh) sent = []) as ->;
      [|by rewrite app_nil_r].
    induction Hall as [|m rest Hm _ IH]; [done|].
    rewrite filter_cons_False; [done|]. by rewrite Hm.
Qed.


(** ** The query dispatcher *)

Lemma length_executeStatements stmts database user s results s' :
  executeStatements stmts database user s = Returns (results, s') →
  length results = length stmts.
Proof.
  revert s results s'. induction stmts as [|stmt rest IH];
    intros s results s' Hrun; simpl in Hrun.
  - by inversion Hrun.
  - apply bind_Returns in Hrun as ([[res|] s1] & _ & Hrun).
    + destruct (bool_decide (is_Some (res_Err res))).
      * inversion Hrun; subst. simpl. by rewrite length_replicate.
      * apply bind_Returns in Hrun as ([rs s2] & Hrest & Hrun).
        inversion Hrun; subst. simpl. f_equal. by eapply IH.
    + apply bind_Returns in Hrun as ([rs s2] & Hrest & Hrun).
      inversion Hrun; subst. simpl. f_equal. by eapply IH.
Qed.

Lemma length_fillEmpty results : length (fillEmpty results) = length results.
Proof. unfold fillEmpty. apply length_fmap. Qed.

Lemma fillEmpty_app r1 r2 : fillEmpty (r1 ++ r2) = fillEmpty r1 ++ fillEmpty r2.
Proof. unfold fillEmpty. apply fmap_app. Qed.

Lemma fillEmpty_cons_Some r l : fillEmpty (Some r :: l) = r :: fillEmpty l.
Proof. done. Qed.

Lemma fillEmpty_replicate n : fillEmpty (replicate n None) = replicate n notExecuted.
Proof. unfold fillEmpty. by rewrite fmap_replicate. Qed.

(** The first loop, on statements that run without an error followed by a
    statement whose result carries one: the loop is left with the slots of
    the remaining statements nil, and with the server as that statement left
    it. *)
Lemma executeStatements_first_error pre stmt post database user s s1 s2 rs res :
  executeStatements pre database user s = Returns (rs, s1) →
  Forall (λ r, ∀ res0, r = Some res0 → res_Err res0 = None) rs →
  executeStatement stmt database user s1 = Returns (Some res, s2) →
  is_Some (res_Err res) →
  executeStatements (pre ++ stmt :: post) database user s
  = Returns (rs ++ Some res :: replicate (length post) None, s2).
Proof.
  intros Hpre Hclean Hstmt Herr. revert s rs Hpre Hclean.
  induction pre as [|p pre IH]; intros s rs Hpre Hclean; simpl in *.
  - inversion Hpre; subst. rewrite Hstmt. simpl.
    by rewrite bool_decide_eq_true_2.
  - apply bind_Returns in Hpre as ([[res0|] s0] & Hp & Hpre); rewrite Hp; simpl.
    + destruct (bool_decide (is_Some (res_Err res0))) eqn:Herr0.
      * inversion Hpre; subst. apply Forall_cons_1 in Hclean as [Hnone _].
        apply bool_decide_eq_true in Herr0. rewrite (Hnone res0) in Herr0 by done.
        by destruct Herr0.
      * apply bind_Returns in Hpre as ([rs' s'] & Hrest & Hpre).
        inversion Hpre; subst. apply Forall_cons_1 in Hclean as [_ Hclean].
        by rewrite (IH _ _ Hrest Hclean).
    + apply bind_Returns in Hpre as ([rs' s'] & Hrest & Hpre).
      inversion Hpre; subst. apply Forall_cons_1 in Hclean as [_ Hclean].
      by rewrite (IH _ _ Hrest Hclean).
Qed.

(** C8. When the statements [pre] run without an error and the statement
    [stmt] after them returns a result that carries one, [ExecuteQuery]
    stops there: it leaves the server as [stmt] left it, whatever statements
    [post] follow, and returns the results of [pre], the result of [stmt],
    and the not-executed sentinel for every statement of [post].  Every slot
    that the loop left empty holds the sentinel, also the slots of the
    statements that [pre] skipped.  Whenever [ExecuteQuery] returns, it
    returns one result per statement. *)
Theorem ExecuteQuery_stops_at_first_error (pre post : list Statement)
    (stmt : Statement) (database : string) (user : option User)
    (s s1 s2 : Server) (rs : list (option Result)) (res : Result) (e : error)
    (Hpre : executeStatements pre database user s = Returns (rs, s1))
    (Hclean : Forall (λ r, ∀ res0, r = Some res0 → res_Err res0 = None) rs)
    (Hstmt : executeStatement stmt database user s1 = Returns (Some res, s2))
    (Herr : res_Err res = Some e) :
  let results := fillEmpty rs ++ res :: replicate (length post) notExecuted in
  ExecuteQuery (pre ++ stmt :: post) database user s = Returns (results, s2)
  ∧ length results = length (pre ++ stmt :: post)
  ∧ results !! length pre = Some res
  ∧ (∀ i : nat, (length pre < i < length (pre ++ stmt :: post))%nat →
       results !! i = Some notExecuted)
  ∧ (∀ i : nat, rs !! i = Some None → results !! i = Some notExecuted)
  ∧ (∀ q s0 results0 s0',
       ExecuteQuery q database user s0 = Returns (results0, s0') →
       length results0 = length q).
Proof.
  intros results.
  pose proof (length_executeStatements _ _ _ _ _ _ Hpre) as Hlen.
  assert (length (fillEmpty rs) = length pre) as Hlen'
    by by rewrite length_fillEmpty.
  split_and!.
  - unfold ExecuteQuery.
    rewrite (executeStatements_first_error pre stmt post database user s s1 s2 rs res)
      by (try done; by rewrite Herr).
    simpl. by rewrite fillEmpty_app, fillEmpty_cons_Some, fillEmpty_replicate.
  - unfold results. rewrite !length_app. simpl.
    rewrite length_replicate. lia.
  - unfold results. rewrite lookup_app_r by lia.
    by rewrite Hlen', Nat.sub_diag.
  - intros i Hi. unfold results. rewrite length_app in Hi. simpl in Hi.
    rewrite lookup_app_r by lia. rewrite Hlen'.
    destruct (i - length pre)%nat as [|j] eqn:Hj; [lia|]. simpl.
    apply lookup_replicate_2. lia.
  - intros i Hi. unfold results.
    rewrite lookup_app_l by (rewrite length_fillEmpty; by eapply lookup_lt_Some).
    unfold fillEmpty. by rewrite list_lookup_fmap, Hi.
  - intros q s0 results0 s0' Hrun. unfold ExecuteQuery in Hrun.
    apply bind_Returns in Hrun as ([rs0 s3] & Hrun & Hret).
    inversion Hret; subst. rewrite length_fillEmpty.
    by eapply length_executeStatements.
Qed.
End Proofs.

(** * More properties *)

Section MoreProofs.
Context {F : Foreign} {C : Collaborators} {L : Libraries}.

(** ** Commands, the processor and [Close] *)

Lemma opened_set_chan ch s : opened (set_chan ch s) = opened s.
Proof. unfold set_chan. by destruct (s_client s). Qed.

Lemma s_index_set_chan ch s : s_index (set_chan ch s) = s_index s.
Proof. unfold set_chan. by destruct (s_client s). Qed.

Lemma set_chan_set_chan ch1 ch2 s : set_chan ch1 (set_chan ch2 s) = set_chan ch1 s.
Proof.
  unfold set_chan. destruct (s_client s) eqn:Hcl; simpl; [done|].
  by rewrite Hcl.
Qed.


(** X1. A closed server drops every message it receives: the processor leaves
    it exactly as it was, whatever the messages are. *)
Theorem processor_drops_when_closed (msgs : list Message) (s : Server)
    (Hclosed : s_path s = "") :
  processor msgs s = Returns s.
Proof.
  induction msgs as [|m rest IH]; [done|].
  simpl. unfold process, opened.
  rewrite bool_decide_eq_false_2 by (by intros Hne; apply Hne).
  simpl. apply IH.
Qed.

(** On a closed server, waiting for an index that has not been applied
    never ends, whatever is on the channel. *)
Lemma Sync_wait_closed pending index s :
  opened s = false → (s_index s < index)%N →
  Sync_wait pending index s = Blocks.
Proof.
  revert s. induction pending as [|m rest IH]; intros s Hclosed Hlt; simpl.
  - unfold Sync_poll. by rewrite decide_False by lia.
  - unfold Sync_poll. rewrite decide_False by lia.
    unfold process. rewrite opened_set_chan, Hclosed. simpl.
    apply IH; [by rewrite opened_set_chan | by rewrite s_index_set_chan].
Qed.

(** A command that JSON does not encode is returned the error of the
    encoder; nothing is published and the server is as it was. *)
Lemma broadcast_refuses_unencodable typ c s e :
  marshal_fault c = Some e →
  broadcast typ c s = Returns (0%N, Some e, s)
  ∧ command typ c s = Returns (Some e, s).
Proof. intros He. unfold command, broadcast. by rewrite He. Qed.

(** X2. [Close] clears the path before it calls [setClient(nil)], and
    [setClient] refuses to work on a server without path: the client stays
    in place and its processor keeps receiving.  A command that JSON
    encodes and that is issued after [Close] is published under the next
    index of the broker and put on the channel, the processor drops it,
    and the wait for its index never ends. *)
Theorem command_after_Close_blocks (typ : MessageType) (c : Payload)
    (s : Server) (cl : MessagingClient)
    (Hopen : s_path s ≠ "")
    (Hclient : s_client s = Some cl)
    (Hmarshal : marshal_fault c = None)
    (Haccepted : publish_fault (mkMessage typ BroadcastTopicID 0%N c) cl = None)
    (Hindex : (s_index s ≤ c_index cl)%N) :
  let index := (c_index cl + 1)%N in
  let m := mkMessage typ BroadcastTopicID index c in
  let cl' := mkClient index (c_chan cl ++ [m]) (c_published cl ++ [m])
                      (c_subscriptions cl) in
  ∃ s', Close s = (None, s')
        ∧ s_path s' = ""
        ∧ s_client s' = Some cl
        ∧ Publish (mkMessage typ BroadcastTopicID 0%N c) cl = (inr index, cl')
        ∧ Sync index (set_client (Some cl') s') = Blocks
        ∧ command typ c s' = Blocks.
Proof.
  intros index m cl'.
  exists (set_path "" s).
  assert (opened s = true) as Hopened by by apply bool_decide_eq_true_2.
  assert (opened (set_path "" s) = false) as Hclosed
    by (apply bool_decide_eq_false_2; by intros Hne; apply Hne).
  assert (Publish (mkMessage typ BroadcastTopicID 0%N c) cl = (inr index, cl'))
    as Hpublish.
  { unfold Publish. rewrite Haccepted. unfold delivered. cbn [m_TopicID].
    by rewrite bool_decide_eq_true_2 by by left. }
  assert (Sync index (set_client (Some cl') (set_path "" s)) = Blocks)
    as Hsync.
  { unfold Sync. rewrite Sync_wait_closed; [done|done|].
    simpl. unfold index. lia. }
  split_and!; try done.
  - unfold Close. rewrite Hopened. cbv zeta. cbn [negb].
    unfold setClient. by rewrite Hclosed.
  - unfold command, broadcast. rewrite Hmarshal. simpl. rewrite Hclient.
    rewrite Hpublish. by rewrite Hsync.
Qed.


(** X4. No apply handler publishes, receives, or touches the bookkeeping of the
    processor: whatever the message, the server that a handler returns has
    the high-water mark, the error map and the path it was given, and its
    client has the same log index, the same messages on its channel and the
    same messages published. *)
Theorem handlers_leave_the_log_alone (m : Message) (s s' : Server)
    (err : option error)
    (Hrun : dispatch m s = Returns (err, s')) :
  s_index s' = s_index s
  ∧ s_errors s' = s_errors s
  ∧ s_path s' = s_path s
  ∧ published s' = published s
  ∧ channel s' = channel s
  ∧ (c_index <$> s_client s') = (c_index <$> s_client s).
Proof.
  apply dispatch_log in Hrun as [Hi He Hp Hc].
  split_and!; try done.
  - by apply published_client_log.
  - unfold channel. unfold client_log in Hc.
    destruct (s_client s') as [c'|], (s_client s) as [c0|]; simpl in *;
      by inversion Hc.
  - unfold client_log in Hc.
    destruct (s_client s') as [c'|], (s_client s) as [c0|]; simpl in *;
      inversion Hc; by f_equal.
Qed.

(** ** Data nodes *)

Lemma elem_of_dataNodeList s n :
  n ∈ dataNodeList s ↔ ∃ k, s_dataNodes s !! k = Some n.
Proof.
  unfold dataNodeList. rewrite list_elem_of_fmap. split.
  - intros ([k n'] & -> & Hin). exists k. by apply elem_of_map_to_list.
  - intros [k Hk]. exists (k, n). split; [done|]. by apply elem_of_map_to_list.
Qed.

Lemma dataNode_url_Exists s (u : URL) :
  Exists (λ n, url_String (dn_URL n) = url_String u) (dataNodeList s)
  ↔ ∃ k n, s_dataNodes s !! k = Some n
           ∧ url_String (dn_URL n) = url_String u.
Proof.
  rewrite Exists_exists. split.
  - intros (n & Hin & Hurl). apply elem_of_dataNodeList in Hin as [k Hk]. eauto.
  - intros (k & n & Hk & Hurl). exists n. split; [|done].
    apply elem_of_dataNodeList. eauto.
Qed.

Lemma dataNodes_unique_spec s :
  dataNodes_unique s
  ↔ ∀ i j ni nj,
      s_dataNodes s !! i = Some ni → s_dataNodes s !! j = Some nj →
      url_String (dn_URL ni) = url_String (dn_URL nj) → i = j.
Proof.
  unfold dataNodes_unique, map_Forall. split.
  - intros H i j ni nj Hi Hj. by eapply H.
  - intros H i ni Hi j nj Hj. by eapply H.
Qed.

(** X5. The handlers of the data-node commands keep the data nodes stored under
    their identifiers and keep their URLs pairwise distinct, whatever the
    metastore answers and whatever identifier it hands out. *)
Theorem dataNode_handlers_keep_invariants
    (handler : Message → Server → applied) (m : Message) (s s' : Server)
    (err : option error)
    (Hhandler : handler = applyCreateDataNode ∨ handler = applyDeleteDataNode)
    (Hkeyed : dataNodes_keyed s)
    (Hunique : dataNodes_unique s)
    (Hrun : handler m s = Returns (err, s')) :
  dataNodes_keyed s' ∧ dataNodes_unique s'.
Proof.
  rewrite dataNodes_unique_spec in Hunique |- *.
  destruct Hhandler as [-> | ->].
  - destruct (m_Data m) as [c| | | | | | | | | | | | | |] eqn:Hm;
      try (unfold applyCreateDataNode in Hrun; by rewrite Hm in Hrun).
    destruct (decide (cdn_URL c = "")) as [Hempty|Hurl].
    { unfold applyCreateDataNode in Hrun.
      rewrite Hm, decide_True in Hrun by done. by inversion Hrun; subst. }
    destruct (hasURL (url_Parse (cdn_URL c)) (dataNodeList s))
      as [[|]|p|] eqn:Hloop;
      try (unfold applyCreateDataNode in Hrun;
           rewrite Hm, decide_False, Hloop in Hrun by done;
           by inversion Hrun; subst).
    destruct (applyCreateDataNode_inserts m c s Hm Hurl Hloop) as [store Hins].
    rewrite Hins in Hrun. inversion Hrun; subst; clear Hrun Hins.
    apply hasURL_Returns in Hloop as Hnew. symmetry in Hnew.
    apply bool_decide_eq_false_1 in Hnew.
    rewrite dataNode_url_Exists in Hnew. simpl. split.
    + intros k n Hk. simpl in Hk.
      apply lookup_insert_Some in Hk as [[<- <-]|[_ Hk]]; [done|].
      by apply Hkeyed.
    + intros i j ni nj Hi Hj Hsame. simpl in Hi, Hj.
      apply lookup_insert_Some in Hi as [[<- <-]|[Hine Hi]];
        apply lookup_insert_Some in Hj as [[<- <-]|[Hjne Hj]].
      * done.
      * exfalso. apply Hnew. exists j, nj. split; [done|]. by rewrite <-Hsame.
      * exfalso. apply Hnew. exists i, ni. split; [done|]. by rewrite Hsame.
      * by eapply Hunique.
  - unfold applyDeleteDataNode, mustUpdate in Hrun.
    destruct (m_Data m) as [|c| | | | | | | | | | | | |]; try done.
    destruct (s_dataNodes s !! ddn_ID c) as [n|] eqn:Hn;
      [|by inversion Hrun; subst].
    simpl in Hrun.
    assert (s_dataNodes s' = delete (dn_ID n) (s_dataNodes s)) as Hmap.
    { destruct (deleteDataNode (ddn_ID c) (s_meta s)) as [[e|] tx'];
        simpl in Hrun; by inversion Hrun; subst. }
    split.
    + intros k n' Hk. rewrite Hmap in Hk.
      apply lookup_delete_Some in Hk as [_ Hk]. by apply Hkeyed.
    + intros i j ni nj Hi Hj Hsame. rewrite Hmap in Hi, Hj.
      apply lookup_delete_Some in Hi as [_ Hi].
      apply lookup_delete_Some in Hj as [_ Hj].
      by eapply Hunique.
Qed.

(** X6. A data node is unique by URL: once [applyCreateDataNode] has gone
    past its checks for a URL that parses, a second [createDataNode] for
    the same URL is refused with [ErrDataNodeExists] and changes nothing.
    ([url.Parse] leaves a nil URL when it fails; the handler stores it when
    there is no other node, and panics on it otherwise.) *)
Theorem createDataNode_twice (m1 m2 : Message) (c : createDataNodeCommand)
    (s s1 : Server) (err : option error)
    (Hm1 : m_Data m1 = DataCreateDataNode c)
    (Hm2 : m_Data m2 = DataCreateDataNode c)
    (Hurl : cdn_URL c ≠ "")
    (Hparses : url_nil (url_Parse (cdn_URL c)) = false)
    (Hnew : ¬ Exists (λ n, url_String (dn_URL n)
                           = url_String (url_Parse (cdn_URL c)))
                     (dataNodeList s))
    (Hfirst : applyCreateDataNode m1 s = Returns (err, s1)) :
  (∃ k n, s_dataNodes s1 !! k = Some n ∧ dn_ID n = k
          ∧ dn_URL n = url_Parse (cdn_URL c))
  ∧ s_dataNodes s1
    = <[(nextDataNodeID (s_meta s)).1 :=
          mkDataNode (nextDataNodeID (s_meta s)).1 (url_Parse (cdn_URL c))]>
        (s_dataNodes s)
  ∧ applyCreateDataNode m2 s1 = Returns (Some ErrDataNodeExists, s1).
Proof.
  assert (hasURL (url_Parse (cdn_URL c)) (dataNodeList s) = Returns false)
    as Hloop.
  { destruct (hasURL (url_Parse (cdn_URL c)) (dataNodeList s))
      as [found|p|] eqn:Hloop;
      try (unfold applyCreateDataNode in Hfirst;
           rewrite Hm1, decide_False, Hloop in Hfirst by done; done).
    apply hasURL_Returns in Hloop as ->.
    by rewrite bool_decide_eq_false_2. }
  destruct (applyCreateDataNode_inserts m1 c s Hm1 Hurl Hloop)
    as [store Hrun].
  rewrite Hrun in Hfirst. inversion Hfirst; subst; clear Hfirst.
  cbn [dn_ID s_dataNodes set_dataNodes set_meta].
  set (id := (nextDataNodeID (s_meta s)).1).
  set (n := mkDataNode id (url_Parse (cdn_URL c))).
  set (s1 := set_dataNodes _ _).
  assert (s_dataNodes s1 !! id = Some n) as Hthere by apply lookup_insert_eq.
  split; [by exists id, n|]. split; [done|].
  assert (Forall (λ n0, url_nil (dn_URL n0) = false) (dataNodeList s1))
    as Hnodes.
  { apply hasURL_false in Hloop as [Hold _].
    apply Forall_forall. intros n0 [k Hk]%elem_of_dataNodeList.
    unfold s1 in Hk. simpl in Hk.
    apply lookup_insert_Some in Hk as [[_ <-]|[_ Hk]]; [done|].
    rewrite Forall_forall in Hold. apply Hold.
    apply elem_of_dataNodeList. eauto. }
  unfold applyCreateDataNode. rewrite Hm2.
  rewrite decide_False by done.
  rewrite hasURL_total by done.
  rewrite bool_decide_eq_true_2; [done|].
  apply dataNode_url_Exists. by exists id, n.
Qed.

#[local] Existing Instance dataNodes_Less_total.

#[local] Instance dataNodes_Less_transitive : Transitive dataNodes_Less.
Proof. intros a b c. unfold dataNodes_Less. lia. Qed.

(** X7. [DataNodes] lists every data node of the server once, in ascending
    order of identifier; when the nodes are stored under their identifiers
    the order is strict. *)
Theorem DataNodes_sorted_and_complete (s : Server) :
  DataNodes s ≡ₚ (map_to_list (s_dataNodes s)).*2
  ∧ Sorted (λ a b, (dn_ID a ≤ dn_ID b)%N) (DataNodes s)
  ∧ (∀ n, n ∈ DataNodes s ↔ ∃ k, s_dataNodes s !! k = Some n)
  ∧ (dataNodes_keyed s →
     StronglySorted (λ a b, (dn_ID a < dn_ID b)%N) (DataNodes s)).
Proof.
  assert (DataNodes s ≡ₚ dataNodeList s) as Hperm
    by apply merge_sort_Permutation.
  assert (StronglySorted dataNodes_Less (DataNodes s)) as Hsorted.
  { apply (StronglySorted_merge_sort dataNodes_Less). }
  split_and!.
  - done.
  - by apply StronglySorted_Sorted.
  - intros n. rewrite Hperm. apply elem_of_dataNodeList.
  - intros Hkeyed.
    assert (NoDup (dn_ID <$> DataNodes s)) as Hnodup.
    { rewrite Hperm. unfold dataNodeList.
      assert (dn_ID <$> (map_to_list (s_dataNodes s)).*2
              = (map_to_list (s_dataNodes s)).*1) as ->.
      { rewrite <-list_fmap_compose. apply list_fmap_ext.
        intros i [k n] Hin. simpl.
        apply list_elem_of_lookup_2, elem_of_map_to_list in Hin.
        by apply Hkeyed. }
      apply NoDup_fst_map_to_list. }
    clear Hperm. revert Hsorted Hnodup. generalize (DataNodes s) as l.
    intros l Hsorted. induction Hsorted as [|a l Hl IH Hall];
      intros Hnodup; [constructor|].
    simpl in Hnodup. apply NoDup_cons in Hnodup as [Hnotin Hnodup].
    constructor; [by apply IH|].
    apply Forall_forall. intros b Hb.
    rewrite Forall_forall in Hall. specialize (Hall b Hb).
    unfold dataNodes_Less in Hall.
    assert (dn_ID a ≠ dn_ID b); [|lia].
    intros Heq. apply Hnotin. rewrite Heq. by apply list_elem_of_fmap_2.
Qed.

(** ** Databases, retention policies and users *)

Lemma policies_keyed_spec s :
  policies_keyed s
  ↔ ∀ d db k p,
      s_databases s !! d = Some db → db_policies db !! k = Some p →
      rp_Name p = k.
Proof.
  unfold policies_keyed, map_Forall. split.
  - intros H d db k p Hd Hk. by eapply H.
  - intros H d db Hd k p Hk. by eapply H.
Qed.

Lemma policies_keyed_insert s d db' x :
  policies_keyed s →
  (∀ k p, db_policies db' !! k = Some p → rp_Name p = k) →
  policies_keyed (set_databases (<[d := db']> (s_databases s)) (set_meta x s)).
Proof.
  rewrite !policies_keyed_spec.
  intros Hkeyed Hdb' d0 db0 k p Hd Hk. simpl in Hd.
  apply lookup_insert_Some in Hd as [[<- <-]|[_ Hd]]; [by apply Hdb'|].
  by eapply Hkeyed.
Qed.

(** X8. The handlers that create, rename and delete retention policies, set
    the default policy, create and delete databases and create shard groups
    keep every retention policy stored under its name. *)
Theorem policy_handlers_keep_names
    (handler : Message → Server → applied) (m : Message) (s s' : Server)
    (err : option error)
    (Hhandler : handler ∈ [applyCreateDatabase; applyDeleteDatabase;
                            applyCreateRetentionPolicy;
                            applyUpdateRetentionPolicy;
                            applyDeleteRetentionPolicy;
                            applySetDefaultRetentionPolicy;
                            applyCreateShardGroupIfNotExists])
    (Hkeyed : policies_keyed s)
    (Hrun : handler m s = Returns (err, s')) :
  policies_keyed s'.
Proof.
  pose proof (proj1 (policies_keyed_spec s) Hkeyed) as Hspec.
  repeat (apply elem_of_cons in Hhandler as [->|Hhandler]);
    [| | | | | | |by apply elem_of_nil in Hhandler].
  - (* applyCreateDatabase *)
    unfold applyCreateDatabase, mustUpdate in Hrun.
    destruct (m_Data m); try done.
    destruct (s_databases s !! cdb_Name c); [by inversion Hrun; subst|].
    simpl in Hrun. destruct (saveDatabase _ _) as [[e|] tx]; simpl in Hrun;
      inversion Hrun; subst; apply policies_keyed_insert; try done;
      intros k p Hk; by rewrite lookup_empty in Hk.
  - (* applyDeleteDatabase *)
    unfold applyDeleteDatabase, mustUpdate in Hrun.
    destruct (m_Data m); try done.
    destruct (s_databases s !! ddb_Name c); [|by inversion Hrun; subst].
    simpl in Hrun. destruct (deleteDatabase _ _) as [[e|] tx]; simpl in Hrun;
      inversion Hrun; subst; apply policies_keyed_spec;
      intros d0 db0 k p Hd Hk; simpl in Hd;
      apply lookup_delete_Some in Hd as [_ Hd]; by eapply Hspec.
  - (* applyCreateRetentionPolicy *)
    unfold applyCreateRetentionPolicy, mustUpdate in Hrun.
    destruct (m_Data m); try done.
    destruct (s_databases s !! crp_Database c) as [db|] eqn:Hdb;
      [|by inversion Hrun; subst].
    destruct (decide (crp_Name c = "")); [by inversion Hrun; subst|].
    case_bool_decide; [by inversion Hrun; subst|].
    simpl in Hrun. destruct (saveDatabase _ _) as [[e|] tx]; simpl in Hrun;
      inversion Hrun; subst; apply policies_keyed_insert; try done;
      intros k p Hk; simpl in Hk;
      (apply lookup_insert_Some in Hk as [[<- <-]|[_ Hk]];
       [done | by eapply Hspec]).
  - (* applyUpdateRetentionPolicy *)
    unfold applyUpdateRetentionPolicy, mustUpdate in Hrun.
    destruct (m_Data m); try done.
    destruct (s_databases s !! urp_Database c) as [db|] eqn:Hdb;
      [|by inversion Hrun; subst].
    destruct (decide (urp_Name c = "")); [by inversion Hrun; subst|].
    destruct (db_policies db !! urp_Name c) as [p0|] eqn:Hp0;
      [|by inversion Hrun; subst].
    simpl in Hrun.
    destruct (decide (urp_NewName c ≠ urp_Name c ∧ urp_NewName c ≠ ""));
      destruct (saveDatabase _ _) as [[e|] tx]; simpl in Hrun;
      inversion Hrun; subst; apply policies_keyed_insert; try done;
      intros k p Hk; simpl in Hk; try (by eapply Hspec);
      unfold renamePolicy in Hk;
      (apply lookup_insert_Some in Hk as [[<- <-]|[_ Hk]]; [done|]);
      apply lookup_delete_Some in Hk as [_ Hk]; by eapply Hspec.
  - (* applyDeleteRetentionPolicy *)
    unfold applyDeleteRetentionPolicy, mustUpdate in Hrun.
    destruct (m_Data m); try done.
    destruct (s_databases s !! drp_Database c) as [db|] eqn:Hdb;
      [|by inversion Hrun; subst].
    destruct (decide (drp_Name c = "")); [by inversion Hrun; subst|].
    destruct (db_policies db !! drp_Name c) as [p0|] eqn:Hp0;
      [|by inversion Hrun; subst].
    simpl in Hrun. destruct (saveDatabase _ _) as [[e|] tx]; simpl in Hrun;
      inversion Hrun; subst; apply policies_keyed_insert; try done;
      intros k p Hk; simpl in Hk;
      apply lookup_delete_Some in Hk as [_ Hk]; by eapply Hspec.
  - (* applySetDefaultRetentionPolicy *)
    unfold applySetDefaultRetentionPolicy, mustUpdate in Hrun.
    destruct (m_Data m); try done.
    destruct (s_databases s !! sdrp_Database c) as [db|] eqn:Hdb;
      [|by inversion Hrun; subst].
    destruct (db_policies db !! sdrp_Name c) as [p0|] eqn:Hp0;
      [|by inversion Hrun; subst].
    simpl in Hrun. destruct (saveDatabase _ _) as [[e|] tx]; simpl in Hrun;
      inversion Hrun; subst; apply policies_keyed_insert; try done;
      intros k p Hk; simpl in Hk; by eapply Hspec.
  - (* applyCreateShardGroupIfNotExists *)
    unfold applyCreateShardGroupIfNotExists in Hrun.
    destruct (m_Data m); try done.
    destruct (s_databases s !! csg_Database c) as [db|] eqn:Hdb;
      [|by inversion Hrun; subst].
    destruct (db_policies db !! csg_Policy c) as [rp|] eqn:Hrp;
      [|by inversion Hrun; subst].
    destruct (rp_shardGroupByTimestamp rp (csg_Timestamp c));
      [by inversion Hrun; subst|].
    apply bind_Returns in Hrun as (shardN & _ & Hrun).
    apply bind_Returns in Hrun as ([[[gid shards] e] store] & _ & Hrun).
    destruct e as [e|].
    { by inversion Hrun; subst. }
    apply bind_Returns in Hrun as (opened_shards & _ & Hrun).
    apply bind_Returns in Hrun as (cl & _ & Hrun).
    inversion Hrun; subst; clear Hrun. apply policies_keyed_spec.
    intros d0 db0 k p Hd Hk. simpl in Hd.
    apply lookup_insert_Some in Hd as [[<- <-]|[_ Hd]]; [|by eapply Hspec].
    simpl in Hk. apply lookup_insert_Some in Hk as [[<- <-]|[_ Hk]].
    + simpl. by eapply Hspec.
    + by eapply Hspec.
Qed.

(** X9. [applyUpdateRetentionPolicy] changes names only: every policy of the
    database after the update has the duration, the replication factor, the
    split factor and the shard groups of a policy of the database before
    the update, and the other databases are as they were. *)
Theorem updateRetentionPolicy_changes_names_only (m : Message) (s s' : Server)
    (err : option error)
    (Hrun : applyUpdateRetentionPolicy m s = Returns (err, s')) :
  ∀ d db' k p',
    s_databases s' !! d = Some db' → db_policies db' !! k = Some p' →
    ∃ db k0 p0,
      s_databases s !! d = Some db
      ∧ db_policies db !! k0 = Some p0
      ∧ rp_Duration p' = rp_Duration p0
      ∧ rp_ReplicaN p' = rp_ReplicaN p0
      ∧ rp_SplitN p' = rp_SplitN p0
      ∧ rp_shardGroups p' = rp_shardGroups p0.
Proof.
  unfold applyUpdateRetentionPolicy, mustUpdate in Hrun.
  assert (∀ d db' k p', s_databases s !! d = Some db' →
            db_policies db' !! k = Some p' →
            ∃ db k0 p0, s_databases s !! d = Some db
              ∧ db_policies db !! k0 = Some p0
              ∧ rp_Duration p' = rp_Duration p0
              ∧ rp_ReplicaN p' = rp_ReplicaN p0
              ∧ rp_SplitN p' = rp_SplitN p0
              ∧ rp_shardGroups p' = rp_shardGroups p0) as Hsame.
  { intros d db' k p' Hd Hk. by exists db', k, p'. }
  destruct (m_Data m); try done.
  destruct (s_databases s !! urp_Database c) as [db|] eqn:Hdb;
    [|by inversion Hrun; subst].
  destruct (decide (urp_Name c = "")); [by inversion Hrun; subst|].
  destruct (db_policies db !! urp_Name c) as [p0|] eqn:Hp0;
    [|by inversion Hrun; subst].
  simpl in Hrun.
  assert (∃ db1, s_databases s' = <[urp_Database c := db1]> (s_databases s)
                 ∧ (db1 = db
                    ∨ db_policies db1
                      = renamePolicy p0 (urp_NewName c) (db_policies db)))
    as (db1 & Hmap & Hdb1).
  { destruct (decide (urp_NewName c ≠ urp_Name c ∧ urp_NewName c ≠ ""));
      destruct (saveDatabase _ _) as [[e|] tx]; simpl in Hrun;
      inversion Hrun; subst; eexists; (split; [done|]); auto. }
  clear Hrun. intros d db' k p' Hd Hk. rewrite Hmap in Hd.
  apply lookup_insert_Some in Hd as [[<- <-]|[_ Hd]]; [|by eapply Hsame].
  destruct Hdb1 as [-> | Hpolicies]; [by exists db, k, p'|].
  rewrite Hpolicies in Hk. unfold renamePolicy in Hk.
  apply lookup_insert_Some in Hk as [[<- <-]|[_ Hk]].
  - by exists db, (urp_Name c), p0.
  - apply lookup_delete_Some in Hk as [_ Hk]. by exists db, k, p'.
Qed.

(** X10. Deleting a retention policy does not look at the default of the
    database: when the default policy is deleted the database keeps its
    name as default, and [DefaultRetentionPolicy] finds no policy. *)
Theorem deleteRetentionPolicy_leaves_default_dangling (m : Message)
    (c : deleteRetentionPolicyCommand) (s : Server) (db : database)
    (p : RetentionPolicy)
    (Hm : m_Data m = DataDeleteRetentionPolicy c)
    (Hdb : s_databases s !! drp_Database c = Some db)
    (Hp : db_policies db !! drp_Name c = Some p)
    (Hname : drp_Name c ≠ "")
    (Hdefault : db_defaultRetentionPolicy db = drp_Name c) :
  ∃ err s' db',
    applyDeleteRetentionPolicy m s = Returns (err, s')
    ∧ s_databases s' !! drp_Database c = Some db'
    ∧ db_defaultRetentionPolicy db' = drp_Name c
    ∧ db_policies db' !! drp_Name c = None
    ∧ DefaultRetentionPolicy s' (drp_Database c) = (None, None).
Proof.
  unfold applyDeleteRetentionPolicy, mustUpdate. rewrite Hm, Hdb.
  rewrite decide_False by done. rewrite Hp. simpl.
  set (db' := set_policies (delete (drp_Name c) (db_policies db)) db).
  assert (db_policies db' !! drp_Name c = None) as Hgone
    by apply lookup_delete_eq.
  assert (db_defaultRetentionPolicy db' = drp_Name c) as Hdefault'
    by done.
  exists (saveDatabase db' (s_meta s)).1.
  destruct (saveDatabase db' (s_meta s)) as [[e|] tx]; simpl;
    eexists _, db'; (split; [done|]); unfold DefaultRetentionPolicy;
    cbn [s_databases set_databases set_meta];
    rewrite lookup_insert_eq; split_and!; try done;
    by rewrite Hdefault', Hgone.
Qed.

(** X11. [applyCreateRetentionPolicy] drops the answer of the metastore:
    whatever the metastore answers, the handler returns nil with the policy
    of the command added to the database. *)
Theorem createRetentionPolicy_drops_metastore_error (m : Message)
    (c : createRetentionPolicyCommand) (s : Server) (db : database)
    (Hm : m_Data m = DataCreateRetentionPolicy c)
    (Hdb : s_databases s !! crp_Database c = Some db)
    (Hname : crp_Name c ≠ "")
    (Hfree : db_policies db !! crp_Name c = None) :
  ∃ s' db',
    applyCreateRetentionPolicy m s = Returns (None, s')
    ∧ s_databases s' !! crp_Database c = Some db'
    ∧ db_policies db' !! crp_Name c
      = Some (mkRetentionPolicy (crp_Name c) (crp_Duration c)
                                (crp_ReplicaN c) 0%N [])
    ∧ (∀ e tx, saveDatabase db' (s_meta s) = (Some e, tx) →
         s_meta s' = s_meta s).
Proof.
  unfold applyCreateRetentionPolicy, mustUpdate. rewrite Hm, Hdb.
  rewrite decide_False by done.
  rewrite bool_decide_eq_false_2 by (rewrite Hfree; by intros [? ?]).
  simpl.
  set (db' := set_policies _ db).
  exists (set_databases (<[crp_Database c := db']> (s_databases s))
            (set_meta (match saveDatabase db' (s_meta s) with
                       | (Some _, _) => s_meta s
                       | (None, tx) => tx
                       end) s)), db'.
  destruct (saveDatabase db' (s_meta s)) as [[e|] tx]; simpl;
    (split_and!; [done | apply lookup_insert_eq | apply lookup_insert_eq |]);
    by intros e' tx' [=].
Qed.

(** X12. [applyDeleteUser] drops the answer of the metastore: whatever the
    metastore answers, the handler returns nil with the user removed, and
    the user is not authenticated any more. *)
Theorem deleteUser_drops_metastore_error (m : Message) (c : deleteUserCommand)
    (s : Server) (u : User)
    (Hm : m_Data m = DataDeleteUser c)
    (Hname : du_Username c ≠ "")
    (Hu : s_users s !! du_Username c = Some u) :
  ∃ s',
    applyDeleteUser m s = Returns (None, s')
    ∧ s_users s' = delete (du_Username c) (s_users s)
    ∧ (∀ password,
         Authenticate s' (du_Username c) password
         = (None, Some (Errorf "user not found")))
    ∧ (∀ e tx, deleteUser (du_Username c) (s_meta s) = (Some e, tx) →
         s_meta s' = s_meta s).
Proof.
  unfold applyDeleteUser, mustUpdate. rewrite Hm.
  rewrite decide_False by done. rewrite Hu. simpl.
  exists (set_users (delete (du_Username c) (s_users s))
            (set_meta (match deleteUser (du_Username c) (s_meta s) with
                       | (Some _, _) => s_meta s
                       | (None, tx) => tx
                       end) s)).
  destruct (deleteUser _ _) as [[e|] tx]; simpl;
    (split_and!; [done | done | |]);
    try (by intros e' tx' [=]);
    intros password; unfold Authenticate; simpl;
    by rewrite lookup_delete_eq.
Qed.

(** X13. Creating a database and deleting it again gives back the database map:
    for a name that is not taken, [applyCreateDatabase] followed by
    [applyDeleteDatabase] leaves the databases as they were, and in between
    the database is there, empty, under its name. *)
Theorem createDatabase_deleteDatabase (m1 m2 : Message) (name : string)
    (s : Server)
    (Hm1 : m_Data m1 = DataCreateDatabase {| cdb_Name := name |})
    (Hm2 : m_Data m2 = DataDeleteDatabase {| ddb_Name := name |})
    (Hfree : s_databases s !! name = None) :
  ∃ err1 s1 err2 s2,
    applyCreateDatabase m1 s = Returns (err1, s1)
    ∧ s_databases s1 !! name = Some (mkDatabase name ∅ "" ∅ [])
    ∧ applyDeleteDatabase m2 s1 = Returns (err2, s2)
    ∧ s_databases s2 = s_databases s.
Proof.
  destruct (applyCreateDatabase_inserts m1 {| cdb_Name := name |} s Hm1 Hfree)
    as [store Hrun1]. simpl in Hrun1.
  set (db := mkDatabase name ∅ "" ∅ []) in *.
  set (s1 := set_databases (<[name := db]> (s_databases s)) (set_meta store s))
    in *.
  assert (∃ err2 s2, applyDeleteDatabase m2 s1 = Returns (err2, s2)
                     ∧ s_databases s2 = s_databases s) as (err2 & s2 & ? & ?).
  { unfold applyDeleteDatabase, mustUpdate. rewrite Hm2. simpl.
    rewrite lookup_insert_eq. simpl.
    rewrite delete_insert_eq, delete_id by done.
    destruct (deleteDatabase name store) as [[e|] tx]; simpl;
      eexists _, _; by split. }
  exists (saveDatabase db (s_meta s)).1, s1, err2, s2.
  split_and!; try done. apply lookup_insert_eq.
Qed.

(** ** Waiting, queries, users, names and writes *)

Lemma Sync_wait_returns pending index s err s' :
  Sync_wait pending index s = Returns (err, s') →
  ∃ s0, Sync_poll index s0 = Some (err, s').
Proof.
  revert s. induction pending as [|m rest IH]; intros s; simpl.
  - destruct (Sync_poll index s) as [r|] eqn:Hpoll; [|done].
    intros [= ->]. eauto.
  - destruct (Sync_poll index s) as [r|] eqn:Hpoll.
    + intros [= ->]. eauto.
    + intros (s1 & _ & Hrest)%bind_Returns. by eapply IH.
Qed.

(** X18. An error is handed out once.  [Sync] deletes the error it returns from
    the error map, so that a second [Sync] on the same index returns nil,
    at once and whatever is waiting on the channel. *)
Theorem Sync_reports_error_once (index : N) (s s' : Server) (e : error)
    (Hrun : Sync index s = Returns (Some e, s')) :
  s_errors s' !! index = None
  ∧ Sync index s' = Returns (None, s').
Proof.
  apply Sync_wait_returns in Hrun as [s0 Hpoll].
  unfold Sync_poll in Hpoll. case_decide as Hle; [|done].
  destruct (s_errors s0 !! index) as [e0|] eqn:He0; [|done].
  inversion Hpoll; subst. clear Hpoll.
  assert (Sync_poll index (set_errors (delete index (s_errors s0)) s0)
          = Some (None, set_errors (delete index (s_errors s0)) s0)) as Hpoll.
  { unfold Sync_poll. simpl. rewrite decide_True by done.
    by rewrite lookup_delete_eq. }
  split; [apply lookup_delete_eq|].
  unfold Sync. destruct (channel _); simpl; by rewrite Hpoll.
Qed.

Lemma executeStatements_skipped stmts database user s results s' i stmt :
  executeStatements stmts database user s = Returns (results, s') →
  stmts !! i = Some stmt → skipped stmt = true →
  results !! i = Some None.
Proof.
  revert s results i. induction stmts as [|st rest IH];
    intros s results i Hrun Hi Hskip; [done|].
  cbn [executeStatements] in Hrun.
  apply bind_Returns in Hrun as ([res s1] & Hst & Hrun).
  destruct i as [|i]; simpl in Hi.
  - inversion Hi; subst st.
    assert (res = None) as ->.
    { destruct stmt; try done; simpl in Hst; by inversion Hst. }
    apply bind_Returns in Hrun as ([results1 s2] & _ & Hrun).
    by inversion Hrun.
  - destruct res as [res|].
    + destruct (bool_decide (is_Some (res_Err res))).
      * inversion Hrun; subst. simpl. apply lookup_replicate.
        split; [done|]. by eapply lookup_lt_Some.
      * apply bind_Returns in Hrun as ([results1 s2] & Hrest & Hrun).
        inversion Hrun; subst. simpl. by eapply IH.
    + apply bind_Returns in Hrun as ([results1 s2] & Hrest & Hrun).
      inversion Hrun; subst. simpl. by eapply IH.
Qed.

Lemma Results_Error_elem_of (a : list Result) (r : Result) :
  r ∈ a → is_Some (res_Err r) → is_Some (Results_Error a).
Proof.
  intros Hin Herr. induction a as [|r0 rest IH]; [by apply elem_of_nil in Hin|].
  simpl. destruct (res_Err r0) as [e|] eqn:He; [by eexists|].
  apply elem_of_cons in Hin as [->|Hin]; [|by apply IH].
  rewrite He in Herr. by destruct Herr.
Qed.

(** X19. A statement whose case in [ExecuteQuery] is [continue] is answered with
    [ErrNotExecuted]: whenever the query returns, the result in the slot of
    such a statement is the sentinel, and [Results.Error] reports an error
    for the query, also when every other statement has succeeded. *)
Theorem ExecuteQuery_skipped_statement (q : list Statement) (database : string)
    (user : option User) (s s' : Server) (results : list Result) (i : nat)
    (stmt : Statement)
    (Hstmt : q !! i = Some stmt)
    (Hskipped : skipped stmt = true)
    (Hrun : ExecuteQuery q database user s = Returns (results, s')) :
  results !! i = Some notExecuted
  ∧ is_Some (Results_Error results).
Proof.
  unfold ExecuteQuery in Hrun.
  apply bind_Returns in Hrun as ([results0 s0] & Hrun & Hret).
  inversion Hret; subst. clear Hret.
  eapply executeStatements_skipped in Hrun; [|done..].
  assert (fillEmpty results0 !! i = Some notExecuted) as Hslot.
  { unfold fillEmpty. by rewrite list_lookup_fmap, Hrun. }
  split; [done|].
  eapply Results_Error_elem_of; [by eapply list_elem_of_lookup_2|].
  by eexists.
Qed.

(** X20. A user that [applyCreateUser] has added is authenticated with the
    password of the command, whatever the metastore has answered, provided
    the password verifies against its own hash; the users under other
    names are authenticated as before. *)
Theorem Authenticate_after_createUser (m : Message) (c : createUserCommand)
    (s s' : Server) (hash : string) (err : option error)
    (Hm : m_Data m = DataCreateUser c)
    (Hname : cu_Username c ≠ "")
    (Hfree : s_users s !! cu_Username c = None)
    (Hhash : HashPassword (cu_Password c) = inr hash)
    (Hverifies : CompareHashAndPassword hash (cu_Password c) = None)
    (Hrun : applyCreateUser m s = Returns (err, s')) :
  Authenticate s' (cu_Username c) (cu_Password c)
  = (Some (mkUser (cu_Username c) hash (cu_Admin c)), None)
  ∧ ∀ name password, name ≠ cu_Username c →
      Authenticate s' name password = Authenticate s name password.
Proof.
  unfold applyCreateUser, mustUpdate in Hrun. rewrite Hm in Hrun.
  rewrite decide_False in Hrun by done.
  rewrite bool_decide_eq_false_2 in Hrun
    by (rewrite Hfree; by intros [? ?]).
  rewrite Hhash in Hrun. simpl in Hrun.
  assert (s_users s' = <[cu_Username c := mkUser (cu_Username c) hash (cu_Admin c)]>
                         (s_users s)) as Husers.
  { destruct (saveUser _ _) as [[e|] tx]; simpl in Hrun; by inversion Hrun. }
  unfold Authenticate. rewrite Husers. split.
  - rewrite lookup_insert_eq. unfold User_Authenticate. simpl.
    by rewrite Hverifies.
  - intros name password Hne. by rewrite lookup_insert_ne.
Qed.

(** X21. [applyUpdateUser] with an empty password leaves the hash alone: the
    user is authenticated after the update exactly as before.  With a
    password that cannot be hashed nothing changes either. *)
Theorem updateUser_keeps_hash (m : Message) (c : updateUserCommand)
    (s s' : Server) (err : option error)
    (Hm : m_Data m = DataUpdateUser c)
    (Hkeep : uu_Password c = ""
             ∨ ∃ e, HashPassword (uu_Password c) = inl e)
    (Hrun : applyUpdateUser m s = Returns (err, s')) :
  s_users s' = s_users s
  ∧ ∀ name password,
      Authenticate s' name password = Authenticate s name password.
Proof.
  assert (s_users s' = s_users s) as Husers.
  { unfold applyUpdateUser, mustUpdate in Hrun. rewrite Hm in Hrun.
    destruct (s_users s !! uu_Username c) as [u|] eqn:Hu;
      [|by inversion Hrun].
    destruct Hkeep as [Hempty|[e He]].
    - rewrite decide_True in Hrun by done. simpl in Hrun.
      destruct (saveUser _ _) as [[e|] tx]; simpl in Hrun;
        inversion Hrun; subst; simpl; by apply insert_id.
    - destruct (decide (uu_Password c = "")).
      + simpl in Hrun.
        destruct (saveUser _ _) as [[e'|] tx]; simpl in Hrun;
          inversion Hrun; subst; simpl; by apply insert_id.
      + rewrite He in Hrun. by inversion Hrun. }
  split; [done|]. intros name password. unfold Authenticate.
  by rewrite Husers.
Qed.

(** X22. What [normalizeMeasurement] returns without an error is a quoted
    name of three segments: the database, the retention policy and the
    last segment of the name it was given.  The database is the first of
    three segments of the name when that is not empty and the default
    database otherwise, and it is a database of the server; the policy is
    the segment before the last when there is one and it is not empty, and
    the default policy of the database, which is not the empty name,
    otherwise; and it is a policy of the database.  With an error it
    returns the empty string. *)
Theorem normalizeMeasurement_sound (s : Server) (name defaultDatabase : string)
    (r : string) (err : option error)
    (Hrun : normalizeMeasurement s name defaultDatabase = (r, err)) :
  match err with
  | Some _ => r = ""
  | None =>
    ∃ segments d p n db,
      SplitIdent name = inr segments
      ∧ (1 ≤ length segments ≤ 3)%nat
      ∧ last segments = Some n
      ∧ r = QuoteIdent [d; p; n]
      ∧ s_databases s !! d = Some db
      ∧ is_Some (db_policies db !! p)
      ∧ p ≠ ""
      ∧ d = (match segments with
             | [d0; _; _] => if decide (d0 = "") then defaultDatabase else d0
             | _ => defaultDatabase
             end)
      ∧ p = (match segments with
             | [_; p0; _] | [p0; _] =>
               if decide (p0 = "") then db_defaultRetentionPolicy db else p0
             | _ => db_defaultRetentionPolicy db
             end)
  end.
Proof.
  unfold normalizeMeasurement in Hrun.
  destruct (SplitIdent name) as [e|segments] eqn:Hsplit;
    [by inversion Hrun; subst|].
  destruct segments as [|a [|b [|c [|x y]]]]; cbv zeta iota beta in Hrun;
    try (by inversion Hrun; subst).
  all: repeat match type of Hrun with
       | context [decide ?P] => destruct (decide P)
       | context [s_databases ?s0 !! ?d] =>
         let Hdb := fresh "Hdb" in
         destruct (s_databases s0 !! d) as [db|] eqn:Hdb
       | context [db_policies ?db !! ?p] =>
         let Hrp := fresh "Hrp" in
         destruct (db_policies db !! p) as [rp|] eqn:Hrp
       end;
    inversion Hrun; subst; clear Hrun; try done.
  all: eexists _, _, _, _, db; split_and!; try done; simpl; try lia;
    try (by eexists); try (by rewrite decide_True by done);
    try (by rewrite decide_False by done).
Qed.

(** ** Writes *)

Lemma insert_existing_shard (shards : gmap N Shard) (k : N) (sh sh' : Shard) :
  shards !! k = Some sh →
  (∀ id, id ≠ k → <[k := sh']> shards !! id = shards !! id)
  ∧ (∀ id, is_Some (<[k := sh']> shards !! id) ↔ is_Some (shards !! id)).
Proof.
  intros Hsh. split.
  - intros id Hid. by rewrite lookup_insert_ne.
  - intros id. destruct (decide (id = k)) as [->|Hid].
    + rewrite lookup_insert_eq, Hsh. split; by eexists.
    + by rewrite lookup_insert_ne.
Qed.

(** X17. The two write handlers touch the shard of the topic of the message and
    no other: the shards under other identifiers are as they were, no shard
    appears or disappears, and the data nodes, the users and the retention
    policies of every database are as they were. *)
Theorem write_handlers_touch_one_shard
    (handler : Message → Server → applied) (m : Message) (s s' : Server)
    (err : option error)
    (Hhandler : handler = applyWriteSeries ∨ handler = applyWriteRawSeries)
    (Hrun : handler m s = Returns (err, s')) :
  (∀ id, id ≠ m_TopicID m → s_shards s' !! id = s_shards s !! id)
  ∧ (∀ id, is_Some (s_shards s' !! id) ↔ is_Some (s_shards s !! id))
  ∧ s_dataNodes s' = s_dataNodes s
  ∧ s_users s' = s_users s
  ∧ (∀ d, db_policies <$> s_databases s' !! d
          = db_policies <$> s_databases s !! d).
Proof.
  destruct Hhandler as [-> | ->].
  - unfold applyWriteSeries, mustUpdate in Hrun.
    destruct (m_Data m); try done.
    destruct (s_shards s !! m_TopicID m) as [sh|] eqn:Hsh;
      [|by inversion Hrun; subst].
    destruct (s_databases s !! ws_Database c) as [db|] eqn:Hdb;
      [|by inversion Hrun; subst].
    destruct (db_measurements db !! ws_Measurement c) as [mm|] eqn:Hmm;
      [|by inversion Hrun; subst].
    destruct (createFields (ws_Values c) mm ∅) as [[ferr mm'] rawValues].
    assert (∀ d, db_policies
                 <$> <[ws_Database c :=
                        set_measurements
                          (<[ws_Measurement c := mm']> (db_measurements db)) db]>
                       (s_databases s) !! d
                 = db_policies <$> s_databases s !! d) as Hpolicies.
    { intros d. destruct (decide (d = ws_Database c)) as [->|Hd].
      - by rewrite lookup_insert_eq, Hdb.
      - by rewrite lookup_insert_ne. }
    destruct ferr as [e|]; [by inversion Hrun; subst|].
    simpl in Hrun. destruct (saveDatabase _ _) as [[e|] tx]; simpl in Hrun;
      [by inversion Hrun; subst|].
    destruct (shard_writeSeries _ _ _ _ sh) as [werr sh'].
    inversion Hrun; subst; clear Hrun. simpl.
    destruct (insert_existing_shard _ _ sh sh' Hsh) as [? ?]. by split_and!.
  - unfold applyWriteRawSeries in Hrun.
    destruct (s_shards s !! m_TopicID m) as [sh|] eqn:Hsh;
      [|by inversion Hrun; subst].
    case_decide; [done|].
    destruct (unmarshalPointHeader _) as [seriesID timestamp].
    destruct (shard_writeSeries _ _ _ _ sh) as [werr sh'].
    inversion Hrun; subst; clear Hrun. simpl.
    destruct (insert_existing_shard _ _ sh sh' Hsh) as [? ?]. by split_and!.
Qed.

(** ** The shards of a new group *)

Lemma assignShardIDs_store shards tx shards' tx' :
  assignShardIDs shards tx = (shards', tx') →
  sh_store <$> shards' = sh_store <$> shards.
Proof.
  revert tx shards' tx'. induction shards as [|sh rest IH];
    intros tx shards' tx' Hrun; simpl in Hrun.
  - by inversion Hrun.
  - destruct (nextShardID tx) as [id tx1].
    destruct (assignShardIDs rest tx1) as [rest' tx2] eqn:Hrest.
    inversion Hrun; subst. simpl. f_equal. by eapply IH.
Qed.

(** What [openShards] leaves of a list of shards: identifiers and nodes as
    they were, the store of [shard_open] in the shards of this server, the
    store as it was in the others. *)
Lemma openShards_stores s shards shards' :
  openShards s shards = Returns shards' →
  Forall2 (λ sh sh',
             sh_ID sh' = sh_ID sh
             ∧ sh_DataNodeIDs sh' = sh_DataNodeIDs sh
             ∧ if HasDataNodeID (s_id s) sh
               then ∃ st, shard_open (shardPath s (sh_ID sh)) sh = inr st
                          ∧ sh_store sh' = Some st
               else sh_store sh' = sh_store sh) shards shards'.
Proof.
  revert shards'. induction shards as [|sh rest IH]; intros shards' Hrun;
    simpl in Hrun.
  - inversion Hrun. constructor.
  - destruct (HasDataNodeID (s_id s) sh) eqn:Hlocal; simpl in Hrun.
    + destruct (shard_open _ sh) as [e|st] eqn:Hopen; [done|].
      apply bind_Returns in Hrun as (rest' & Hrest & Hrun).
      inversion Hrun; subst. constructor; [|by apply IH].
      rewrite Hlocal. split_and!; try done. by exists st.
    + apply bind_Returns in Hrun as (rest' & Hrest & Hrun).
      inversion Hrun; subst. constructor; [|by apply IH].
      by rewrite Hlocal.
Qed.

Lemma subscribeShards_grows id shards c cl' :
  subscribeShards id shards (Some c) = Returns cl' →
  ∃ c', cl' = Some c' ∧ c_subscriptions c ⊆ c_subscriptions c'.
Proof.
  revert c. induction shards as [|sh rest IH]; intros c; simpl.
  - intros [= <-]. by exists c.
  - destruct (HasDataNodeID id sh); simpl; [|apply IH].
    intros Hrun. apply IH in Hrun as (c' & -> & Hsub).
    exists c'. split; [done|]. etrans; [|exact Hsub].
    unfold Subscribe. destruct (subscribe_fault _ _ c); simpl; [done|].
    intros x Hx. apply elem_of_app. by left.
Qed.

Lemma subscribeShards_subscribed id shards cl cl' sh :
  (∀ r t c, subscribe_fault r t c = None) →
  subscribeShards id shards cl = Returns cl' →
  sh ∈ shards → HasDataNodeID id sh = true →
  ∃ c', cl' = Some c' ∧ (id, sh_ID sh) ∈ c_subscriptions c'.
Proof.
  intros Hfault. revert cl. induction shards as [|sh0 rest IH];
    intros cl Hrun Hin Hlocal; [by apply elem_of_nil in Hin|].
  simpl in Hrun. apply elem_of_cons in Hin as [<-|Hin].
  - rewrite Hlocal in Hrun. simpl in Hrun.
    destruct cl as [c|]; [|done].
    apply subscribeShards_grows in Hrun as (c' & -> & Hsub).
    exists c'. split; [done|]. apply Hsub.
    unfold Subscribe. rewrite Hfault. simpl.
    apply elem_of_app. right. by apply list_elem_of_singleton.
  - destruct (HasDataNodeID id sh0); simpl in Hrun; [|by eapply IH].
    destruct cl as [c|]; [|done]. by eapply IH.
Qed.

Lemma addShards_lookup shards (m : gmap N Shard) sh :
  sh ∈ shards → is_Some (addShards shards m !! sh_ID sh).
Proof.
  unfold addShards. revert m.
  induction shards as [|sh0 rest IH] using rev_ind; intros m Hin;
    [by apply elem_of_nil in Hin|].
  rewrite foldl_app. simpl.
  apply elem_of_app in Hin as [Hin|Hin].
  - destruct (decide (sh_ID sh = sh_ID sh0)) as [->|Hne].
    + rewrite lookup_insert_eq. by eexists.
    + rewrite lookup_insert_ne by done. by apply IH.
  - apply list_elem_of_singleton in Hin as ->.
    rewrite lookup_insert_eq. by eexists.
Qed.

Lemma addShards_lookup_NoDup shards (m : gmap N Shard) sh :
  NoDup (sh_ID <$> shards) → sh ∈ shards →
  addShards shards m !! sh_ID sh = Some sh.
Proof.
  unfold addShards. revert m.
  induction shards as [|sh0 rest IH] using rev_ind; intros m Hnodup Hin;
    [by apply elem_of_nil in Hin|].
  rewrite foldl_app. simpl.
  rewrite fmap_app in Hnodup. apply NoDup_app in Hnodup as (Hrest & Hlast & _).
  apply elem_of_app in Hin as [Hin|Hin].
  - rewrite lookup_insert_ne; [by apply IH|].
    intros Heq. apply (Hlast (sh_ID sh)).
    + apply list_elem_of_fmap. by exists sh.
    + rewrite <-Heq. simpl. apply list_elem_of_here.
  - apply list_elem_of_singleton in Hin as ->. apply lookup_insert_eq.
Qed.

Lemma addShards_lookup_other shards (m : gmap N Shard) (id : N) :
  id ∉ sh_ID <$> shards → addShards shards m !! id = m !! id.
Proof.
  unfold addShards. revert m.
  induction shards as [|sh0 rest IH] using rev_ind; intros m Hid; [done|].
  rewrite foldl_app. simpl.
  rewrite fmap_app in Hid. apply not_elem_of_app in Hid as [Hrest Hlast].
  rewrite lookup_insert_ne; [by apply IH|].
  intros <-. apply Hlast. simpl. apply list_elem_of_here.
Qed.

(** The group that the handler appends when it returns nil: its shards are
    what [openShards] leaves of shards that have no store and the nodes of
    the round robin. *)
Lemma applyCreateShardGroupIfNotExists_group (m : Message)
    (c : createShardGroupIfNotExistsCommand) (s s' : Server) (db : database)
    (rp : RetentionPolicy) :
  m_Data m = DataCreateShardGroupIfNotExists c →
  s_databases s !! csg_Database c = Some db →
  db_policies db !! csg_Policy c = Some rp →
  rp_shardGroupByTimestamp rp (csg_Timestamp c) = None →
  applyCreateShardGroupIfNotExists m s = Returns (None, s') →
  let nodes := sortedDataNodes s in
  let replicaN := replicaN_of rp nodes in
  let StartTime := Truncate (csg_Timestamp c) (rp_Duration rp) in
  ∃ gid placed shards cl store,
    1 ≤ len nodes
    ∧ length placed = Z.to_nat (len nodes `div` replicaN)
    ∧ (∀ (k : nat) sh, placed !! k = Some sh →
         sh_store sh = None
         ∧ sh_DataNodeIDs sh
           = roundRobin nodes (placementOffset m nodes + Z.of_nat k * replicaN)
                        (Z.to_nat replicaN))
    ∧ openShards s placed = Returns shards
    ∧ subscribeShards (s_id s) shards (s_client s) = Returns cl
    ∧ s' = set_client cl
             (set_databases
                (<[csg_Database c :=
                     set_policies
                       (<[csg_Policy c :=
                            set_shardGroups
                              (rp_shardGroups rp
                               ++ [mkShardGroup gid StartTime
                                     (StartTime + rp_Duration rp) shards]) rp]>
                          (db_policies db)) db]> (s_databases s))
                (set_shards (addShards shards (s_shards s))
                   (set_meta store s))).
Proof.
  intros Hm Hdb Hrp Hnone Hrun nodes replicaN StartTime.
  destruct (decide (1 ≤ len nodes)) as [Hlen|Hlen].
  2:{ rewrite (applyCreateShardGroupIfNotExists_no_nodes m c s db rp) in Hrun;
        try done.
      unfold nodes, len in *. lia. }
  pose proof (replicaN_of_bounds rp nodes Hlen) as Hr. fold replicaN in Hr.
  assert (N.of_nat (length nodes) ≠ 0%N) as Hlen' by (unfold len in Hlen; lia).
  unfold applyCreateShardGroupIfNotExists in Hrun. rewrite Hm in Hrun.
  simpl in Hrun. rewrite Hdb, Hrp, Hnone in Hrun.
  fold nodes replicaN StartTime in Hrun.
  unfold go_div in Hrun. rewrite decide_False in Hrun by lia.
  simpl in Hrun. rewrite Z.quot_div_nonneg in Hrun by lia.
  unfold mustUpdate in Hrun. simpl in Hrun.
  destruct (nextShardGroupID (s_meta s)) as [gid tx1].
  destruct (assignShardIDs (replicate (Z.to_nat (len nodes `div` replicaN)) newShard) tx1)
    as [ids tx2] eqn:Hids.
  unfold go_urem in Hrun. rewrite decide_False in Hrun by done.
  simpl in Hrun. fold (placementOffset m nodes) in Hrun.
  rewrite assignDataNodes_spec in Hrun; [|lia|lia|apply N2Z.is_nonneg].
  simpl in Hrun.
  set (placed := imap _ ids) in Hrun.
  apply assignShardIDs_DataNodeIDs in Hids as Hnil.
  apply assignShardIDs_store in Hids as Hstore.
  destruct (saveDatabase db tx2) as [[e|] store]; simpl in Hrun; [done|].
  apply bind_Returns in Hrun as (shards & Hopen & Hrun).
  apply bind_Returns in Hrun as (cl & Hsub & Hrun).
  inversion Hrun; subst s'; clear Hrun.
  exists gid, placed, shards, cl, store. split_and!; try done.
  - unfold placed. rewrite length_imap.
    apply (f_equal length) in Hnil. rewrite !length_fmap in Hnil.
    by rewrite Hnil, length_replicate.
  - intros k sh Hk. unfold placed in Hk. rewrite list_lookup_imap in Hk.
    destruct (ids !! k) as [sh0|] eqn:Hsh0; [|done].
    destruct (fmap_lookup_eq _ _ _ _ _ Hnil Hsh0) as (sh1 & Hsh1 & Hempty).
    destruct (fmap_lookup_eq _ _ _ _ _ Hstore Hsh0) as (sh2 & Hsh2 & Hnone').
    apply lookup_replicate in Hsh1 as [-> _].
    apply lookup_replicate in Hsh2 as [-> _].
    simpl in Hk. inversion Hk. simpl. split; [done|]. by rewrite <-Hempty.
Qed.

(** X14. When [applyCreateShardGroupIfNotExists] has appended a group, every
    shard of the group is registered in the shard map of the server under
    its identifier (the shard itself when the identifiers of the group are
    pairwise distinct), the shards under other identifiers are as they
    were, and a shard of the group has a store exactly when this server is
    one of its nodes: the store that [shard_open] has returned for the path
    of the shard.  When the broker does not refuse, the client of the
    server is subscribed to each of those shards. *)
Theorem createShardGroup_opens_local_shards (m : Message)
    (c : createShardGroupIfNotExistsCommand) (s s' : Server) (db : database)
    (rp : RetentionPolicy)
    (Hm : m_Data m = DataCreateShardGroupIfNotExists c)
    (Hdb : s_databases s !! csg_Database c = Some db)
    (Hrp : db_policies db !! csg_Policy c = Some rp)
    (Hnone : rp_shardGroupByTimestamp rp (csg_Timestamp c) = None)
    (Hrun : applyCreateShardGroupIfNotExists m s = Returns (None, s')) :
  ∃ db' rp' g,
    s_databases s' !! csg_Database c = Some db'
    ∧ db_policies db' !! csg_Policy c = Some rp'
    ∧ rp_shardGroups rp' = rp_shardGroups rp ++ [g]
    ∧ (∀ id, id ∉ sh_ID <$> g_Shards g →
         s_shards s' !! id = s_shards s !! id)
    ∧ ∀ sh, sh ∈ g_Shards g →
        is_Some (s_shards s' !! sh_ID sh)
        ∧ (NoDup (sh_ID <$> g_Shards g) →
           s_shards s' !! sh_ID sh = Some sh)
        ∧ (s_id s ∈ sh_DataNodeIDs sh ↔ is_Some (sh_store sh))
        ∧ (∀ st, sh_store sh = Some st →
             shard_open (shardPath s (sh_ID sh)) (set_store None sh) = inr st)
        ∧ ((∀ r t cl, subscribe_fault r t cl = None) →
           s_id s ∈ sh_DataNodeIDs sh →
           ∃ cl', s_client s' = Some cl'
                  ∧ (s_id s, sh_ID sh) ∈ c_subscriptions cl').
Proof.
  destruct (applyCreateShardGroupIfNotExists_group m c s s' db rp)
    as (gid & placed & shards & cl & store & _ & _ & Hplaced & Hopen & Hsub & ->);
    try done.
  eexists _, _, _. split_and!.
  - simpl. apply lookup_insert_eq.
  - simpl. apply lookup_insert_eq.
  - done.
  - simpl. intros id Hid. by apply addShards_lookup_other.
  - simpl. intros sh Hsh.
    apply openShards_stores in Hopen as Hstores.
    apply list_elem_of_lookup in Hsh as Hk. destruct Hk as [k Hk].
    destruct (Forall2_lookup_r _ _ _ _ _ Hstores Hk)
      as (sh0 & Hsh0 & Hid & Hnodes & Hst).
    destruct (Hplaced _ _ Hsh0) as [Hstore0 _].
    assert (HasDataNodeID (s_id s) sh0 = HasDataNodeID (s_id s) sh) as Hsame
      by (unfold HasDataNodeID; by rewrite Hnodes).
    assert (set_store None sh = sh0) as Hback.
    { destruct sh, sh0; simpl in *. by subst. }
    split_and!.
    + by apply addShards_lookup.
    + intros Hnodup. by apply addShards_lookup_NoDup.
    + unfold HasDataNodeID in Hst.
      rewrite Hnodes. case_bool_decide as Hlocal.
      * destruct Hst as (st & _ & ->). split; [by eexists | done].
      * rewrite Hst, Hstore0. split; [done | by intros [? ?]].
    + intros st Hsome. rewrite Hback, Hid.
      destruct (HasDataNodeID (s_id s) sh0).
      * destruct Hst as (st' & Hopen' & Hst'). congruence.
      * congruence.
    + intros Hfault Hlocal.
      eapply (subscribeShards_subscribed _ _ _ _ sh) in Hsub; try done.
      unfold HasDataNodeID. by apply bool_decide_eq_true_2.
Qed.

(** ** Replicas on distinct nodes *)

Lemma roundRobin_app nodes start c1 c2 :
  roundRobin nodes start (c1 + c2)
  = roundRobin nodes start c1 ++ roundRobin nodes (start + Z.of_nat c1) c2.
Proof.
  unfold roundRobin. rewrite seq_app, fmap_app. f_equal. simpl.
  assert (seq c1 c2 = Nat.add c1 <$> seq 0 c2) as ->
    by (by rewrite fmap_add_seq, Nat.add_0_r).
  rewrite <-list_fmap_compose.
  apply list_fmap_ext. intros _ i _. simpl. do 4 f_equal. lia.
Qed.

Lemma roundRobin_concat nodes start (r count : nat) :
  concat ((λ k : nat, roundRobin nodes (start + Z.of_nat k * Z.of_nat r) r)
          <$> seq 0 count)
  = roundRobin nodes start (count * r).
Proof.
  induction count as [|count IH].
  - done.
  - rewrite seq_S, fmap_app, concat_app, IH. simpl. rewrite app_nil_r.
    rewrite (Nat.add_comm r (count * r)), roundRobin_app. do 2 f_equal. lia.
Qed.

(** A round robin that does not go round more than once hands out every
    node at most once. *)
Lemma roundRobin_NoDup nodes start count :
  NoDup (dn_ID <$> nodes) → 0 ≤ start → (count ≤ length nodes)%nat →
  NoDup (roundRobin nodes start count).
Proof.
  intros Hnodup Hstart Hcount. unfold roundRobin.
  apply NoDup_fmap_2_strong; [|apply NoDup_seq].
  intros i j Hi Hj Heq.
  apply elem_of_seq in Hi, Hj.
  assert (0 < len nodes) as Hlen by (unfold len; lia).
  destruct (go_index_lookup nodes ((start + Z.of_nat i) `mod` len nodes))
    as (ni & Hni & _); [by apply Z.mod_pos_bound|].
  destruct (go_index_lookup nodes ((start + Z.of_nat j) `mod` len nodes))
    as (nj & Hnj & _); [by apply Z.mod_pos_bound|].
  rewrite Hni, Hnj in Heq. simpl in Heq.
  assert (Z.to_nat ((start + Z.of_nat i) `mod` len nodes)
          = Z.to_nat ((start + Z.of_nat j) `mod` len nodes)) as Hpos.
  { eapply NoDup_lookup; [exact Hnodup| |];
      rewrite list_lookup_fmap; [by rewrite Hni | by rewrite Hnj, Heq]. }
  pose proof (Z.mod_pos_bound (start + Z.of_nat i) (len nodes) Hlen).
  pose proof (Z.mod_pos_bound (start + Z.of_nat j) (len nodes) Hlen).
  assert ((start + Z.of_nat i) `mod` len nodes
          = (start + Z.of_nat j) `mod` len nodes) as Hmod by lia.
  pose proof (Z.div_mod (start + Z.of_nat i) (len nodes) ltac:(lia)) as Hdi.
  pose proof (Z.div_mod (start + Z.of_nat j) (len nodes) ltac:(lia)) as Hdj.
  rewrite Hmod in Hdi.
  set (qi := (start + Z.of_nat i) `div` len nodes) in *.
  set (qj := (start + Z.of_nat j) `div` len nodes) in *.
  assert (Z.of_nat i - Z.of_nat j = len nodes * (qi - qj)) as Hdiff by lia.
  assert (- len nodes < Z.of_nat i - Z.of_nat j < len nodes) as Hrange
    by (unfold len; lia).
  assert (qi - qj = 0) by nia. lia.
Qed.

Lemma roundRobin_elem_of nodes start count id :
  0 < len nodes → id ∈ roundRobin nodes start count →
  ∃ node, node ∈ nodes ∧ dn_ID node = id.
Proof.
  intros Hlen Hin. unfold roundRobin in Hin.
  apply list_elem_of_fmap in Hin as (i & -> & _).
  destruct (go_index_lookup nodes ((start + Z.of_nat i) `mod` len nodes))
    as (ni & Hni & _); [by apply Z.mod_pos_bound|].
  exists ni. rewrite Hni. split; [|done]. by eapply list_elem_of_lookup_2.
Qed.

Lemma sortedDataNodes_NoDup s :
  dataNodes_keyed s → NoDup (dn_ID <$> sortedDataNodes s).
Proof.
  intros Hkeyed. rewrite (sortedDataNodes_Permutation s).
  unfold dataNodeList.
  assert (dn_ID <$> (map_to_list (s_dataNodes s)).*2
          = (map_to_list (s_dataNodes s)).*1) as ->.
  { rewrite <-list_fmap_compose. apply list_fmap_ext.
    intros _ [k n] Hin%list_elem_of_lookup_2. simpl.
    apply elem_of_map_to_list in Hin. by apply Hkeyed. }
  apply NoDup_fst_map_to_list.
Qed.

(** X15. No node holds two replicas of a group.  When the data nodes are stored
    under their identifiers, the node identifiers that
    [applyCreateShardGroupIfNotExists] has given to the shards of the group
    it has appended are pairwise distinct, across the shards of the group
    as well as within each shard, and each of them is the identifier of a
    data node of the server. *)
Theorem createShardGroup_replicas_on_distinct_nodes (m : Message)
    (c : createShardGroupIfNotExistsCommand) (s s' : Server) (db : database)
    (rp : RetentionPolicy)
    (Hm : m_Data m = DataCreateShardGroupIfNotExists c)
    (Hdb : s_databases s !! csg_Database c = Some db)
    (Hrp : db_policies db !! csg_Policy c = Some rp)
    (Hnone : rp_shardGroupByTimestamp rp (csg_Timestamp c) = None)
    (Hkeyed : dataNodes_keyed s)
    (Hrun : applyCreateShardGroupIfNotExists m s = Returns (None, s')) :
  ∃ db' rp' g,
    s_databases s' !! csg_Database c = Some db'
    ∧ db_policies db' !! csg_Policy c = Some rp'
    ∧ rp_shardGroups rp' = rp_shardGroups rp ++ [g]
    ∧ NoDup (concat (sh_DataNodeIDs <$> g_Shards g))
    ∧ ∀ id, id ∈ concat (sh_DataNodeIDs <$> g_Shards g) →
        ∃ node, s_dataNodes s !! id = Some node ∧ dn_ID node = id.
Proof.
  destruct (applyCreateShardGroupIfNotExists_group m c s s' db rp)
    as (gid & placed & shards & cl & store & Hlen & Hcount & Hplaced & Hopen
        & _ & ->); try done.
  set (nodes := sortedDataNodes s) in *.
  set (replicaN := replicaN_of rp nodes) in *.
  pose proof (replicaN_of_bounds rp nodes Hlen) as Hr. fold replicaN in Hr.
  apply openShards_DataNodeIDs in Hopen.
  assert (concat (sh_DataNodeIDs <$> shards)
          = roundRobin nodes (placementOffset m nodes)
              (Z.to_nat (len nodes `div` replicaN) * Z.to_nat replicaN))
    as Hall.
  { rewrite Hopen, <-roundRobin_concat. f_equal.
    apply list_eq. intros k. rewrite !list_lookup_fmap.
    destruct (placed !! k) as [sh|] eqn:Hk; simpl.
    - destruct (Hplaced _ _ Hk) as [_ ->].
      rewrite lookup_seq_lt by (rewrite <-Hcount; by eapply lookup_lt_Some).
      simpl. do 3 f_equal. lia.
    - rewrite lookup_seq_ge; [done|].
      rewrite <-Hcount. by apply lookup_ge_None. }
  eexists _, _, _. split_and!.
  - simpl. apply lookup_insert_eq.
  - simpl. apply lookup_insert_eq.
  - done.
  - simpl. rewrite Hall. apply roundRobin_NoDup.
    + by apply sortedDataNodes_NoDup.
    + unfold placementOffset. apply N2Z.is_nonneg.
    + pose proof (Z.mul_div_le (len nodes) replicaN ltac:(lia)).
      pose proof (Z.div_pos (len nodes) replicaN ltac:(lia) ltac:(lia)).
      unfold len in *. nia.
  - simpl. rewrite Hall. intros id Hin.
    apply roundRobin_elem_of in Hin as (node & Hnode & <-); [|lia].
    exists node. split; [|done].
    unfold nodes in Hnode. rewrite (sortedDataNodes_Permutation s) in Hnode.
    apply elem_of_dataNodeList in Hnode as [k Hk].
    by rewrite (Hkeyed _ _ Hk).
Qed.

(** ** Writing a point with values *)

(** X16. A [WriteSeries] of a single point with values, for which the series,
    the retention policy, the measurement, the shard group and the shard
    are found, publishes one message on the topic of the shard and returns
    the index the broker has given it.  The message is a raw write, the
    point header with [timestamp.UnixNano()] followed by the values, when
    [mapValues] has converted every field; it is a write-series command
    with [timestamp.UnixNano()] otherwise, which JSON has to encode (if it
    does not, [WriteSeries] panics).  [WriteSeries] does not wait for the
    message to be applied: the index of the server and its shards are as
    the lookups left them, and unless the message is delivered to this
    server the channel is too. *)
Theorem WriteSeries_with_values (database retentionPolicy policy : string)
    (pt : Point) (s s1 s2 : Server) (seriesID : N) (mm : Measurement)
    (g : ShardGroup) (sh : Shard) (cl : MessagingClient)
    (Hvalues : pt_Values pt ≠ [])
    (Hseries : createSeriesIfNotExists database (pt_Name pt) (pt_Tags pt) s
               = Returns (seriesID, None, s1))
    (Hpolicy : if decide (retentionPolicy = "")
               then ∃ rp, DefaultRetentionPolicy s1 database = (Some rp, None)
                          ∧ rp_Name rp = policy
               else policy = retentionPolicy)
    (Hmeasurement : measurement s1 database (pt_Name pt) = (Some mm, None))
    (Hgroup : createShardGroupIfNotExists database policy (pt_Timestamp pt) s1
              = Returns (Some g, None, s2))
    (Hshard : ShardBySeriesID g seriesID = Returns sh)
    (Hclient : s_client s2 = Some cl)
    (Haccepted : ∀ m, publish_fault m cl = None) :
  let cmd :=
    DataWriteSeries {| ws_Database := database;
                       ws_Measurement := pt_Name pt;
                       ws_SeriesID := seriesID;
                       ws_Timestamp := UnixNano (pt_Timestamp pt);
                       ws_Values := pt_Values pt |} in
  (mapValues mm (pt_Values pt) = None → is_Some (marshal_fault cmd) →
   WriteSeries database retentionPolicy [pt] s = Panics MarshalFailure)
  ∧ ((mapValues mm (pt_Values pt) = None → marshal_fault cmd = None) →
     ∃ m s3,
       WriteSeries database retentionPolicy [pt] s
       = Returns (m_Index m, None, s3)
       ∧ published s3 = published s2 ++ [m]
       ∧ m_Index m = (c_index cl + 1)%N
       ∧ m_TopicID m = sh_ID sh
       ∧ (match mapValues mm (pt_Values pt) with
          | Some rawValues =>
            m_Type m = writeRawSeriesMessageType
            ∧ m_Data m
              = DataRaw (marshalPointHeader seriesID
                           (UnixNano (pt_Timestamp pt))
                         ++ marshalValues rawValues)
          | None =>
            m_Type m = writeSeriesMessageType ∧ m_Data m = cmd
          end)
       ∧ s_index s3 = s_index s2
       ∧ s_errors s3 = s_errors s2
       ∧ s_shards s3 = s_shards s2
       ∧ s_databases s3 = s_databases s2
       ∧ channel s3 = (if delivered (sh_ID sh) cl then channel s2 ++ [m]
                       else channel s2)).
Proof.
  intros cmd.
  assert (len (pt_Values pt) ≠ 0) as Hlen.
  { unfold len. destruct (pt_Values pt); [done | simpl; lia]. }
  assert (∀ typ data,
    let m := mkMessage typ (sh_ID sh) (c_index cl + 1)%N data in
    ∃ s3, publishOn (mkMessage typ (sh_ID sh) 0%N data) s2
          = Returns (m_Index m, None, s3)
      ∧ published s3 = published s2 ++ [m]
      ∧ s_index s3 = s_index s2
      ∧ s_errors s3 = s_errors s2
      ∧ s_shards s3 = s_shards s2
      ∧ s_databases s3 = s_databases s2
      ∧ channel s3 = (if delivered (sh_ID sh) cl then channel s2 ++ [m]
                      else channel s2)) as Hpublish.
  { intros typ data m. unfold publishOn, Publish. rewrite Hclient, Haccepted.
    simpl. eexists. split; [done|]. unfold published, channel.
    rewrite Hclient. simpl. by split_and!. }
  assert (WriteSeries database retentionPolicy [pt] s
          = match mapValues mm (pt_Values pt) with
            | None =>
              match marshal_fault cmd with
              | Some _ => Panics MarshalFailure
              | None =>
                publishOn
                  (mkMessage writeSeriesMessageType (sh_ID sh) 0%N cmd) s2
              end
            | Some rawValues =>
              publishOn
                (mkMessage writeRawSeriesMessageType (sh_ID sh) 0%N
                   (DataRaw (marshalPointHeader seriesID
                               (UnixNano (pt_Timestamp pt))
                             ++ marshalValues rawValues))) s2
            end) as ->.
  { unfold WriteSeries. rewrite Hseries. simpl.
    destruct (decide (retentionPolicy = "")) as [Hdefault|Hnamed].
    + destruct Hpolicy as (rp & -> & <-). rewrite Hmeasurement.
      rewrite Hgroup. simpl. rewrite Hshard. simpl.
      by rewrite decide_False.
    + subst policy. rewrite Hmeasurement.
      rewrite Hgroup. simpl. rewrite Hshard. simpl.
      by rewrite decide_False. }
  split.
  - intros -> [e ->]. done.
  - intros Hmarshal. destruct (mapValues mm (pt_Values pt)) as [rawValues|].
    + destruct (Hpublish writeRawSeriesMessageType
                  (DataRaw (marshalPointHeader seriesID
                              (UnixNano (pt_Timestamp pt))
                            ++ marshalValues rawValues)))
        as (s3 & Hrun & ? & ? & ? & ? & ? & ?).
      eexists _, s3. split; [exact Hrun|]. by split_and!.
    + rewrite Hmarshal by done.
      destruct (Hpublish writeSeriesMessageType cmd)
        as (s3 & Hrun & ? & ? & ? & ? & ? & ?).
      eexists _, s3. split; [exact Hrun|]. by split_and!.
Qed.

(** ** The default policy and messages of unknown type *)

(** X23. The policy that [applySetDefaultRetentionPolicy] has made the default
    is the one [DefaultRetentionPolicy] returns, whatever the metastore has
    answered; the policies of the database are as they were. *)
Theorem setDefaultRetentionPolicy_then_default (m : Message)
    (c : setDefaultRetentionPolicyCommand) (s s' : Server) (db : database)
    (p : RetentionPolicy) (err : option error)
    (Hm : m_Data m = DataSetDefaultRetentionPolicy c)
    (Hdb : s_databases s !! sdrp_Database c = Some db)
    (Hp : db_policies db !! sdrp_Name c = Some p)
    (Hrun : applySetDefaultRetentionPolicy m s = Returns (err, s')) :
  DefaultRetentionPolicy s' (sdrp_Database c) = (Some p, None)
  ∧ ∃ db', s_databases s' !! sdrp_Database c = Some db'
           ∧ db_defaultRetentionPolicy db' = sdrp_Name c
           ∧ db_policies db' = db_policies db.
Proof.
  unfold applySetDefaultRetentionPolicy, mustUpdate in Hrun.
  rewrite Hm, Hdb, Hp in Hrun. simpl in Hrun.
  set (db' := set_defaultRetentionPolicy (sdrp_Name c) db) in *.
  assert (s_databases s' = <[sdrp_Database c := db']> (s_databases s))
    as Hmap.
  { destruct (saveDatabase db' (s_meta s)) as [[e|] tx]; simpl in Hrun;
      by inversion Hrun. }
  unfold DefaultRetentionPolicy. rewrite Hmap, lookup_insert_eq.
  split; [by rewrite <-Hp | by exists db'].
Qed.

(** X24. The [switch] of the processor has no default case: a message of a type
    that no case names is acknowledged like a command that succeeded.  The
    high-water mark becomes the index of the message, no error is recorded,
    and nothing else changes. *)
Theorem unknown_message_type_is_acknowledged (m : Message) (s : Server)
    (Hopen : s_path s ≠ "")
    (Hunknown : m_Type m ∉ [writeSeriesMessageType; writeRawSeriesMessageType;
                            createDataNodeMessageType;
                            deleteDataNodeMessageType;
                            createDatabaseMessageType;
                            deleteDatabaseMessageType;
                            createUserMessageType; updateUserMessageType;
                            deleteUserMessageType;
                            createRetentionPolicyMessageType;
                            updateRetentionPolicyMessageType;
                            deleteRetentionPolicyMessageType;
                            createShardGroupIfNotExistsMessageType;
                            setDefaultRetentionPolicyMessageType;
                            createSeriesIfNotExistsMessageType]) :
  dispatch m s = Returns (None, s)
  ∧ process m s = Returns (set_index (m_Index m) s).
Proof.
  assert (dispatch m s = Returns (None, s)) as Hdispatch.
  { unfold dispatch.
    repeat (rewrite decide_False;
            [|intros Heq; apply Hunknown; rewrite Heq;
              repeat first [apply list_elem_of_here
                           |apply list_elem_of_further]]).
    done. }
  split; [done|].
  unfold process, opened. rewrite bool_decide_eq_true_2 by done. simpl.
  by rewrite Hdispatch.
Qed.
End MoreProofs.

(** * The server on concrete inputs *)

Section Runs.
#[local] Existing Instance exForeign.
#[local] Existing Instance exCollaborators.

Ltac by_computation := vm_compute; reflexivity.

(** C1. On a metastore whose writes fail, [applyCreateDataNode] returns the
    error of the metastore and the data-node map has the new node all the
    same; [applyCreateDatabase] returns the error and the database map has
    the new database. *)
Lemma failed_update_keeps_in_memory_change :
  (∃ s',
     applyCreateDataNode
       (exMessage createDataNodeMessageType 0 1
                  (DataCreateDataNode {| cdn_URL := "http://a" |}))
       (exEmpty true)
     = Returns (Some (Errorf "metastore: write failed"), s')
     ∧ s_dataNodes (exEmpty true) !! 1%N = None
     ∧ s_dataNodes s' !! 1%N = Some (mkDataNode 1 "http://a"))
  ∧ (∃ s',
     applyCreateDatabase
       (exMessage createDatabaseMessageType 0 1
                  (DataCreateDatabase {| cdb_Name := "metrics" |}))
       (exEmpty true)
     = Returns (Some (Errorf "metastore: write failed"), s')
     ∧ s_databases (exEmpty true) !! "metrics" = None
     ∧ s_databases s' !! "metrics" = Some (mkDatabase "metrics" ∅ "" ∅ [])).
Proof.
  split; eexists; (split; [by_computation|]); split; by_computation.
Qed.

(** C2, on three data nodes, a policy that asks for two replicas and a
    message with log index 4: the metastore accepts, the shard is not on
    this server, and the handler returns nil with the group. *)
Lemma createShardGroup_placement_witness :
  let m := exMessage createShardGroupIfNotExistsMessageType 0 4
             (DataCreateShardGroupIfNotExists (exCreateShardGroup "rp" 100)) in
  let c := exCreateShardGroup "rp" 100 in
  let s := exServer [3; 1; 2]%N [exPolicy "rp" 1000 2] "rp" false in
  let db := exDatabase [exPolicy "rp" 1000 2] "rp" in
  let rp := exPolicy "rp" 1000 2 in
  m_Data m = DataCreateShardGroupIfNotExists c
  ∧ s_databases s !! csg_Database c = Some db
  ∧ db_policies db !! csg_Policy c = Some rp
  ∧ rp_shardGroupByTimestamp rp (csg_Timestamp c) = None
  ∧ (1 ≤ size (s_dataNodes s))%nat
  ∧ (∃ s', applyCreateShardGroupIfNotExists m s = Returns (None, s')
           ∧ (λ g, sh_DataNodeIDs <$> g_Shards g) <$> exGroups "rp" s'
             = [[[2; 3]%N]])
  ∧ (let n := Z.of_nat (size (s_dataNodes s)) in
     let nodes := sortedDataNodes s in
     let replicaN := replicaN_of rp nodes in
     let StartTime := Truncate (csg_Timestamp c) (rp_Duration rp) in
     let drawn := nextShardGroupID (s_meta s) in
     let ids := assignShardIDs
                  (replicate (Z.to_nat (n `div` replicaN)) newShard) drawn.2 in
     let placed := placedShards m nodes replicaN ids.1 in
     let created (store : metatx) (shards : list Shard)
                 (cl : option MessagingClient) : Server :=
       set_client cl
         (set_databases
            (<[csg_Database c :=
                 set_policies
                   (<[csg_Policy c :=
                        set_shardGroups
                          (rp_shardGroups rp
                           ++ [mkShardGroup drawn.1 StartTime
                                 (StartTime + rp_Duration rp) shards]) rp]>
                      (db_policies db)) db]> (s_databases s))
            (set_shards (addShards shards (s_shards s)) (set_meta store s))) in
     (rp_ReplicaN rp = 0%N → replicaN = 1)
     ∧ (n < Z.of_N (rp_ReplicaN rp) → replicaN = n)
     ∧ (0 < Z.of_N (rp_ReplicaN rp) ≤ n → replicaN = Z.of_N (rp_ReplicaN rp))
     ∧ Sorted dataNodes_Less nodes
     ∧ nodes ≡ₚ dataNodeList s
     ∧ len nodes = n
     ∧ length placed = Z.to_nat (n `div` replicaN)
     ∧ (∀ (k : nat) sh, placed !! k = Some sh →
          length (sh_DataNodeIDs sh) = Z.to_nat replicaN
          ∧ ∀ i : nat, (i < Z.to_nat replicaN)%nat →
              ∃ node,
                nodes !! Z.to_nat ((Z.of_N (m_Index m) `mod` n
                                    + Z.of_nat k * replicaN + Z.of_nat i) `mod` n)
                = Some node
                ∧ sh_DataNodeIDs sh !! i = Some (dn_ID node))
     ∧ applyCreateShardGroupIfNotExists m s
       = match saveDatabase db ids.2 with
         | (Some e, _) => Returns (Some e, s)
         | (None, store) =>
           shards ← openShards s placed;
           cl ← subscribeShards (s_id s) shards (s_client s);
           Returns (None, created store shards cl)
         end
     ∧ (∀ store shards cl,
          saveDatabase db ids.2 = (None, store) →
          openShards s placed = Returns shards →
          subscribeShards (s_id s) shards (s_client s) = Returns cl →
          applyCreateShardGroupIfNotExists m s
          = Returns (None, created store shards cl)
          ∧ sh_DataNodeIDs <$> shards = sh_DataNodeIDs <$> placed)
     ∧ ((∃ err s', applyCreateShardGroupIfNotExists m s = Returns (err, s'))
        ∨ (∃ e, applyCreateShardGroupIfNotExists m s = Panics (UnableToOpenShard e))
        ∨ applyCreateShardGroupIfNotExists m s = Panics NilDereference)
     ∧ ∀ s', applyCreateShardGroupIfNotExists m s = Returns (None, s') →
         ∃ db' rp' g,
           s_databases s' !! csg_Database c = Some db'
           ∧ db_policies db' !! csg_Policy c = Some rp'
           ∧ rp_shardGroups rp' = rp_shardGroups rp ++ [g]
           ∧ length (g_Shards g) = Z.to_nat (n `div` replicaN)
           ∧ ∀ (k : nat) sh, g_Shards g !! k = Some sh →
               length (sh_DataNodeIDs sh) = Z.to_nat replicaN
               ∧ ∀ i : nat, (i < Z.to_nat replicaN)%nat →
                   ∃ node,
                     nodes !! Z.to_nat ((Z.of_N (m_Index m) `mod` n
                                         + Z.of_nat k * replicaN + Z.of_nat i) `mod` n)
                     = Some node
                     ∧ sh_DataNodeIDs sh !! i = Some (dn_ID node)).
Proof.
  intros m c s db rp.
  assert (m_Data m = DataCreateShardGroupIfNotExists c) as Hm by reflexivity.
  assert (s_databases s !! csg_Database c = Some db) as Hdb by by_computation.
  assert (db_policies db !! csg_Policy c = Some rp) as Hrp by by_computation.
  assert (rp_shardGroupByTimestamp rp (csg_Timestamp c) = None) as Hnone
    by by_computation.
  assert (1 ≤ size (s_dataNodes s))%nat as Hnodes by (vm_compute; lia).
  split; [exact Hm|]. split; [exact Hdb|]. split; [exact Hrp|].
  split; [exact Hnone|]. split; [exact Hnodes|].
  split; [eexists; split; by_computation|].
  exact (createShardGroup_placement m c s db rp Hm Hdb Hrp Hnone Hnodes).
Defined.

(** The run behind the witness of C2: the nodes sorted are 1, 2, 3; the
    placement starts at position [4 mod 3 = 1]; the one shard of the group
    is on nodes 2 and 3. *)
Lemma createShardGroup_placement_run :
  let m := exMessage createShardGroupIfNotExistsMessageType 0 4
             (DataCreateShardGroupIfNotExists (exCreateShardGroup "rp" 100)) in
  let s := exServer [3; 1; 2]%N [exPolicy "rp" 1000 2] "rp" false in
  dn_ID <$> sortedDataNodes s = [1; 2; 3]%N
  ∧ (λ g, sh_DataNodeIDs <$> g_Shards g)
      <$> exGroups "rp" (exApplied applyCreateShardGroupIfNotExists m s)
    = [[[2; 3]%N]].
Proof. intros m s. split; by_computation. Qed.

(** C3, on a server that has applied index 7 and holds an error under 5. *)
Lemma Sync_returns_recorded_error_witness :
  let s := set_errors {[ 5%N := ErrDatabaseExists ]}
             (set_index 7 (exEmpty false)) in
  (5 ≤ s_index s)%N
  ∧ (let s' := set_errors (delete 5%N (s_errors s)) s in
     Sync 5 s = Returns (s_errors s !! 5%N, s')
     ∧ s_errors s' !! 5%N = None
     ∧ Sync 5 s' = Returns (None, s')).
Proof.
  intros s.
  assert (5 ≤ s_index s)%N as Happlied by (vm_compute; discriminate).
  split; [exact Happlied|].
  exact (Sync_returns_recorded_error 5 s Happlied).
Defined.

(** C4 as stated fails for a policy of duration zero: the window of the
    group that the first apply creates is empty, so the second apply creates
    a second group, and no group contains the timestamp. *)
Lemma createShardGroupIfNotExists_not_idempotent :
  applyCreateShardGroupIfNotExists (exGroupMessage 1) (exGroupServer 0)
  = Returns (None, exOnce0)
  ∧ applyCreateShardGroupIfNotExists (exGroupMessage 2) exOnce0
    = Returns (None, exTwice0)
  ∧ length (exGroups "rp" exOnce0) = 1%nat
  ∧ length (exGroups "rp" exTwice0) = 2%nat
  ∧ filter (λ g, groupContains 100 g = true) (exGroups "rp" exTwice0) = []
  ∧ exTwice0 ≠ exOnce0.
Proof.
  split; [by_computation|]. split; [by_computation|].
  split; [by_computation|]. split; [by_computation|]. split; [by_computation|].
  intros Heq. apply (f_equal (λ s, length (exGroups "rp" s))) in Heq.
  vm_compute in Heq. discriminate.
Qed.

(** C4 as amended, on a policy of duration 1000. *)
Lemma createShardGroupIfNotExists_idempotent_witness :
  let s := exGroupServer 1000 in
  let c := exCreateShardGroup "rp" 100 in
  let m1 := exGroupMessage 1 in
  let m2 := exGroupMessage 2 in
  let db := exDatabase [exPolicy "rp" 1000 1] "rp" in
  let rp := exPolicy "rp" 1000 1 in
  m_Data m1 = DataCreateShardGroupIfNotExists c
  ∧ m_Data m2 = DataCreateShardGroupIfNotExists c
  ∧ s_databases s !! csg_Database c = Some db
  ∧ db_policies db !! csg_Policy c = Some rp
  ∧ 0 < rp_Duration rp
  ∧ (length (groupsContaining (csg_Timestamp c) rp) ≤ 1)%nat
  ∧ applyCreateShardGroupIfNotExists m1 s = Returns (None, exOnce1000)
  ∧ ∃ db1 rp1,
      s_databases exOnce1000 !! csg_Database c = Some db1
      ∧ db_policies db1 !! csg_Policy c = Some rp1
      ∧ length (groupsContaining (csg_Timestamp c) rp1) = 1%nat
      ∧ applyCreateShardGroupIfNotExists m2 exOnce1000
        = Returns (None, exOnce1000).
Proof.
  intros s c m1 m2 db rp.
  assert (m_Data m1 = DataCreateShardGroupIfNotExists c) as Hm1 by reflexivity.
  assert (m_Data m2 = DataCreateShardGroupIfNotExists c) as Hm2 by reflexivity.
  assert (s_databases s !! csg_Database c = Some db) as Hdb by by_computation.
  assert (db_policies db !! csg_Policy c = Some rp) as Hrp by by_computation.
  assert (0 < rp_Duration rp) as Hduration by by_computation.
  assert (length (groupsContaining (csg_Timestamp c) rp) ≤ 1)%nat as Hdisjoint
    by (vm_compute; lia).
  assert (applyCreateShardGroupIfNotExists m1 s = Returns (None, exOnce1000))
    as Hfirst by by_computation.
  split; [exact Hm1|]. split; [exact Hm2|]. split; [exact Hdb|].
  split; [exact Hrp|]. split; [exact Hduration|]. split; [exact Hdisjoint|].
  split; [exact Hfirst|].
  exact (createShardGroupIfNotExists_idempotent m1 m2 c s exOnce1000 db rp
           Hm1 Hm2 Hdb Hrp Hduration Hdisjoint Hfirst).
Defined.

(** C5, on a server whose index has no series for the point yet: the
    series and the shard group are created by broadcasts during the call,
    and nothing is published beyond these two broadcasts. *)
Lemma WriteSeries_without_values_witness :
  ∃ mm g sh,
    pt_Values exPoint = []
    ∧ createSeriesIfNotExists "db" (pt_Name exPoint) (pt_Tags exPoint)
                              exWriteServer
      = Returns (11%N, None, exAfterSeries)
    ∧ (if decide ("" = "")
       then ∃ rp, DefaultRetentionPolicy exAfterSeries "db" = (Some rp, None)
                  ∧ rp_Name rp = "rp"
       else "rp" = "")
    ∧ measurement exAfterSeries "db" (pt_Name exPoint) = (Some mm, None)
    ∧ createShardGroupIfNotExists "db" "rp" (pt_Timestamp exPoint) exAfterSeries
      = Returns (Some g, None, exAfterGroup)
    ∧ ShardBySeriesID g 11%N = Returns sh
    ∧ (WriteSeries "db" "" [exPoint] exWriteServer
       = Returns (0%N, None, exAfterGroup)
       ∧ broadcasts_only exWriteServer exAfterGroup
       ∧ (sh_ID sh ≠ BroadcastTopicID →
          filter (λ m, m_TopicID m = sh_ID sh) (published exAfterGroup)
          = filter (λ m, m_TopicID m = sh_ID sh) (published exWriteServer)))
    ∧ m_Type <$> published exAfterGroup
      = [createSeriesIfNotExistsMessageType;
         createShardGroupIfNotExistsMessageType].
Proof.
  assert (createSeriesIfNotExists "db" (pt_Name exPoint) (pt_Tags exPoint)
                                  exWriteServer
          = Returns (11%N, None, exAfterSeries)) as Hseries by by_computation.
  assert (∃ rp, DefaultRetentionPolicy exAfterSeries "db" = (Some rp, None)
                ∧ rp_Name rp = "rp") as Hdefault
    by (eexists; split; by_computation).
  assert (∃ mm, measurement exAfterSeries "db" (pt_Name exPoint)
                = (Some mm, None)) as [mm Hmeasurement]
    by (eexists; by_computation).
  assert (∃ g, createShardGroupIfNotExists "db" "rp" (pt_Timestamp exPoint)
                                           exAfterSeries
               = Returns (Some g, None, exAfterGroup)
               ∧ ∃ sh, ShardBySeriesID g 11%N = Returns sh)
    as (g & Hgroup & sh & Hshard)
    by (eexists; split; [by_computation | eexists; by_computation]).
  exists mm, g, sh.
  split; [reflexivity|].
  split; [exact Hseries|].
  split; [exact Hdefault|].
  split; [exact Hmeasurement|].
  split; [exact Hgroup|].
  split; [exact Hshard|].
  split; [|by_computation].
  exact (WriteSeries_without_values "db" "" "rp" exPoint exWriteServer
           exAfterSeries exAfterGroup 11%N mm g sh
           eq_refl Hseries Hdefault Hmeasurement Hgroup Hshard).
Defined.

(** C6, on a database with the policies ["raw"] and ["week"]: ["raw"] is
    renamed to ["hour"] and back. *)
Lemma updateRetentionPolicy_rename_round_trip_witness :
  let s := exRenameServer in
  let db := exRenameDatabase in
  let p := exPolicy "raw" 1000 1 in
  let m1 := exMessage updateRetentionPolicyMessageType 0 1 (exRename "raw" "hour") in
  let m2 := exMessage updateRetentionPolicyMessageType 0 2 (exRename "hour" "raw") in
  m_Data m1 = exRename "raw" "hour"
  ∧ m_Data m2 = exRename "hour" "raw"
  ∧ s_databases s !! "db" = Some db
  ∧ db_policies db !! "raw" = Some p
  ∧ rp_Name p = "raw"
  ∧ db_policies db !! "hour" = None
  ∧ "raw" ≠ "" ∧ "hour" ≠ "" ∧ "raw" ≠ "hour"
  ∧ ∃ err1 s1 db1 err2 s2 db2,
      applyUpdateRetentionPolicy m1 s = Returns (err1, s1)
      ∧ s_databases s1 !! "db" = Some db1
      ∧ db_policies db1 !! "hour" = Some (set_Name "hour" p)
      ∧ db_policies db1 !! "raw" = None
      ∧ applyUpdateRetentionPolicy m2 s1 = Returns (err2, s2)
      ∧ s_databases s2 !! "db" = Some db2
      ∧ db_policies db2 = db_policies db
      ∧ s_databases s2 = s_databases s.
Proof.
  intros s db p m1 m2.
  assert (s_databases s !! "db" = Some db) as Hdb by by_computation.
  assert (db_policies db !! "raw" = Some p) as HA by by_computation.
  assert (db_policies db !! "hour" = None) as HB by by_computation.
  assert ("raw" ≠ "") as HAne by discriminate.
  assert ("hour" ≠ "") as HBne by discriminate.
  assert ("raw" ≠ "hour") as HAB by discriminate.
  do 2 (split; [reflexivity|]).
  split; [exact Hdb|]. split; [exact HA|]. split; [reflexivity|].
  split; [exact HB|].
  split; [exact HAne|]. split; [exact HBne|]. split; [exact HAB|].
  exact (updateRetentionPolicy_rename_round_trip s db p "db" "raw" "hour" m1 m2
           eq_refl eq_refl Hdb HA eq_refl HB HAne HBne HAB).
Defined.

(** C7, on a server that holds shard 12 and has subscribed to its topic:
    after a broadcast with index 5, a raw write on the topic of the shard
    with index 3 takes [s.index] from 5 down to 3. *)
Lemma processor_index_lowered_witness :
  ∃ s3,
    processor [exCreateMetrics 5] exOnce1000 = Returns exAfterBroadcast5
    ∧ is_Some (s_shards exAfterBroadcast5 !! m_TopicID exRawWrite3)
    ∧ s_path exAfterBroadcast5 ≠ ""
    ∧ (m_Index exRawWrite3 < s_index exAfterBroadcast5)%N
    ∧ process exRawWrite3 exAfterBroadcast5 = Returns s3
    ∧ (s_index exAfterBroadcast5, s_index s3) = (5%N, 3%N)
    ∧ (s_index s3 = m_Index exRawWrite3
       ∧ (s_index s3 < s_index exAfterBroadcast5)%N).
Proof.
  assert (s_path exAfterBroadcast5 ≠ "") as Hopen by done.
  assert (m_Index exRawWrite3 < s_index exAfterBroadcast5)%N as Hlow
    by by_computation.
  assert (∃ s3, process exRawWrite3 exAfterBroadcast5 = Returns s3
                ∧ (s_index exAfterBroadcast5, s_index s3) = (5%N, 3%N))
    as (s3 & Hrun & Hindices) by (eexists; split; by_computation).
  exists s3.
  split; [by_computation|]. split; [eexists; by_computation|].
  split; [exact Hopen|]. split; [exact Hlow|]. split; [exact Hrun|].
  split; [exact Hindices|].
  exact (processor_index_lowered exRawWrite3 exAfterBroadcast5 s3
           Hopen Hlow Hrun).
Defined.

(** Messages with the indices 3, 5, 5 and 8 leave the index where the
    order of their indices puts it. *)
Lemma processor_index_monotone_witness :
  let s := exEmpty false in
  let msgs := [exCreateMetrics 3; exCreateMetrics 5; exCreateMetrics 5;
               exCreateMetrics 8] in
  ∃ s2,
    Sorted N.le (s_index s :: (m_Index <$> msgs))
    ∧ msgs = [exCreateMetrics 3; exCreateMetrics 5]
             ++ exCreateMetrics 5 :: [exCreateMetrics 8]
    ∧ processor [exCreateMetrics 3; exCreateMetrics 5] s = Returns exAfter3and5
    ∧ process (exCreateMetrics 5) exAfter3and5 = Returns s2
    ∧ (s_index exAfter3and5 ≤ s_index s2)%N.
Proof.
  intros s msgs.
  assert (Sorted N.le (s_index s :: (m_Index <$> msgs))) as Hordered.
  { repeat constructor; vm_compute; discriminate. }
  assert (processor [exCreateMetrics 3; exCreateMetrics 5] s
          = Returns exAfter3and5) as Hpre by by_computation.
  assert (∃ s2, process (exCreateMetrics 5) exAfter3and5 = Returns s2)
    as [s2 Hstep] by (eexists; by_computation).
  exists s2.
  split; [exact Hordered|]. split; [reflexivity|]. split; [exact Hpre|].
  split; [exact Hstep|].
  exact (processor_index_monotone msgs
           [exCreateMetrics 3; exCreateMetrics 5] [exCreateMetrics 8]
           (exCreateMetrics 5) s exAfter3and5 s2 Hordered eq_refl Hpre Hstep).
Defined.

(** C8, on a query of four statements: the databases are listed, the series
    statement is skipped, the creation of a database that exists fails, and
    the statement that would drop the database is not executed. *)
Lemma ExecuteQuery_stops_at_first_error_witness :
  let pre := [ListDatabasesStatement; ListSeriesStatement] in
  let stmt := CreateDatabaseStatement "db" in
  let post := [DropDatabaseStatement "db"] in
  let rs := [Some (mkResult [mkRow ["Name"] [[CellString "db"]]] None); None] in
  let res := errResult (Some ErrDatabaseExists) in
  executeStatements pre "db" None exQueryServer = Returns (rs, exQueryServer)
  ∧ Forall (λ r, ∀ res0, r = Some res0 → res_Err res0 = None) rs
  ∧ executeStatement stmt "db" None exQueryServer = Returns (Some res, exAfterCreate)
  ∧ res_Err res = Some ErrDatabaseExists
  ∧ (let results := fillEmpty rs ++ res :: replicate (length post) notExecuted in
     ExecuteQuery (pre ++ stmt :: post) "db" None exQueryServer
     = Returns (results, exAfterCreate)
     ∧ length results = length (pre ++ stmt :: post)
     ∧ results !! length pre = Some res
     ∧ (∀ i : nat, (length pre < i < length (pre ++ stmt :: post))%nat →
          results !! i = Some notExecuted)
     ∧ (∀ i : nat, rs !! i = Some None → results !! i = Some notExecuted)
     ∧ (∀ q s0 results0 s0',
          ExecuteQuery q "db" None s0 = Returns (results0, s0') →
          length results0 = length q))
  ∧ is_Some (s_databases exAfterCreate !! "db").
Proof.
  intros pre stmt post rs res.
  assert (executeStatements pre "db" None exQueryServer
          = Returns (rs, exQueryServer)) as Hpre by by_computation.
  assert (Forall (λ r, ∀ res0, r = Some res0 → res_Err res0 = None) rs)
    as Hclean.
  { repeat constructor; intros res0 [= <-]; reflexivity. }
  assert (executeStatement stmt "db" None exQueryServer
          = Returns (Some res, exAfterCreate)) as Hstmt by by_computation.
  split; [exact Hpre|]. split; [exact Hclean|]. split; [exact Hstmt|].
  split; [reflexivity|].
  split; [|by eexists; by_computation].
  exact (ExecuteQuery_stops_at_first_error pre post stmt "db" None
           exQueryServer exQueryServer exAfterCreate rs res ErrDatabaseExists
           Hpre Hclean Hstmt eq_refl).
Defined.

(** C9, on a server with one data node and on a server with none. *)
Lemma createShardGroup_divisors_witness :
  (1 ≤ size (s_dataNodes (exGroupServer 1000)))%nat
  ∧ applyCreateShardGroupIfNotExists (exGroupMessage 1) (exGroupServer 1000)
    ≠ Panics DivideByZero
  ∧ size (s_dataNodes (exServer [] [exPolicy "rp" 1000 1] "rp" false)) = 0%nat
  ∧ applyCreateShardGroupIfNotExists
      (exGroupMessage 1) (exServer [] [exPolicy "rp" 1000 1] "rp" false)
    = Panics DivideByZero.
Proof.
  assert (1 ≤ size (s_dataNodes (exGroupServer 1000)))%nat as Hone
    by (vm_compute; lia).
  assert (size (s_dataNodes (exServer [] [exPolicy "rp" 1000 1] "rp" false))
          = 0%nat) as Hnone by by_computation.
  split; [exact Hone|].
  split.
  { exact (proj2 (proj2 (proj2
             (proj1 (createShardGroup_divisors (exGroupMessage 1)
                       (exGroupServer 1000)) Hone)))). }
  split; [exact Hnone|].
  refine (proj2 (proj2
            (proj2 (createShardGroup_divisors (exGroupMessage 1)
                      (exServer [] [exPolicy "rp" 1000 1] "rp" false)) Hnone))
            (exCreateShardGroup "rp" 100)
            (exDatabase [exPolicy "rp" 1000 1] "rp")
            (exPolicy "rp" 1000 1) eq_refl _ _ _); by_computation.
Defined.

End Runs.

(** * More of the server on concrete inputs *)

Section MoreRuns.
#[local] Existing Instance exForeign.
#[local] Existing Instance exCollaborators.
#[local] Existing Instance exLibraries.

Ltac by_computation := vm_compute; reflexivity.
Ltac by_decision :=
  try unfold dataNodes_keyed, dataNodes_unique, policies_keyed;
  match goal with |- ?P => apply (bool_decide_unpack P) end;
  vm_compute; exact I.

(** X1, on a closed server and two messages that create a database. *)
Lemma processor_drops_when_closed_witness :
  s_path exClosed = ""
  ∧ processor [exCreateMetrics 3; exCreateMetrics 5] exClosed
    = Returns exClosed.
Proof.
  assert (s_path exClosed = "") as Hclosed by reflexivity.
  split; [exact Hclosed|].
  exact (processor_drops_when_closed
           [exCreateMetrics 3; exCreateMetrics 5] exClosed Hclosed).
Defined.

(** X2, on an open server without databases: after [Close] the client is
    still there, the command that creates ["metrics"] is published under
    index 1, and the wait for it never ends. *)
Lemma command_after_Close_blocks_witness :
  let typ := createDatabaseMessageType in
  let s := exEmpty false in
  let cl := exClient in
  s_path s ≠ ""
  ∧ s_client s = Some cl
  ∧ marshal_fault exMetrics = None
  ∧ publish_fault (mkMessage typ BroadcastTopicID 0%N exMetrics) cl = None
  ∧ (s_index s ≤ c_index cl)%N
  ∧ (let index := (c_index cl + 1)%N in
     let m := mkMessage typ BroadcastTopicID index exMetrics in
     let cl' := mkClient index (c_chan cl ++ [m]) (c_published cl ++ [m])
                         (c_subscriptions cl) in
     ∃ s', Close s = (None, s')
           ∧ s_path s' = ""
           ∧ s_client s' = Some cl
           ∧ Publish (mkMessage typ BroadcastTopicID 0%N exMetrics) cl
             = (inr index, cl')
           ∧ Sync index (set_client (Some cl') s') = Blocks
           ∧ command typ exMetrics s' = Blocks).
Proof.
  intros typ s cl.
  assert (s_path s ≠ "") as Hopen by done.
  assert (s_client s = Some cl) as Hclient by reflexivity.
  assert (marshal_fault exMetrics = None) as Hmarshal by reflexivity.
  assert (publish_fault (mkMessage typ BroadcastTopicID 0%N exMetrics) cl
          = None) as Haccepted by reflexivity.
  assert (s_index s ≤ c_index cl)%N as Hindex by (vm_compute; discriminate).
  split; [exact Hopen|]. split; [exact Hclient|]. split; [exact Hmarshal|].
  split; [exact Haccepted|]. split; [exact Hindex|].
  exact (command_after_Close_blocks typ exMetrics s cl
           Hopen Hclient Hmarshal Haccepted Hindex).
Defined.


(** X4, on the handler of a message that creates a database. *)
Lemma handlers_leave_the_log_alone_witness :
  let m := exCreateMetrics 3 in
  let s := exEmpty false in
  ∃ err s',
    dispatch m s = Returns (err, s')
    ∧ (s_index s' = s_index s
       ∧ s_errors s' = s_errors s
       ∧ s_path s' = s_path s
       ∧ published s' = published s
       ∧ channel s' = channel s
       ∧ (c_index <$> s_client s') = (c_index <$> s_client s)).
Proof.
  intros m s.
  assert (∃ err s', dispatch m s = Returns (err, s')) as (err & s' & Hrun)
    by (eexists _, _; by_computation).
  exists err, s'. split; [exact Hrun|].
  exact (handlers_leave_the_log_alone m s s' err Hrun).
Defined.

(** X5, on a server with the data nodes 1 and 2 and a message that creates
    a third. *)
Lemma dataNode_handlers_keep_invariants_witness :
  let m := exCreateNode "http://node9" 4 in
  let s := exServer [1; 2]%N [] "" false in
  ∃ err s',
    (applyCreateDataNode = applyCreateDataNode
     ∨ applyCreateDataNode = applyDeleteDataNode)
    ∧ dataNodes_keyed s
    ∧ dataNodes_unique s
    ∧ applyCreateDataNode m s = Returns (err, s')
    ∧ (dataNodes_keyed s' ∧ dataNodes_unique s').
Proof.
  intros m s.
  assert (applyCreateDataNode = applyCreateDataNode
     ∨ applyCreateDataNode = applyDeleteDataNode)
    as Hhandler by (left; reflexivity).
  assert (dataNodes_keyed s) as Hkeyed by by_decision.
  assert (dataNodes_unique s) as Hunique by by_decision.
  assert (∃ err s', applyCreateDataNode m s = Returns (err, s')) as (err & s' & Hrun)
    by (eexists _, _; by_computation).
  exists err, s'.
  split; [exact Hhandler|]. split; [exact Hkeyed|]. split; [exact Hunique|].
  split; [exact Hrun|].
  exact (dataNode_handlers_keep_invariants applyCreateDataNode m s s' err
           Hhandler Hkeyed Hunique Hrun).
Defined.

(** X6, on a server with the data nodes 1 and 2: the second message for
    ["http://a"] is refused. *)
Lemma createDataNode_twice_witness :
  let m1 := exCreateNode "http://a" 1 in
  let m2 := exCreateNode "http://a" 2 in
  let c := {| cdn_URL := "http://a" |} in
  let s := exServer [1; 2]%N [] "" false in
  ∃ err s1,
    m_Data m1 = DataCreateDataNode c
    ∧ m_Data m2 = DataCreateDataNode c
    ∧ cdn_URL c ≠ ""
    ∧ url_nil (url_Parse (cdn_URL c)) = false
    ∧ ¬ Exists (λ n, url_String (dn_URL n)
                     = url_String (url_Parse (cdn_URL c)))
               (dataNodeList s)
    ∧ applyCreateDataNode m1 s = Returns (err, s1)
    ∧ ((∃ k n, s_dataNodes s1 !! k = Some n ∧ dn_ID n = k
               ∧ dn_URL n = url_Parse (cdn_URL c))
       ∧ s_dataNodes s1
         = <[(nextDataNodeID (s_meta s)).1 :=
               mkDataNode (nextDataNodeID (s_meta s)).1
                          (url_Parse (cdn_URL c))]> (s_dataNodes s)
       ∧ applyCreateDataNode m2 s1 = Returns (Some ErrDataNodeExists, s1)).
Proof.
  intros m1 m2 c s.
  assert (m_Data m1 = DataCreateDataNode c) as Hm1 by reflexivity.
  assert (m_Data m2 = DataCreateDataNode c) as Hm2 by reflexivity.
  assert (cdn_URL c ≠ "") as Hurl by done.
  assert (url_nil (url_Parse (cdn_URL c)) = false) as Hparses
    by by_computation.
  assert (¬ Exists (λ n, url_String (dn_URL n)
                         = url_String (url_Parse (cdn_URL c)))
                   (dataNodeList s)) as Hnew by by_decision.
  assert (∃ err s1, applyCreateDataNode m1 s = Returns (err, s1))
    as (err & s1 & Hfirst) by (eexists _, _; by_computation).
  exists err, s1.
  split; [exact Hm1|]. split; [exact Hm2|]. split; [exact Hurl|].
  split; [exact Hparses|]. split; [exact Hnew|]. split; [exact Hfirst|].
  exact (createDataNode_twice m1 m2 c s s1 err
           Hm1 Hm2 Hurl Hparses Hnew Hfirst).
Defined.

(** X8, on the rename of policy ["raw"] of a database with the policies
    ["raw"] and ["week"]. *)
Lemma policy_handlers_keep_names_witness :
  let m := exMessage updateRetentionPolicyMessageType BroadcastTopicID 1
                     (exRename "raw" "hour") in
  let s := exRenameServer in
  ∃ err s',
    applyUpdateRetentionPolicy ∈ [applyCreateDatabase; applyDeleteDatabase;
               applyCreateRetentionPolicy; applyUpdateRetentionPolicy;
               applyDeleteRetentionPolicy; applySetDefaultRetentionPolicy;
               applyCreateShardGroupIfNotExists]
    ∧ policies_keyed s
    ∧ applyUpdateRetentionPolicy m s = Returns (err, s')
    ∧ policies_keyed s'.
Proof.
  intros m s.
  assert (applyUpdateRetentionPolicy ∈ [applyCreateDatabase; applyDeleteDatabase;
                     applyCreateRetentionPolicy; applyUpdateRetentionPolicy;
                     applyDeleteRetentionPolicy; applySetDefaultRetentionPolicy;
                     applyCreateShardGroupIfNotExists]) as Hhandler
    by (do 3 apply list_elem_of_further; apply list_elem_of_here).
  assert (policies_keyed s) as Hkeyed by by_decision.
  assert (∃ err s', applyUpdateRetentionPolicy m s = Returns (err, s')) as (err & s' & Hrun)
    by (eexists _, _; by_computation).
  exists err, s'.
  split; [exact Hhandler|]. split; [exact Hkeyed|]. split; [exact Hrun|].
  exact (policy_handlers_keep_names applyUpdateRetentionPolicy m s s' err Hhandler Hkeyed Hrun).
Defined.

(** X9, on the same rename. *)
Lemma updateRetentionPolicy_changes_names_only_witness :
  let m := exMessage updateRetentionPolicyMessageType BroadcastTopicID 1
                     (exRename "raw" "hour") in
  let s := exRenameServer in
  ∃ err s',
    applyUpdateRetentionPolicy m s = Returns (err, s')
    ∧ ∀ d db' k p',
        s_databases s' !! d = Some db' → db_policies db' !! k = Some p' →
        ∃ db k0 p0,
          s_databases s !! d = Some db
          ∧ db_policies db !! k0 = Some p0
          ∧ rp_Duration p' = rp_Duration p0
          ∧ rp_ReplicaN p' = rp_ReplicaN p0
          ∧ rp_SplitN p' = rp_SplitN p0
          ∧ rp_shardGroups p' = rp_shardGroups p0.
Proof.
  intros m s.
  assert (∃ err s', applyUpdateRetentionPolicy m s = Returns (err, s'))
    as (err & s' & Hrun) by (eexists _, _; by_computation).
  exists err, s'. split; [exact Hrun|].
  exact (updateRetentionPolicy_changes_names_only m s s' err Hrun).
Defined.

(** X10, on the default policy ["raw"] of a database with the policies
    ["raw"] and ["week"]. *)
Lemma deleteRetentionPolicy_leaves_default_dangling_witness :
  let c := {| drp_Database := "db"; drp_Name := "raw" |} in
  let m := exMessage deleteRetentionPolicyMessageType BroadcastTopicID 1
                     (DataDeleteRetentionPolicy c) in
  let s := exRenameServer in
  let db := exRenameDatabase in
  let p := exPolicy "raw" 1000 1 in
  m_Data m = DataDeleteRetentionPolicy c
  ∧ s_databases s !! drp_Database c = Some db
  ∧ db_policies db !! drp_Name c = Some p
  ∧ drp_Name c ≠ ""
  ∧ db_defaultRetentionPolicy db = drp_Name c
  ∧ ∃ err s' db',
      applyDeleteRetentionPolicy m s = Returns (err, s')
      ∧ s_databases s' !! drp_Database c = Some db'
      ∧ db_defaultRetentionPolicy db' = drp_Name c
      ∧ db_policies db' !! drp_Name c = None
      ∧ DefaultRetentionPolicy s' (drp_Database c) = (None, None).
Proof.
  intros c m s db p.
  assert (m_Data m = DataDeleteRetentionPolicy c) as Hm by reflexivity.
  assert (s_databases s !! drp_Database c = Some db) as Hdb by by_computation.
  assert (db_policies db !! drp_Name c = Some p) as Hp by by_computation.
  assert (drp_Name c ≠ "") as Hname by done.
  assert (db_defaultRetentionPolicy db = drp_Name c) as Hdefault
    by reflexivity.
  split; [exact Hm|]. split; [exact Hdb|]. split; [exact Hp|].
  split; [exact Hname|]. split; [exact Hdefault|].
  exact (deleteRetentionPolicy_leaves_default_dangling m c s db p
           Hm Hdb Hp Hname Hdefault).
Defined.

(** X11, on a metastore whose writes fail. *)
Lemma createRetentionPolicy_drops_metastore_error_witness :
  let c := {| crp_Database := "db"; crp_Name := "rp"; crp_Duration := 1000;
              crp_ReplicaN := 1%N; crp_SplitN := 0%N |} in
  let m := exMessage createRetentionPolicyMessageType BroadcastTopicID 1
                     (DataCreateRetentionPolicy c) in
  let s := exServer [1]%N [] "" true in
  let db := exDatabase [] "" in
  m_Data m = DataCreateRetentionPolicy c
  ∧ s_databases s !! crp_Database c = Some db
  ∧ crp_Name c ≠ ""
  ∧ db_policies db !! crp_Name c = None
  ∧ (∃ e tx, saveDatabase db (s_meta s) = (Some e, tx))
  ∧ ∃ s' db',
      applyCreateRetentionPolicy m s = Returns (None, s')
      ∧ s_databases s' !! crp_Database c = Some db'
      ∧ db_policies db' !! crp_Name c
        = Some (mkRetentionPolicy (crp_Name c) (crp_Duration c)
                                  (crp_ReplicaN c) 0%N [])
      ∧ (∀ e tx, saveDatabase db' (s_meta s) = (Some e, tx) →
           s_meta s' = s_meta s).
Proof.
  intros c m s db.
  assert (m_Data m = DataCreateRetentionPolicy c) as Hm by reflexivity.
  assert (s_databases s !! crp_Database c = Some db) as Hdb by by_computation.
  assert (crp_Name c ≠ "") as Hname by done.
  assert (db_policies db !! crp_Name c = None) as Hfree by by_computation.
  split; [exact Hm|]. split; [exact Hdb|]. split; [exact Hname|].
  split; [exact Hfree|]. split; [eexists _, _; by_computation|].
  exact (createRetentionPolicy_drops_metastore_error m c s db
           Hm Hdb Hname Hfree).
Defined.

(** X12, on a metastore whose writes fail. *)
Lemma deleteUser_drops_metastore_error_witness :
  let c := {| du_Username := "ann" |} in
  let m := exMessage deleteUserMessageType BroadcastTopicID 1
                     (DataDeleteUser c) in
  let s := exUserServer true in
  let u := mkUser "ann" "secret" true in
  m_Data m = DataDeleteUser c
  ∧ du_Username c ≠ ""
  ∧ s_users s !! du_Username c = Some u
  ∧ (∃ e tx, deleteUser (du_Username c) (s_meta s) = (Some e, tx))
  ∧ ∃ s',
      applyDeleteUser m s = Returns (None, s')
      ∧ s_users s' = delete (du_Username c) (s_users s)
      ∧ (∀ password,
           Authenticate s' (du_Username c) password
           = (None, Some (Errorf "user not found")))
      ∧ (∀ e tx, deleteUser (du_Username c) (s_meta s) = (Some e, tx) →
           s_meta s' = s_meta s).
Proof.
  intros c m s u.
  assert (m_Data m = DataDeleteUser c) as Hm by reflexivity.
  assert (du_Username c ≠ "") as Hname by done.
  assert (s_users s !! du_Username c = Some u) as Hu by by_computation.
  split; [exact Hm|]. split; [exact Hname|]. split; [exact Hu|].
  split; [eexists _, _; by_computation|].
  exact (deleteUser_drops_metastore_error m c s u Hm Hname Hu).
Defined.

(** X13, on a server without databases. *)
Lemma createDatabase_deleteDatabase_witness :
  let m1 := exCreateMetrics 1 in
  let m2 := exMessage deleteDatabaseMessageType BroadcastTopicID 2
                      (DataDeleteDatabase {| ddb_Name := "metrics" |}) in
  let s := exEmpty false in
  m_Data m1 = DataCreateDatabase {| cdb_Name := "metrics" |}
  ∧ m_Data m2 = DataDeleteDatabase {| ddb_Name := "metrics" |}
  ∧ s_databases s !! "metrics" = None
  ∧ ∃ err1 s1 err2 s2,
      applyCreateDatabase m1 s = Returns (err1, s1)
      ∧ s_databases s1 !! "metrics" = Some (mkDatabase "metrics" ∅ "" ∅ [])
      ∧ applyDeleteDatabase m2 s1 = Returns (err2, s2)
      ∧ s_databases s2 = s_databases s.
Proof.
  intros m1 m2 s.
  assert (m_Data m1 = DataCreateDatabase {| cdb_Name := "metrics" |}) as Hm1
    by reflexivity.
  assert (m_Data m2 = DataDeleteDatabase {| ddb_Name := "metrics" |}) as Hm2
    by reflexivity.
  assert (s_databases s !! "metrics" = None) as Hfree by by_computation.
  split; [exact Hm1|]. split; [exact Hm2|]. split; [exact Hfree|].
  exact (createDatabase_deleteDatabase m1 m2 "metrics" s Hm1 Hm2 Hfree).
Defined.

(** X14, on three data nodes and two replicas: the shard of the new group
    is on nodes 1 and 2, this server, node 1, has opened it, and it is the
    shard registered under identifier 12. *)
Lemma createShardGroup_opens_local_shards_witness :
  let m := exPlacementMessage in
  let c := exCreateShardGroup "rp" 100 in
  let s := exPlacementServer in
  let s' := exAfterPlacement in
  let db := exDatabase [exPolicy "rp" 1000 2] "rp" in
  let rp := exPolicy "rp" 1000 2 in
  m_Data m = DataCreateShardGroupIfNotExists c
  ∧ s_databases s !! csg_Database c = Some db
  ∧ db_policies db !! csg_Policy c = Some rp
  ∧ rp_shardGroupByTimestamp rp (csg_Timestamp c) = None
  ∧ applyCreateShardGroupIfNotExists m s = Returns (None, s')
  ∧ (λ g, (λ sh, (sh_ID sh, sh_DataNodeIDs sh, sh_store sh)) <$> g_Shards g)
      <$> exGroups "rp" s'
    = [[(12%N, [1; 2]%N, Some "/var/influxdb/shards/12")]]
  ∧ s_shards s' !! 12%N
    = Some (mkShard 12 [1; 2]%N (Some "/var/influxdb/shards/12"))
  ∧ ∃ db' rp' g,
      s_databases s' !! csg_Database c = Some db'
      ∧ db_policies db' !! csg_Policy c = Some rp'
      ∧ rp_shardGroups rp' = rp_shardGroups rp ++ [g]
      ∧ (∀ id, id ∉ sh_ID <$> g_Shards g →
           s_shards s' !! id = s_shards s !! id)
      ∧ ∀ sh, sh ∈ g_Shards g →
          is_Some (s_shards s' !! sh_ID sh)
          ∧ (NoDup (sh_ID <$> g_Shards g) →
             s_shards s' !! sh_ID sh = Some sh)
          ∧ (s_id s ∈ sh_DataNodeIDs sh ↔ is_Some (sh_store sh))
          ∧ (∀ st, sh_store sh = Some st →
               shard_open (shardPath s (sh_ID sh)) (set_store None sh)
               = inr st)
          ∧ ((∀ r t cl, subscribe_fault r t cl = None) →
             s_id s ∈ sh_DataNodeIDs sh →
             ∃ cl', s_client s' = Some cl'
                    ∧ (s_id s, sh_ID sh) ∈ c_subscriptions cl').
Proof.
  intros m c s s' db rp.
  assert (m_Data m = DataCreateShardGroupIfNotExists c) as Hm by reflexivity.
  assert (s_databases s !! csg_Database c = Some db) as Hdb by by_computation.
  assert (db_policies db !! csg_Policy c = Some rp) as Hrp by by_computation.
  assert (rp_shardGroupByTimestamp rp (csg_Timestamp c) = None) as Hnone
    by by_computation.
  assert (applyCreateShardGroupIfNotExists m s = Returns (None, s')) as Hrun
    by by_computation.
  split; [exact Hm|]. split; [exact Hdb|]. split; [exact Hrp|].
  split; [exact Hnone|]. split; [exact Hrun|]. split; [by_computation|].
  split; [by_computation|].
  exact (createShardGroup_opens_local_shards m c s s' db rp
           Hm Hdb Hrp Hnone Hrun).
Defined.

(** X15, on the same group. *)
Lemma createShardGroup_replicas_on_distinct_nodes_witness :
  let m := exPlacementMessage in
  let c := exCreateShardGroup "rp" 100 in
  let s := exPlacementServer in
  let s' := exAfterPlacement in
  let db := exDatabase [exPolicy "rp" 1000 2] "rp" in
  let rp := exPolicy "rp" 1000 2 in
  m_Data m = DataCreateShardGroupIfNotExists c
  ∧ s_databases s !! csg_Database c = Some db
  ∧ db_policies db !! csg_Policy c = Some rp
  ∧ rp_shardGroupByTimestamp rp (csg_Timestamp c) = None
  ∧ dataNodes_keyed s
  ∧ applyCreateShardGroupIfNotExists m s = Returns (None, s')
  ∧ ∃ db' rp' g,
      s_databases s' !! csg_Database c = Some db'
      ∧ db_policies db' !! csg_Policy c = Some rp'
      ∧ rp_shardGroups rp' = rp_shardGroups rp ++ [g]
      ∧ NoDup (concat (sh_DataNodeIDs <$> g_Shards g))
      ∧ ∀ id, id ∈ concat (sh_DataNodeIDs <$> g_Shards g) →
          ∃ node, s_dataNodes s !! id = Some node ∧ dn_ID node = id.
Proof.
  intros m c s s' db rp.
  assert (m_Data m = DataCreateShardGroupIfNotExists c) as Hm by reflexivity.
  assert (s_databases s !! csg_Database c = Some db) as Hdb by by_computation.
  assert (db_policies db !! csg_Policy c = Some rp) as Hrp by by_computation.
  assert (rp_shardGroupByTimestamp rp (csg_Timestamp c) = None) as Hnone
    by by_computation.
  assert (dataNodes_keyed s) as Hkeyed by by_decision.
  assert (applyCreateShardGroupIfNotExists m s = Returns (None, s')) as Hrun
    by by_computation.
  split; [exact Hm|]. split; [exact Hdb|]. split; [exact Hrp|].
  split; [exact Hnone|]. split; [exact Hkeyed|]. split; [exact Hrun|].
  exact (createShardGroup_replicas_on_distinct_nodes m c s s' db rp
           Hm Hdb Hrp Hnone Hkeyed Hrun).
Defined.

(** X16, on a point with one value: after the two broadcasts of the
    lookups the write is published under index 3 on topic 13, the shard of
    the new group; its timestamp is that of the point, 100 nanoseconds
    after the zero time, counted in nanoseconds from 1970 and wrapped to
    an [int64]. *)
Lemma WriteSeries_with_values_witness :
  let pt := exPointWithValue in
  let cl := exAfterGroupClient in
  let cmd :=
    DataWriteSeries {| ws_Database := "db";
                       ws_Measurement := pt_Name pt;
                       ws_SeriesID := 11%N;
                       ws_Timestamp := UnixNano (pt_Timestamp pt);
                       ws_Values := pt_Values pt |} in
  ∃ mm g sh,
    pt_Values pt ≠ []
    ∧ createSeriesIfNotExists "db" (pt_Name pt) (pt_Tags pt) exWriteServer
      = Returns (11%N, None, exAfterSeries)
    ∧ (if decide ("" = "")
       then ∃ rp, DefaultRetentionPolicy exAfterSeries "db" = (Some rp, None)
                  ∧ rp_Name rp = "rp"
       else "rp" = "")
    ∧ measurement exAfterSeries "db" (pt_Name pt) = (Some mm, None)
    ∧ createShardGroupIfNotExists "db" "rp" (pt_Timestamp pt) exAfterSeries
      = Returns (Some g, None, exAfterGroup)
    ∧ ShardBySeriesID g 11%N = Returns sh
    ∧ s_client exAfterGroup = Some cl
    ∧ (∀ m, publish_fault m cl = None)
    ∧ (sh_ID sh, c_index cl) = (13%N, 2%N)
    ∧ UnixNano (pt_Timestamp pt) = -6795364578871345052
    ∧ (mapValues mm (pt_Values pt) = None → marshal_fault cmd = None)
    ∧ ((mapValues mm (pt_Values pt) = None → is_Some (marshal_fault cmd) →
        WriteSeries "db" "" [pt] exWriteServer = Panics MarshalFailure)
       ∧ ((mapValues mm (pt_Values pt) = None → marshal_fault cmd = None) →
          ∃ m s3,
            WriteSeries "db" "" [pt] exWriteServer
            = Returns (m_Index m, None, s3)
            ∧ published s3 = published exAfterGroup ++ [m]
            ∧ m_Index m = (c_index cl + 1)%N
            ∧ m_TopicID m = sh_ID sh
            ∧ (match mapValues mm (pt_Values pt) with
               | Some rawValues =>
                 m_Type m = writeRawSeriesMessageType
                 ∧ m_Data m
                   = DataRaw (marshalPointHeader 11%N
                                (UnixNano (pt_Timestamp pt))
                              ++ marshalValues rawValues)
               | None =>
                 m_Type m = writeSeriesMessageType ∧ m_Data m = cmd
               end)
            ∧ s_index s3 = s_index exAfterGroup
            ∧ s_errors s3 = s_errors exAfterGroup
            ∧ s_shards s3 = s_shards exAfterGroup
            ∧ s_databases s3 = s_databases exAfterGroup
            ∧ channel s3 = (if delivered (sh_ID sh) cl
                            then channel exAfterGroup ++ [m]
                            else channel exAfterGroup))).
Proof.
  intros pt cl cmd.
  assert (pt_Values pt ≠ []) as Hvalues by done.
  assert (createSeriesIfNotExists "db" (pt_Name pt) (pt_Tags pt) exWriteServer
          = Returns (11%N, None, exAfterSeries)) as Hseries by by_computation.
  assert (∃ rp, DefaultRetentionPolicy exAfterSeries "db" = (Some rp, None)
                ∧ rp_Name rp = "rp") as Hdefault
    by (eexists; split; by_computation).
  assert (∃ mm, measurement exAfterSeries "db" (pt_Name pt)
                = (Some mm, None)) as [mm Hmeasurement]
    by (eexists; by_computation).
  assert (∃ g, createShardGroupIfNotExists "db" "rp" (pt_Timestamp pt)
                                           exAfterSeries
               = Returns (Some g, None, exAfterGroup)
               ∧ ∃ sh, ShardBySeriesID g 11%N = Returns sh
                       ∧ (sh_ID sh, c_index cl) = (13%N, 2%N))
    as (g & Hgroup & sh & Hshard & Hids)
    by (eexists; split; [by_computation | eexists; split; by_computation]).
  assert (s_client exAfterGroup = Some cl) as Hclient by by_computation.
  assert (∀ m, publish_fault m cl = None) as Haccepted by reflexivity.
  exists mm, g, sh.
  split; [exact Hvalues|]. split; [exact Hseries|]. split; [exact Hdefault|].
  split; [exact Hmeasurement|]. split; [exact Hgroup|]. split; [exact Hshard|].
  split; [exact Hclient|]. split; [exact Haccepted|]. split; [exact Hids|].
  split; [by_computation|]. split; [reflexivity|].
  exact (WriteSeries_with_values "db" "" "rp" pt exWriteServer
           exAfterSeries exAfterGroup 11%N mm g sh cl
           Hvalues Hseries Hdefault Hmeasurement Hgroup Hshard Hclient
           Haccepted).
Defined.

(** X17, on a raw write for shard 12 of a server that has this shard
    only. *)
Lemma write_handlers_touch_one_shard_witness :
  let m := exRawWrite in
  let s := exOnce1000 in
  ∃ err s',
    (applyWriteRawSeries = applyWriteSeries
     ∨ applyWriteRawSeries = applyWriteRawSeries)
    ∧ applyWriteRawSeries m s = Returns (err, s')
    ∧ is_Some (s_shards s !! m_TopicID m)
    ∧ ((∀ id, id ≠ m_TopicID m → s_shards s' !! id = s_shards s !! id)
       ∧ (∀ id, is_Some (s_shards s' !! id) ↔ is_Some (s_shards s !! id))
       ∧ s_dataNodes s' = s_dataNodes s
       ∧ s_users s' = s_users s
       ∧ (∀ d, db_policies <$> s_databases s' !! d
               = db_policies <$> s_databases s !! d)).
Proof.
  intros m s.
  assert (applyWriteRawSeries = applyWriteSeries
     ∨ applyWriteRawSeries = applyWriteRawSeries)
    as Hhandler by (right; reflexivity).
  assert (∃ err s', applyWriteRawSeries m s = Returns (err, s')) as (err & s' & Hrun)
    by (eexists _, _; by_computation).
  exists err, s'.
  split; [exact Hhandler|]. split; [exact Hrun|].
  split; [eexists; by_computation|].
  exact (write_handlers_touch_one_shard applyWriteRawSeries m s s' err Hhandler Hrun).
Defined.

(** X18, on a server that has applied index 7 and holds an error under
    index 5. *)
Lemma Sync_reports_error_once_witness :
  ∃ s',
    Sync 5 exSyncServer = Returns (Some ErrDatabaseExists, s')
    ∧ (s_errors s' !! 5%N = None
       ∧ Sync 5 s' = Returns (None, s')).
Proof.
  assert (∃ s', Sync 5 exSyncServer = Returns (Some ErrDatabaseExists, s'))
    as [s' Hrun] by (eexists; by_computation).
  exists s'. split; [exact Hrun|].
  exact (Sync_reports_error_once 5 exSyncServer s' ErrDatabaseExists Hrun).
Defined.

(** X19, on a query that lists the databases and then grants a
    privilege: the first statement succeeds, the second is answered with
    [ErrNotExecuted]. *)
Lemma ExecuteQuery_skipped_statement_witness :
  let q := [ListDatabasesStatement; GrantStatement] in
  ∃ results s',
    q !! 1%nat = Some GrantStatement
    ∧ skipped GrantStatement = true
    ∧ ExecuteQuery q "db" None exQueryServer = Returns (results, s')
    ∧ res_Err <$> results = [None; Some ErrNotExecuted]
    ∧ (results !! 1%nat = Some notExecuted
       ∧ is_Some (Results_Error results)).
Proof.
  intros q.
  assert (q !! 1%nat = Some GrantStatement) as Hstmt by reflexivity.
  assert (skipped GrantStatement = true) as Hskipped by reflexivity.
  assert (∃ results s',
            ExecuteQuery q "db" None exQueryServer = Returns (results, s')
            ∧ res_Err <$> results = [None; Some ErrNotExecuted])
    as (results & s' & Hrun & Herrs)
    by (eexists _, _; split; by_computation).
  exists results, s'.
  split; [exact Hstmt|]. split; [exact Hskipped|]. split; [exact Hrun|].
  split; [exact Herrs|].
  exact (ExecuteQuery_skipped_statement q "db" None exQueryServer s' results
           1 GrantStatement Hstmt Hskipped Hrun).
Defined.

(** X20, on a metastore whose writes fail: the handler returns the error
    of the metastore, and the user is authenticated all the same. *)
Lemma Authenticate_after_createUser_witness :
  let c := {| cu_Username := "ann"; cu_Password := "secret";
              cu_Admin := true |} in
  let m := exMessage createUserMessageType BroadcastTopicID 1
                     (DataCreateUser c) in
  let s := exEmpty true in
  ∃ s',
    m_Data m = DataCreateUser c
    ∧ cu_Username c ≠ ""
    ∧ s_users s !! cu_Username c = None
    ∧ HashPassword (cu_Password c) = inr "secret"
    ∧ CompareHashAndPassword "secret" (cu_Password c) = None
    ∧ applyCreateUser m s
      = Returns (Some (Errorf "metastore: write failed"), s')
    ∧ (Authenticate s' (cu_Username c) (cu_Password c)
       = (Some (mkUser (cu_Username c) "secret" (cu_Admin c)), None)
       ∧ ∀ name password, name ≠ cu_Username c →
           Authenticate s' name password = Authenticate s name password).
Proof.
  intros c m s.
  assert (m_Data m = DataCreateUser c) as Hm by reflexivity.
  assert (cu_Username c ≠ "") as Hname by done.
  assert (s_users s !! cu_Username c = None) as Hfree by by_computation.
  assert (HashPassword (cu_Password c) = inr "secret") as Hhash
    by reflexivity.
  assert (CompareHashAndPassword "secret" (cu_Password c) = None)
    as Hverifies by by_computation.
  assert (∃ s', applyCreateUser m s
                = Returns (Some (Errorf "metastore: write failed"), s'))
    as [s' Hrun] by (eexists; by_computation).
  exists s'.
  split; [exact Hm|]. split; [exact Hname|]. split; [exact Hfree|].
  split; [exact Hhash|]. split; [exact Hverifies|]. split; [exact Hrun|].
  exact (Authenticate_after_createUser m c s s' "secret" _
           Hm Hname Hfree Hhash Hverifies Hrun).
Defined.

(** X21, on an update of user ["ann"] without a password. *)
Lemma updateUser_keeps_hash_witness :
  let c := {| uu_Username := "ann"; uu_Password := "" |} in
  let m := exMessage updateUserMessageType BroadcastTopicID 1
                     (DataUpdateUser c) in
  let s := exUserServer false in
  ∃ err s',
    m_Data m = DataUpdateUser c
    ∧ (uu_Password c = "" ∨ ∃ e, HashPassword (uu_Password c) = inl e)
    ∧ applyUpdateUser m s = Returns (err, s')
    ∧ (s_users s' = s_users s
       ∧ ∀ name password,
           Authenticate s' name password = Authenticate s name password).
Proof.
  intros c m s.
  assert (m_Data m = DataUpdateUser c) as Hm by reflexivity.
  assert (uu_Password c = "" ∨ ∃ e, HashPassword (uu_Password c) = inl e)
    as Hkeep by (left; reflexivity).
  assert (∃ err s', applyUpdateUser m s = Returns (err, s'))
    as (err & s' & Hrun) by (eexists _, _; by_computation).
  exists err, s'.
  split; [exact Hm|]. split; [exact Hkeep|]. split; [exact Hrun|].
  exact (updateUser_keeps_hash m c s s' err Hm Hkeep Hrun).
Defined.

(** X22, on the name ["week.cpu"] with the default database ["db"], whose
    default policy is ["raw"]: the database is the default one, the policy
    is the one the name gives. *)
Lemma normalizeMeasurement_sound_witness :
  let s := exRenameServer in
  normalizeMeasurement s "week.cpu" "db" = ("db.week.cpu", None)
  ∧ ∃ segments d p n db,
      SplitIdent "week.cpu" = inr segments
      ∧ (1 ≤ length segments ≤ 3)%nat
      ∧ last segments = Some n
      ∧ "db.week.cpu" = QuoteIdent [d; p; n]
      ∧ s_databases s !! d = Some db
      ∧ is_Some (db_policies db !! p)
      ∧ p ≠ ""
      ∧ d = (match segments with
             | [d0; _; _] => if decide (d0 = "") then "db" else d0
             | _ => "db"
             end)
      ∧ p = (match segments with
             | [_; p0; _] | [p0; _] =>
               if decide (p0 = "") then db_defaultRetentionPolicy db else p0
             | _ => db_defaultRetentionPolicy db
             end).
Proof.
  intros s.
  assert (normalizeMeasurement s "week.cpu" "db" = ("db.week.cpu", None))
    as Hrun by by_computation.
  split; [exact Hrun|].
  exact (normalizeMeasurement_sound s "week.cpu" "db" "db.week.cpu" None Hrun).
Defined.

(** X23, on a metastore whose writes fail: ["week"] is the default policy
    after the handler has returned the error of the metastore. *)
Lemma setDefaultRetentionPolicy_then_default_witness :
  let c := {| sdrp_Database := "db"; sdrp_Name := "week" |} in
  let m := exMessage setDefaultRetentionPolicyMessageType BroadcastTopicID 1
                     (DataSetDefaultRetentionPolicy c) in
  let s := exServer [1]%N [exPolicy "raw" 1000 1; exPolicy "week" 7000 1]
                    "raw" true in
  let db := exRenameDatabase in
  let p := exPolicy "week" 7000 1 in
  ∃ s',
    m_Data m = DataSetDefaultRetentionPolicy c
    ∧ s_databases s !! sdrp_Database c = Some db
    ∧ db_policies db !! sdrp_Name c = Some p
    ∧ applySetDefaultRetentionPolicy m s
      = Returns (Some (Errorf "metastore: write failed"), s')
    ∧ (DefaultRetentionPolicy s' (sdrp_Database c) = (Some p, None)
       ∧ ∃ db', s_databases s' !! sdrp_Database c = Some db'
                ∧ db_defaultRetentionPolicy db' = sdrp_Name c
                ∧ db_policies db' = db_policies db).
Proof.
  intros c m s db p.
  assert (m_Data m = DataSetDefaultRetentionPolicy c) as Hm by reflexivity.
  assert (s_databases s !! sdrp_Database c = Some db) as Hdb
    by by_computation.
  assert (db_policies db !! sdrp_Name c = Some p) as Hp by by_computation.
  assert (∃ s', applySetDefaultRetentionPolicy m s
                = Returns (Some (Errorf "metastore: write failed"), s'))
    as [s' Hrun] by (eexists; by_computation).
  exists s'.
  split; [exact Hm|]. split; [exact Hdb|]. split; [exact Hp|].
  split; [exact Hrun|].
  exact (setDefaultRetentionPolicy_then_default m c s s' db p _
           Hm Hdb Hp Hrun).
Defined.

(** X24, on a message of type [0xFF]. *)
Lemma unknown_message_type_is_acknowledged_witness :
  let m := exMessage 0xFF%N BroadcastTopicID 9 exMetrics in
  let s := exEmpty false in
  s_path s ≠ ""
  ∧ (m_Type m ∉ [writeSeriesMessageType; writeRawSeriesMessageType;
                 createDataNodeMessageType; deleteDataNodeMessageType;
                 createDatabaseMessageType; deleteDatabaseMessageType;
                 createUserMessageType; updateUserMessageType;
                 deleteUserMessageType; createRetentionPolicyMessageType;
                 updateRetentionPolicyMessageType;
                 deleteRetentionPolicyMessageType;
                 createShardGroupIfNotExistsMessageType;
                 setDefaultRetentionPolicyMessageType;
                 createSeriesIfNotExistsMessageType])
  ∧ (dispatch m s = Returns (None, s)
     ∧ process m s = Returns (set_index (m_Index m) s)).
Proof.
  intros m s.
  assert (s_path s ≠ "") as Hopen by done.
  assert (m_Type m ∉ [writeSeriesMessageType; writeRawSeriesMessageType;
                      createDataNodeMessageType; deleteDataNodeMessageType;
                      createDatabaseMessageType; deleteDatabaseMessageType;
                      createUserMessageType; updateUserMessageType;
                      deleteUserMessageType; createRetentionPolicyMessageType;
                      updateRetentionPolicyMessageType;
                      deleteRetentionPolicyMessageType;
                      createShardGroupIfNotExistsMessageType;
                      setDefaultRetentionPolicyMessageType;
                      createSeriesIfNotExistsMessageType]) as Hunknown
    by by_decision.
  split; [exact Hopen|]. split; [exact Hunknown|].
  exact (unknown_message_type_is_acknowledged m s Hopen Hunknown).
Defined.
End MoreRuns.
